(** * Energy Skate Park: the skater model and its immutable snapshots

    A shallow embedding of [Skater] (the live model facade), of [SkaterState]
    (the per-step snapshot used by the physics loop) and of the drag handler
    of [SkaterNode], followed by the properties the specification states
    about them.

    Conventions of the embedding.

    - JavaScript numbers are modelled as real numbers: rounding, NaN and the
      infinities are abstracted away, so [isFinite] holds of every number.
    - [assert && assert( c )] is modelled with assertions enabled: an
      operation whose assertion fails has no result ([None]).
    - [SkaterState] instances are objects with identity, kept in a heap that
      maps locations to field records; [new SkaterState( ... )] allocates a
      fresh location and [state.f = v] writes one field of one object.
    - An AXON [Property] is a current value together with the initial value
      that [reset()] restores; setting a value notifies the linked
      listeners only when the value changes. Vectors are immutable values:
      writing the coordinates of a Property's vector in place is modelled
      as setting the Property to the new vector.
    - [Track] is not part of the files modelled here; a track is known by
      its identity, and the few queries made on it are taken from an
      environment [TrackEnv.t]. *)

From Stdlib Require Import Reals Lra.
From stdpp Require Import gmap strings.

Open Scope R_scope.

(** ** Numbers *)

Abbreviation number := R.

(** Every real number is finite. *)
Definition isFinite (_ : number) : bool := true.

(** [a > b], [a < b], [a >= b] and [a === b] as JavaScript tests. *)
Definition gtb (a b : number) : bool := if Rlt_dec b a then true else false.
Definition ltb (a b : number) : bool := if Rlt_dec a b then true else false.
Definition geb (a b : number) : bool := if Rle_dec b a then true else false.
Definition eqb (a b : number) : bool := if Req_dec_T a b then true else false.

(** Forward application, to write a method body as a sequence of statements. *)
Notation "s '|>' f" := (f s) (at level 45, left associativity, only parsing).

(** ** DOT: Range, Vector2 and Utils.linear *)

Module Range.

Record t : Type := mk { min : number; max : number }.

Definition contains (r : t) (v : number) : Prop := min r <= v <= max r.

End Range.

Module Vector2.

Record t : Type := mk { x : number; y : number }.

Definition magnitudeSquared (v : t) : number := x v * x v + y v * y v.

Definition magnitude (v : t) : number := sqrt (magnitudeSquared v).

Definition distance (a b : t) : number :=
  sqrt ((x a - x b) * (x a - x b) + (y a - y b) * (y a - y b)).

Definition equals (a b : t) : bool := eqb (x a) (x b) && eqb (y a) (y b).

Definition minus (a b : t) : t := mk (x a - x b) (y a - y b).

(** Vectors are values here, so a copy is the vector itself. *)
Definition copy (v : t) : t := v.

End Vector2.

Module Utils.

(** The line through [(a1, b1)] and [(a2, b2)], evaluated at [a3]. *)
Definition linear (a1 a2 b1 b2 a3 : number) : number :=
  (b2 - b1) / (a2 - a1) * (a3 - a1) + b1.

End Utils.

(** ** AXON: Property *)

Module Property.

Record t (A : Type) : Type := mk { value : A; initialValue : A }.
Arguments mk {A} _ _.
Arguments value {A} _.
Arguments initialValue {A} _.

Definition new {A} (v : A) : t A := mk v v.

Definition set {A} (v : A) (p : t A) : t A := mk v (initialValue p).

Definition reset {A} (p : t A) : t A := mk (initialValue p) (initialValue p).

End Property.

Abbreviation Property := Property.t.
Abbreviation value := Property.value.
Abbreviation initialValue := Property.initialValue.

(** ** Tracks *)

(** A track is a mutable object; the skater holds it by reference and
    compares tracks by identity. *)
Definition Track : Type := positive.

Module TrackEnv.

(** Modelled from the spec: Track is absent from the modelled files. The
    spec gives a track control points with a user-manipulable source
    position, and point and angle queries at a parametric position. An
    environment is the answer of every track to these queries at the moment
    of a call. *)
Record t : Type := mk {
  copyControlPointSources : Track -> list Vector2.t;
  getPoint : Track -> option number -> Vector2.t;
  getViewAngleAt : Track -> option number -> number;
  getUnitNormalVector : Track -> option number -> Vector2.t;
  isParameterInBounds : Track -> option number -> bool
}.

End TrackEnv.

(** Compare two arrays, whose elements have 'equals' methods for comparison. *)
Fixpoint arrayEquals_loop (a b : list Vector2.t) : bool :=
  match a, b with
  | elm1 :: a', elm2 :: b' =>
      if negb (Vector2.equals elm1 elm2) then false else arrayEquals_loop a' b'
  | _, _ => true
  end.

Definition arrayEquals (a b : list Vector2.t) : bool :=
  if negb (length a =? length b)%nat then false else arrayEquals_loop a b.

(** ** Skater: the live model *)

Module Skater.

(** The constructor options; their defaults come from Constants, which is
    not among the modelled files. *)
Module Options.

Record t : Type := mk { defaultMass : number; massRange : Range.t }.

End Options.

(** One field per Property of the constructor, holding its value and its
    initial value, and the three plain fields. The derived properties
    (gravity, speed, moved, allowClearingThermalEnergy) are functions of the
    fields they derive from. [startingTrackControlPointSources] and
    [startingAngle] are undefined until the skater is released. *)
Record t : Type := mk {
  massRange : Range.t;
  trackProperty : Property (option Track);
  parametricPositionProperty : Property (option number);
  parametricSpeedProperty : Property number;
  onTopSideOfTrackProperty : Property bool;
  gravityMagnitudeProperty : Property number;
  referenceHeightProperty : Property number;
  positionProperty : Property Vector2.t;
  massProperty : Property number;
  directionProperty : Property string;
  velocityProperty : Property Vector2.t;
  draggingProperty : Property bool;
  kineticEnergyProperty : Property number;
  potentialEnergyProperty : Property number;
  thermalEnergyProperty : Property number;
  totalEnergyProperty : Property number;
  angleProperty : Property number;
  startingPositionProperty : Property Vector2.t;
  startingUProperty : Property (option number);
  startingUpProperty : Property bool;
  startingTrackProperty : Property (option Track);
  headPositionProperty : Property Vector2.t;
  startingTrackControlPointSources : option (list Vector2.t);
  startingAngle : option number
}.

Definition upd_trackProperty (f : Property (option Track) -> Property (option Track))
    (s : t) : t :=
  {| massRange := massRange s; trackProperty := f (trackProperty s);
     parametricPositionProperty := parametricPositionProperty s;
     parametricSpeedProperty := parametricSpeedProperty s;
     onTopSideOfTrackProperty := onTopSideOfTrackProperty s;
     gravityMagnitudeProperty := gravityMagnitudeProperty s;
     referenceHeightProperty := referenceHeightProperty s;
     positionProperty := positionProperty s; massProperty := massProperty s;
     directionProperty := directionProperty s; velocityProperty := velocityProperty s;
     draggingProperty := draggingProperty s; kineticEnergyProperty := kineticEnergyProperty s;
     potentialEnergyProperty := potentialEnergyProperty s;
     thermalEnergyProperty := thermalEnergyProperty s;
     totalEnergyProperty := totalEnergyProperty s; angleProperty := angleProperty s;
     startingPositionProperty := startingPositionProperty s;
     startingUProperty := startingUProperty s; startingUpProperty := startingUpProperty s;
     startingTrackProperty := startingTrackProperty s;
     headPositionProperty := headPositionProperty s;
     startingTrackControlPointSources := startingTrackControlPointSources s;
     startingAngle := startingAngle s |}.

Definition upd_parametricPositionProperty (f : Property (option number) -> Property (option number))
    (s : t) : t :=
  {| massRange := massRange s; trackProperty := trackProperty s;
     parametricPositionProperty := f (parametricPositionProperty s);
     parametricSpeedProperty := parametricSpeedProperty s;
     onTopSideOfTrackProperty := onTopSideOfTrackProperty s;
     gravityMagnitudeProperty := gravityMagnitudeProperty s;
     referenceHeightProperty := referenceHeightProperty s;
     positionProperty := positionProperty s; massProperty := massProperty s;
     directionProperty := directionProperty s; velocityProperty := velocityProperty s;
     draggingProperty := draggingProperty s; kineticEnergyProperty := kineticEnergyProperty s;
     potentialEnergyProperty := potentialEnergyProperty s;
     thermalEnergyProperty := thermalEnergyProperty s;
     totalEnergyProperty := totalEnergyProperty s; angleProperty := angleProperty s;
     startingPositionProperty := startingPositionProperty s;
     startingUProperty := startingUProperty s; startingUpProperty := startingUpProperty s;
     startingTrackProperty := startingTrackProperty s;
     headPositionProperty := headPositionProperty s;
     startingTrackControlPointSources := startingTrackControlPointSources s;
     startingAngle := startingAngle s |}.

Definition upd_parametricSpeedProperty (f : Property number -> Property number) (s : t) : t :=
  {| massRange := massRange s; trackProperty := trackProperty s;
     parametricPositionProperty := parametricPositionProperty s;
     parametricSpeedProperty := f (parametricSpeedProperty s);
     onTopSideOfTrackProperty := onTopSideOfTrackProperty s;
     gravityMagnitudeProperty := gravityMagnitudeProperty s;
     referenceHeightProperty := referenceHeightProperty s;
     positionProperty := positionProperty s; massProperty := massProperty s;
     directionProperty := directionProperty s; velocityProperty := velocityProperty s;
     draggingProperty := draggingProperty s; kineticEnergyProperty := kineticEnergyProperty s;
     potentialEnergyProperty := potentialEnergyProperty s;
     thermalEnergyProperty := thermalEnergyProperty s;
     totalEnergyProperty := totalEnergyProperty s; angleProperty := angleProperty s;
     startingPositionProperty := startingPositionProperty s;
     startingUProperty := startingUProperty s; startingUpProperty := startingUpProperty s;
     startingTrackProperty := startingTrackProperty s;
     headPositionProperty := headPositionProperty s;
     startingTrackControlPointSources := startingTrackControlPointSources s;
     startingAngle := startingAngle s |}.

Definition upd_onTopSideOfTrackProperty (f : Property bool -> Property bool) (s : t) : t :=
  {| massRange := massRange s; trackProperty := trackProperty s;
     parametricPositionProperty := parametricPositionProperty s;
     parametricSpeedProperty := parametricSpeedProperty s;
     onTopSideOfTrackProperty := f (onTopSideOfTrackProperty s);
     gravityMagnitudeProperty := gravityMagnitudeProperty s;
     referenceHeightProperty := referenceHeightProperty s;
     positionProperty := positionProperty s; massProperty := massProperty s;
     directionProperty := directionProperty s; velocityProperty := velocityProperty s;
     draggingProperty := draggingProperty s; kineticEnergyProperty := kineticEnergyProperty s;
     potentialEnergyProperty := potentialEnergyProperty s;
     thermalEnergyProperty := thermalEnergyProperty s;
     totalEnergyProperty := totalEnergyProperty s; angleProperty := angleProperty s;
     startingPositionProperty := startingPositionProperty s;
     startingUProperty := startingUProperty s; startingUpProperty := startingUpProperty s;
     startingTrackProperty := startingTrackProperty s;
     headPositionProperty := headPositionProperty s;
     startingTrackControlPointSources := startingTrackControlPointSources s;
     startingAngle := startingAngle s |}.

Definition upd_gravityMagnitudeProperty (f : Property number -> Property number) (s : t) : t :=
  {| massRange := massRange s; trackProperty := trackProperty s;
     parametricPositionProperty := parametricPositionProperty s;
     parametricSpeedProperty := parametricSpeedProperty s;
     onTopSideOfTrackProperty := onTopSideOfTrackProperty s;
     gravityMagnitudeProperty := f (gravityMagnitudeProperty s);
     referenceHeightProperty := referenceHeightProperty s;
     positionProperty := positionProperty s; massProperty := massProperty s;
     directionProperty := directionProperty s; velocityProperty := velocityProperty s;
     draggingProperty := draggingProperty s; kineticEnergyProperty := kineticEnergyProperty s;
     potentialEnergyProperty := potentialEnergyProperty s;
     thermalEnergyProperty := thermalEnergyProperty s;
     totalEnergyProperty := totalEnergyProperty s; angleProperty := angleProperty s;
     startingPositionProperty := startingPositionProperty s;
     startingUProperty := startingUProperty s; startingUpProperty := startingUpProperty s;
     startingTrackProperty := startingTrackProperty s;
     headPositionProperty := headPositionProperty s;
     startingTrackControlPointSources := startingTrackControlPointSources s;
     startingAngle := startingAngle s |}.

Definition upd_referenceHeightProperty (f : Property number -> Property number) (s : t) : t :=
  {| massRange := massRange s; trackProperty := trackProperty s;
     parametricPositionProperty := parametricPositionProperty s;
     parametricSpeedProperty := parametricSpeedProperty s;
     onTopSideOfTrackProperty := onTopSideOfTrackProperty s;
     gravityMagnitudeProperty := gravityMagnitudeProperty s;
     referenceHeightProperty := f (referenceHeightProperty s);
     positionProperty := positionProperty s; massProperty := massProperty s;
     directionProperty := directionProperty s; velocityProperty := velocityProperty s;
     draggingProperty := draggingProperty s; kineticEnergyProperty := kineticEnergyProperty s;
     potentialEnergyProperty := potentialEnergyProperty s;
     thermalEnergyProperty := thermalEnergyProperty s;
     totalEnergyProperty := totalEnergyProperty s; angleProperty := angleProperty s;
     startingPositionProperty := startingPositionProperty s;
     startingUProperty := startingUProperty s; startingUpProperty := startingUpProperty s;
     startingTrackProperty := startingTrackProperty s;
     headPositionProperty := headPositionProperty s;
     startingTrackControlPointSources := startingTrackControlPointSources s;
     startingAngle := startingAngle s |}.

Definition upd_positionProperty (f : Property Vector2.t -> Property Vector2.t) (s : t) : t :=
  {| massRange := massRange s; trackProperty := trackProperty s;
     parametricPositionProperty := parametricPositionProperty s;
     parametricSpeedProperty := parametricSpeedProperty s;
     onTopSideOfTrackProperty := onTopSideOfTrackProperty s;
     gravityMagnitudeProperty := gravityMagnitudeProperty s;
     referenceHeightProperty := referenceHeightProperty s;
     positionProperty := f (positionProperty s); massProperty := massProperty s;
     directionProperty := directionProperty s; velocityProperty := velocityProperty s;
     draggingProperty := draggingProperty s; kineticEnergyProperty := kineticEnergyProperty s;
     potentialEnergyProperty := potentialEnergyProperty s;
     thermalEnergyProperty := thermalEnergyProperty s;
     totalEnergyProperty := totalEnergyProperty s; angleProperty := angleProperty s;
     startingPositionProperty := startingPositionProperty s;
     startingUProperty := startingUProperty s; startingUpProperty := startingUpProperty s;
     startingTrackProperty := startingTrackProperty s;
     headPositionProperty := headPositionProperty s;
     startingTrackControlPointSources := startingTrackControlPointSources s;
     startingAngle := startingAngle s |}.

Definition upd_massProperty (f : Property number -> Property number) (s : t) : t :=
  {| massRange := massRange s; trackProperty := trackProperty s;
     parametricPositionProperty := parametricPositionProperty s;
     parametricSpeedProperty := parametricSpeedProperty s;
     onTopSideOfTrackProperty := onTopSideOfTrackProperty s;
     gravityMagnitudeProperty := gravityMagnitudeProperty s;
     referenceHeightProperty := referenceHeightProperty s;
     positionProperty := positionProperty s; massProperty := f (massProperty s);
     directionProperty := directionProperty s; velocityProperty := velocityProperty s;
     draggingProperty := draggingProperty s; kineticEnergyProperty := kineticEnergyProperty s;
     potentialEnergyProperty := potentialEnergyProperty s;
     thermalEnergyProperty := thermalEnergyProperty s;
     totalEnergyProperty := totalEnergyProperty s; angleProperty := angleProperty s;
     startingPositionProperty := startingPositionProperty s;
     startingUProperty := startingUProperty s; startingUpProperty := startingUpProperty s;
     startingTrackProperty := startingTrackProperty s;
     headPositionProperty := headPositionProperty s;
     startingTrackControlPointSources := startingTrackControlPointSources s;
     startingAngle := startingAngle s |}.

Definition upd_directionProperty (f : Property string -> Property string) (s : t) : t :=
  {| massRange := massRange s; trackProperty := trackProperty s;
     parametricPositionProperty := parametricPositionProperty s;
     parametricSpeedProperty := parametricSpeedProperty s;
     onTopSideOfTrackProperty := onTopSideOfTrackProperty s;
     gravityMagnitudeProperty := gravityMagnitudeProperty s;
     referenceHeightProperty := referenceHeightProperty s;
     positionProperty := positionProperty s; massProperty := massProperty s;
     directionProperty := f (directionProperty s); velocityProperty := velocityProperty s;
     draggingProperty := draggingProperty s; kineticEnergyProperty := kineticEnergyProperty s;
     potentialEnergyProperty := potentialEnergyProperty s;
     thermalEnergyProperty := thermalEnergyProperty s;
     totalEnergyProperty := totalEnergyProperty s; angleProperty := angleProperty s;
     startingPositionProperty := startingPositionProperty s;
     startingUProperty := startingUProperty s; startingUpProperty := startingUpProperty s;
     startingTrackProperty := startingTrackProperty s;
     headPositionProperty := headPositionProperty s;
     startingTrackControlPointSources := startingTrackControlPointSources s;
     startingAngle := startingAngle s |}.

Definition upd_velocityProperty (f : Property Vector2.t -> Property Vector2.t) (s : t) : t :=
  {| massRange := massRange s; trackProperty := trackProperty s;
     parametricPositionProperty := parametricPositionProperty s;
     parametricSpeedProperty := parametricSpeedProperty s;
     onTopSideOfTrackProperty := onTopSideOfTrackProperty s;
     gravityMagnitudeProperty := gravityMagnitudeProperty s;
     referenceHeightProperty := referenceHeightProperty s;
     positionProperty := positionProperty s; massProperty := massProperty s;
     directionProperty := directionProperty s; velocityProperty := f (velocityProperty s);
     draggingProperty := draggingProperty s; kineticEnergyProperty := kineticEnergyProperty s;
     potentialEnergyProperty := potentialEnergyProperty s;
     thermalEnergyProperty := thermalEnergyProperty s;
     totalEnergyProperty := totalEnergyProperty s; angleProperty := angleProperty s;
     startingPositionProperty := startingPositionProperty s;
     startingUProperty := startingUProperty s; startingUpProperty := startingUpProperty s;
     startingTrackProperty := startingTrackProperty s;
     headPositionProperty := headPositionProperty s;
     startingTrackControlPointSources := startingTrackControlPointSources s;
     startingAngle := startingAngle s |}.

Definition upd_draggingProperty (f : Property bool -> Property bool) (s : t) : t :=
  {| massRange := massRange s; trackProperty := trackProperty s;
     parametricPositionProperty := parametricPositionProperty s;
     parametricSpeedProperty := parametricSpeedProperty s;
     onTopSideOfTrackProperty := onTopSideOfTrackProperty s;
     gravityMagnitudeProperty := gravityMagnitudeProperty s;
     referenceHeightProperty := referenceHeightProperty s;
     positionProperty := positionProperty s; massProperty := massProperty s;
     directionProperty := directionProperty s; velocityProperty := velocityProperty s;
     draggingProperty := f (draggingProperty s);
     kineticEnergyProperty := kineticEnergyProperty s;
     potentialEnergyProperty := potentialEnergyProperty s;
     thermalEnergyProperty := thermalEnergyProperty s;
     totalEnergyProperty := totalEnergyProperty s; angleProperty := angleProperty s;
     startingPositionProperty := startingPositionProperty s;
     startingUProperty := startingUProperty s; startingUpProperty := startingUpProperty s;
     startingTrackProperty := startingTrackProperty s;
     headPositionProperty := headPositionProperty s;
     startingTrackControlPointSources := startingTrackControlPointSources s;
     startingAngle := startingAngle s |}.

Definition upd_kineticEnergyProperty (f : Property number -> Property number) (s : t) : t :=
  {| massRange := massRange s; trackProperty := trackProperty s;
     parametricPositionProperty := parametricPositionProperty s;
     parametricSpeedProperty := parametricSpeedProperty s;
     onTopSideOfTrackProperty := onTopSideOfTrackProperty s;
     gravityMagnitudeProperty := gravityMagnitudeProperty s;
     referenceHeightProperty := referenceHeightProperty s;
     positionProperty := positionProperty s; massProperty := massProperty s;
     directionProperty := directionProperty s; velocityProperty := velocityProperty s;
     draggingProperty := draggingProperty s;
     kineticEnergyProperty := f (kineticEnergyProperty s);
     potentialEnergyProperty := potentialEnergyProperty s;
     thermalEnergyProperty := thermalEnergyProperty s;
     totalEnergyProperty := totalEnergyProperty s; angleProperty := angleProperty s;
     startingPositionProperty := startingPositionProperty s;
     startingUProperty := startingUProperty s; startingUpProperty := startingUpProperty s;
     startingTrackProperty := startingTrackProperty s;
     headPositionProperty := headPositionProperty s;
     startingTrackControlPointSources := startingTrackControlPointSources s;
     startingAngle := startingAngle s |}.

Definition upd_potentialEnergyProperty (f : Property number -> Property number) (s : t) : t :=
  {| massRange := massRange s; trackProperty := trackProperty s;
     parametricPositionProperty := parametricPositionProperty s;
     parametricSpeedProperty := parametricSpeedProperty s;
     onTopSideOfTrackProperty := onTopSideOfTrackProperty s;
     gravityMagnitudeProperty := gravityMagnitudeProperty s;
     referenceHeightProperty := referenceHeightProperty s;
     positionProperty := positionProperty s; massProperty := massProperty s;
     directionProperty := directionProperty s; velocityProperty := velocityProperty s;
     draggingProperty := draggingProperty s; kineticEnergyProperty := kineticEnergyProperty s;
     potentialEnergyProperty := f (potentialEnergyProperty s);
     thermalEnergyProperty := thermalEnergyProperty s;
     totalEnergyProperty := totalEnergyProperty s; angleProperty := angleProperty s;
     startingPositionProperty := startingPositionProperty s;
     startingUProperty := startingUProperty s; startingUpProperty := startingUpProperty s;
     startingTrackProperty := startingTrackProperty s;
     headPositionProperty := headPositionProperty s;
     startingTrackControlPointSources := startingTrackControlPointSources s;
     startingAngle := startingAngle s |}.

Definition upd_thermalEnergyProperty (f : Property number -> Property number) (s : t) : t :=
  {| massRange := massRange s; trackProperty := trackProperty s;
     parametricPositionProperty := parametricPositionProperty s;
     parametricSpeedProperty := parametricSpeedProperty s;
     onTopSideOfTrackProperty := onTopSideOfTrackProperty s;
     gravityMagnitudeProperty := gravityMagnitudeProperty s;
     referenceHeightProperty := referenceHeightProperty s;
     positionProperty := positionProperty s; massProperty := massProperty s;
     directionProperty := directionProperty s; velocityProperty := velocityProperty s;
     draggingProperty := draggingProperty s; kineticEnergyProperty := kineticEnergyProperty s;
     potentialEnergyProperty := potentialEnergyProperty s;
     thermalEnergyProperty := f (thermalEnergyProperty s);
     totalEnergyProperty := totalEnergyProperty s; angleProperty := angleProperty s;
     startingPositionProperty := startingPositionProperty s;
     startingUProperty := startingUProperty s; startingUpProperty := startingUpProperty s;
     startingTrackProperty := startingTrackProperty s;
     headPositionProperty := headPositionProperty s;
     startingTrackControlPointSources := startingTrackControlPointSources s;
     startingAngle := startingAngle s |}.

Definition upd_totalEnergyProperty (f : Property number -> Property number) (s : t) : t :=
  {| massRange := massRange s; trackProperty := trackProperty s;
     parametricPositionProperty := parametricPositionProperty s;
     parametricSpeedProperty := parametricSpeedProperty s;
     onTopSideOfTrackProperty := onTopSideOfTrackProperty s;
     gravityMagnitudeProperty := gravityMagnitudeProperty s;
     referenceHeightProperty := referenceHeightProperty s;
     positionProperty := positionProperty s; massProperty := massProperty s;
     directionProperty := directionProperty s; velocityProperty := velocityProperty s;
     draggingProperty := draggingProperty s; kineticEnergyProperty := kineticEnergyProperty s;
     potentialEnergyProperty := potentialEnergyProperty s;
     thermalEnergyProperty := thermalEnergyProperty s;
     totalEnergyProperty := f (totalEnergyProperty s); angleProperty := angleProperty s;
     startingPositionProperty := startingPositionProperty s;
     startingUProperty := startingUProperty s; startingUpProperty := startingUpProperty s;
     startingTrackProperty := startingTrackProperty s;
     headPositionProperty := headPositionProperty s;
     startingTrackControlPointSources := startingTrackControlPointSources s;
     startingAngle := startingAngle s |}.

Definition upd_angleProperty (f : Property number -> Property number) (s : t) : t :=
  {| massRange := massRange s; trackProperty := trackProperty s;
     parametricPositionProperty := parametricPositionProperty s;
     parametricSpeedProperty := parametricSpeedProperty s;
     onTopSideOfTrackProperty := onTopSideOfTrackProperty s;
     gravityMagnitudeProperty := gravityMagnitudeProperty s;
     referenceHeightProperty := referenceHeightProperty s;
     positionProperty := positionProperty s; massProperty := massProperty s;
     directionProperty := directionProperty s; velocityProperty := velocityProperty s;
     draggingProperty := draggingProperty s; kineticEnergyProperty := kineticEnergyProperty s;
     potentialEnergyProperty := potentialEnergyProperty s;
     thermalEnergyProperty := thermalEnergyProperty s;
     totalEnergyProperty := totalEnergyProperty s; angleProperty := f (angleProperty s);
     startingPositionProperty := startingPositionProperty s;
     startingUProperty := startingUProperty s; startingUpProperty := startingUpProperty s;
     startingTrackProperty := startingTrackProperty s;
     headPositionProperty := headPositionProperty s;
     startingTrackControlPointSources := startingTrackControlPointSources s;
     startingAngle := startingAngle s |}.

Definition upd_startingPositionProperty (f : Property Vector2.t -> Property Vector2.t)
    (s : t) : t :=
  {| massRange := massRange s; trackProperty := trackProperty s;
     parametricPositionProperty := parametricPositionProperty s;
     parametricSpeedProperty := parametricSpeedProperty s;
     onTopSideOfTrackProperty := onTopSideOfTrackProperty s;
     gravityMagnitudeProperty := gravityMagnitudeProperty s;
     referenceHeightProperty := referenceHeightProperty s;
     positionProperty := positionProperty s; massProperty := massProperty s;
     directionProperty := directionProperty s; velocityProperty := velocityProperty s;
     draggingProperty := draggingProperty s; kineticEnergyProperty := kineticEnergyProperty s;
     potentialEnergyProperty := potentialEnergyProperty s;
     thermalEnergyProperty := thermalEnergyProperty s;
     totalEnergyProperty := totalEnergyProperty s; angleProperty := angleProperty s;
     startingPositionProperty := f (startingPositionProperty s);
     startingUProperty := startingUProperty s; startingUpProperty := startingUpProperty s;
     startingTrackProperty := startingTrackProperty s;
     headPositionProperty := headPositionProperty s;
     startingTrackControlPointSources := startingTrackControlPointSources s;
     startingAngle := startingAngle s |}.

Definition upd_startingUProperty (f : Property (option number) -> Property (option number))
    (s : t) : t :=
  {| massRange := massRange s; trackProperty := trackProperty s;
     parametricPositionProperty := parametricPositionProperty s;
     parametricSpeedProperty := parametricSpeedProperty s;
     onTopSideOfTrackProperty := onTopSideOfTrackProperty s;
     gravityMagnitudeProperty := gravityMagnitudeProperty s;
     referenceHeightProperty := referenceHeightProperty s;
     positionProperty := positionProperty s; massProperty := massProperty s;
     directionProperty := directionProperty s; velocityProperty := velocityProperty s;
     draggingProperty := draggingProperty s; kineticEnergyProperty := kineticEnergyProperty s;
     potentialEnergyProperty := potentialEnergyProperty s;
     thermalEnergyProperty := thermalEnergyProperty s;
     totalEnergyProperty := totalEnergyProperty s; angleProperty := angleProperty s;
     startingPositionProperty := startingPositionProperty s;
     startingUProperty := f (startingUProperty s); startingUpProperty := startingUpProperty s;
     startingTrackProperty := startingTrackProperty s;
     headPositionProperty := headPositionProperty s;
     startingTrackControlPointSources := startingTrackControlPointSources s;
     startingAngle := startingAngle s |}.

Definition upd_startingUpProperty (f : Property bool -> Property bool) (s : t) : t :=
  {| massRange := massRange s; trackProperty := trackProperty s;
     parametricPositionProperty := parametricPositionProperty s;
     parametricSpeedProperty := parametricSpeedProperty s;
     onTopSideOfTrackProperty := onTopSideOfTrackProperty s;
     gravityMagnitudeProperty := gravityMagnitudeProperty s;
     referenceHeightProperty := referenceHeightProperty s;
     positionProperty := positionProperty s; massProperty := massProperty s;
     directionProperty := directionProperty s; velocityProperty := velocityProperty s;
     draggingProperty := draggingProperty s; kineticEnergyProperty := kineticEnergyProperty s;
     potentialEnergyProperty := potentialEnergyProperty s;
     thermalEnergyProperty := thermalEnergyProperty s;
     totalEnergyProperty := totalEnergyProperty s; angleProperty := angleProperty s;
     startingPositionProperty := startingPositionProperty s;
     startingUProperty := startingUProperty s; startingUpProperty := f (startingUpProperty s);
     startingTrackProperty := startingTrackProperty s;
     headPositionProperty := headPositionProperty s;
     startingTrackControlPointSources := startingTrackControlPointSources s;
     startingAngle := startingAngle s |}.

Definition upd_startingTrackProperty (f : Property (option Track) -> Property (option Track))
    (s : t) : t :=
  {| massRange := massRange s; trackProperty := trackProperty s;
     parametricPositionProperty := parametricPositionProperty s;
     parametricSpeedProperty := parametricSpeedProperty s;
     onTopSideOfTrackProperty := onTopSideOfTrackProperty s;
     gravityMagnitudeProperty := gravityMagnitudeProperty s;
     referenceHeightProperty := referenceHeightProperty s;
     positionProperty := positionProperty s; massProperty := massProperty s;
     directionProperty := directionProperty s; velocityProperty := velocityProperty s;
     draggingProperty := draggingProperty s; kineticEnergyProperty := kineticEnergyProperty s;
     potentialEnergyProperty := potentialEnergyProperty s;
     thermalEnergyProperty := thermalEnergyProperty s;
     totalEnergyProperty := totalEnergyProperty s; angleProperty := angleProperty s;
     startingPositionProperty := startingPositionProperty s;
     startingUProperty := startingUProperty s; startingUpProperty := startingUpProperty s;
     startingTrackProperty := f (startingTrackProperty s);
     headPositionProperty := headPositionProperty s;
     startingTrackControlPointSources := startingTrackControlPointSources s;
     startingAngle := startingAngle s |}.

Definition upd_headPositionProperty (f : Property Vector2.t -> Property Vector2.t)
    (s : t) : t :=
  {| massRange := massRange s; trackProperty := trackProperty s;
     parametricPositionProperty := parametricPositionProperty s;
     parametricSpeedProperty := parametricSpeedProperty s;
     onTopSideOfTrackProperty := onTopSideOfTrackProperty s;
     gravityMagnitudeProperty := gravityMagnitudeProperty s;
     referenceHeightProperty := referenceHeightProperty s;
     positionProperty := positionProperty s; massProperty := massProperty s;
     directionProperty := directionProperty s; velocityProperty := velocityProperty s;
     draggingProperty := draggingProperty s; kineticEnergyProperty := kineticEnergyProperty s;
     potentialEnergyProperty := potentialEnergyProperty s;
     thermalEnergyProperty := thermalEnergyProperty s;
     totalEnergyProperty := totalEnergyProperty s; angleProperty := angleProperty s;
     startingPositionProperty := startingPositionProperty s;
     startingUProperty := startingUProperty s; startingUpProperty := startingUpProperty s;
     startingTrackProperty := startingTrackProperty s;
     headPositionProperty := f (headPositionProperty s);
     startingTrackControlPointSources := startingTrackControlPointSources s;
     startingAngle := startingAngle s |}.

Definition set_startingTrackControlPointSources (v : option (list Vector2.t)) (s : t) : t :=
  {| massRange := massRange s; trackProperty := trackProperty s;
     parametricPositionProperty := parametricPositionProperty s;
     parametricSpeedProperty := parametricSpeedProperty s;
     onTopSideOfTrackProperty := onTopSideOfTrackProperty s;
     gravityMagnitudeProperty := gravityMagnitudeProperty s;
     referenceHeightProperty := referenceHeightProperty s;
     positionProperty := positionProperty s; massProperty := massProperty s;
     directionProperty := directionProperty s; velocityProperty := velocityProperty s;
     draggingProperty := draggingProperty s; kineticEnergyProperty := kineticEnergyProperty s;
     potentialEnergyProperty := potentialEnergyProperty s;
     thermalEnergyProperty := thermalEnergyProperty s;
     totalEnergyProperty := totalEnergyProperty s; angleProperty := angleProperty s;
     startingPositionProperty := startingPositionProperty s;
     startingUProperty := startingUProperty s; startingUpProperty := startingUpProperty s;
     startingTrackProperty := startingTrackProperty s;
     headPositionProperty := headPositionProperty s; startingTrackControlPointSources := v;
     startingAngle := startingAngle s |}.

Definition set_startingAngle (v : option number) (s : t) : t :=
  {| massRange := massRange s; trackProperty := trackProperty s;
     parametricPositionProperty := parametricPositionProperty s;
     parametricSpeedProperty := parametricSpeedProperty s;
     onTopSideOfTrackProperty := onTopSideOfTrackProperty s;
     gravityMagnitudeProperty := gravityMagnitudeProperty s;
     referenceHeightProperty := referenceHeightProperty s;
     positionProperty := positionProperty s; massProperty := massProperty s;
     directionProperty := directionProperty s; velocityProperty := velocityProperty s;
     draggingProperty := draggingProperty s; kineticEnergyProperty := kineticEnergyProperty s;
     potentialEnergyProperty := potentialEnergyProperty s;
     thermalEnergyProperty := thermalEnergyProperty s;
     totalEnergyProperty := totalEnergyProperty s; angleProperty := angleProperty s;
     startingPositionProperty := startingPositionProperty s;
     startingUProperty := startingUProperty s; startingUpProperty := startingUpProperty s;
     startingTrackProperty := startingTrackProperty s;
     headPositionProperty := headPositionProperty s;
     startingTrackControlPointSources := startingTrackControlPointSources s;
     startingAngle := v |}.

(** gravityProperty is derived from the gravity magnitude: the magnitude
    with the direction of gravity applied. *)
Definition gravity (s : t) : number := - value (gravityMagnitudeProperty s).

(** speedProperty, derived from the velocity. *)
Definition speed (s : t) : number := Vector2.magnitude (value (velocityProperty s)).

(** movedProperty: whether the skater has moved from his initial position. *)
Definition moved (s : t) : bool :=
  let x := value (positionProperty s) in
  let x0 := value (startingPositionProperty s) in
  negb (value (draggingProperty s))
  && (negb (eqb (Vector2.x x) (Vector2.x x0)) || negb (eqb (Vector2.y x) (Vector2.y x0))).

(** allowClearingThermalEnergyProperty. *)
Definition allowClearingThermalEnergy (s : t) : bool :=
  gtb (value (thermalEnergyProperty s)) 1E-2.

(** Update the energies as a batch. Signalling energyChangedEmitter only
    reaches listeners outside the model. *)
Definition updateEnergy (s : t) : t :=
  let s := s |> upd_kineticEnergyProperty (Property.set
    (0.5 * value (massProperty s) * Vector2.magnitudeSquared (value (velocityProperty s)))) in
  let s := s |> upd_potentialEnergyProperty (Property.set
    (- value (massProperty s)
     * (Vector2.y (value (positionProperty s)) - value (referenceHeightProperty s))
     * gravity s)) in
  s |> upd_totalEnergyProperty (Property.set
    (value (kineticEnergyProperty s) + value (potentialEnergyProperty s)
     + value (thermalEnergyProperty s))).

(** The listener linked to draggingProperty: zero the kinetic energy when
    dragging. *)
Definition draggingListener (dragging : bool) (s : t) : t :=
  if dragging then s |> upd_velocityProperty (Property.set (Vector2.mk 0 0)) else s.

(** The listener linked to parametricSpeedProperty: the skater has to
    overcome a speed threshold to change direction. *)
Definition parametricSpeedListener (parametricSpeed : number) (s : t) : t :=
  let speedThreshold := 0.01 in
  if gtb parametricSpeed speedThreshold then
    s |> upd_directionProperty (Property.set
      (if value (onTopSideOfTrackProperty s) then "right" else "left")%string)
  else if ltb parametricSpeed (- speedThreshold) then
    s |> upd_directionProperty (Property.set
      (if value (onTopSideOfTrackProperty s) then "left" else "right")%string)
  else
    (* Keep the same direction *)
    s.

(** The listener linked to massProperty. *)
Definition massListener (s : t) : t := updateEnergy s.

(** Assignments to the value of a Property with a linked listener: the
    listener runs when the value changes. *)
Definition set_dragging (v : bool) (s : t) : t :=
  if Bool.eqb v (value (draggingProperty s)) then s
  else s |> upd_draggingProperty (Property.set v) |> draggingListener v.

Definition set_parametricSpeed (v : number) (s : t) : t :=
  if eqb v (value (parametricSpeedProperty s)) then s
  else s |> upd_parametricSpeedProperty (Property.set v) |> parametricSpeedListener v.

Definition set_mass (v : number) (s : t) : t :=
  if eqb v (value (massProperty s)) then s
  else s |> upd_massProperty (Property.set v) |> massListener.

(** [reset()] of these three properties sets the initial value. *)
Definition reset_draggingProperty (s : t) : t :=
  set_dragging (initialValue (draggingProperty s)) s.

Definition reset_parametricSpeedProperty (s : t) : t :=
  set_parametricSpeed (initialValue (parametricSpeedProperty s)) s.

Definition reset_massProperty (s : t) : t :=
  set_mass (initialValue (massProperty s)) s.

(** The head position of a skater of the given mass and angle standing at
    [position]; the body of getHeadPosition. *)
Definition headPositionAt (massRange : Range.t) (mass angle : number)
    (position : Vector2.t) : Vector2.t :=
  let skaterHeight :=
    Utils.linear (Range.min massRange) (Range.max massRange) 1.65 2.4 mass in
  let vectorX := skaterHeight * cos (angle - PI / 2) in
  let vectorY := skaterHeight * sin (angle - PI / 2) in
  Vector2.mk (Vector2.x position + vectorX) (Vector2.y position - vectorY).

Definition getHeadPosition (s : t) : Vector2.t :=
  headPositionAt (massRange s) (value (massProperty s)) (value (angleProperty s))
    (value (positionProperty s)).

(** Get the vector from feet to head. *)
Definition upVector (s : t) : Vector2.t :=
  Vector2.minus (value (headPositionProperty s)) (value (positionProperty s)).

(** Update the head position for showing the pie chart. *)
Definition updateHeadPosition (s : t) : t :=
  let headPosition := getHeadPosition s in
  s |> upd_headPositionProperty (Property.set headPosition).

(** updatedEmitter.emit(): the model's own listener updates the head
    position; the other listeners are views. *)
Definition updatedEmitter_emit (s : t) : t := updateHeadPosition s.

(** The constructor. *)
Definition new (options : Options.t) : t :=
  let massRange := Options.massRange options in
  let s :=
    {| massRange := massRange;
       trackProperty := Property.new None;
       parametricPositionProperty := Property.new (Some 0);
       parametricSpeedProperty := Property.new 0;
       onTopSideOfTrackProperty := Property.new true;
       gravityMagnitudeProperty := Property.new 9.8;
       referenceHeightProperty := Property.new 0;
       positionProperty := Property.new (Vector2.mk 3.5 0);
       massProperty := Property.new (Options.defaultMass options);
       directionProperty := Property.new "left"%string;
       velocityProperty := Property.new (Vector2.mk 0 0);
       draggingProperty := Property.new false;
       kineticEnergyProperty := Property.new 0;
       potentialEnergyProperty := Property.new 0;
       thermalEnergyProperty := Property.new 0;
       totalEnergyProperty := Property.new 0;
       angleProperty := Property.new 0;
       startingPositionProperty := Property.new (Vector2.mk 3.5 0);
       startingUProperty := Property.new (Some 0);
       startingUpProperty := Property.new true;
       startingTrackProperty := Property.new None;
       headPositionProperty :=
         Property.new (headPositionAt massRange (Options.defaultMass options) 0 (Vector2.mk 3.5 0));
       startingTrackControlPointSources := None;
       startingAngle := None |} in
  (* link calls the listener once with the current value *)
  let s := s |> draggingListener (value (draggingProperty s)) in
  let s := s |> parametricSpeedListener (value (parametricSpeedProperty s)) in
  let s := s |> massListener in
  s |> updateEnergy.

(** Zero the thermal energy, and update energy distribution accordingly. *)
Definition clearThermal (s : t) : t :=
  s |> upd_thermalEnergyProperty (Property.set 0) |> updateEnergy.

(** Fully reset this skater. *)
Definition reset (s : t) : t :=
  s |> upd_angleProperty (Property.set 0)
    |> upd_trackProperty Property.reset
    |> upd_parametricPositionProperty Property.reset
    |> reset_parametricSpeedProperty
    |> upd_onTopSideOfTrackProperty Property.reset
    |> upd_gravityMagnitudeProperty Property.reset
    |> upd_referenceHeightProperty Property.reset
    |> upd_positionProperty Property.reset
    |> reset_massProperty
    |> upd_directionProperty Property.reset
    |> upd_velocityProperty Property.reset
    |> reset_draggingProperty
    |> upd_kineticEnergyProperty Property.reset
    |> upd_potentialEnergyProperty Property.reset
    |> upd_thermalEnergyProperty Property.reset
    |> upd_totalEnergyProperty Property.reset
    |> upd_angleProperty Property.reset
    |> upd_startingPositionProperty Property.reset
    |> upd_startingUProperty Property.reset
    |> upd_startingUpProperty Property.reset
    |> upd_startingTrackProperty Property.reset
    |> upd_headPositionProperty Property.reset
    |> updateEnergy
    |> updatedEmitter_emit.

(** Move the skater to her initial position, but leave the reference
    height, friction, and mass the same. *)
Definition resetPosition (s : t) : t :=
  let s := s |> upd_angleProperty (Property.set 0) in
  let mass := value (massProperty s) in
  s |> upd_trackProperty Property.reset
    |> upd_parametricPositionProperty Property.reset
    |> reset_parametricSpeedProperty
    |> upd_onTopSideOfTrackProperty Property.reset
    |> upd_gravityMagnitudeProperty Property.reset
    |> upd_positionProperty Property.reset
    |> reset_massProperty
    |> upd_directionProperty Property.reset
    |> upd_velocityProperty Property.reset
    |> reset_draggingProperty
    |> upd_kineticEnergyProperty Property.reset
    |> upd_potentialEnergyProperty Property.reset
    |> upd_thermalEnergyProperty Property.reset
    |> upd_totalEnergyProperty Property.reset
    |> upd_angleProperty Property.reset
    |> upd_startingPositionProperty Property.reset
    |> upd_startingUProperty Property.reset
    |> upd_startingUpProperty Property.reset
    |> upd_startingTrackProperty Property.reset
    |> upd_headPositionProperty Property.reset
    |> set_mass mass
    |> updateEnergy
    |> updatedEmitter_emit.

(** When the scene (track) is changed, the skater's position and velocity
    reset, but the mass does not. *)
Definition returnToInitialPosition (s : t) : t :=
  let mass := value (massProperty s) in
  s |> reset |> set_mass mass.

(** Whether the skater is on the track where he began and the track has not
    changed; [None] when the comparison reads the undefined
    [startingTrackControlPointSources]. *)
Definition onUnchangedStartingTrack (env : TrackEnv.t) (s : t) : option bool :=
  match value (startingTrackProperty s), value (trackProperty s) with
  | Some startingTrack, Some track =>
      if decide (track = startingTrack) then
        sources ← startingTrackControlPointSources s;
        Some (arrayEquals (TrackEnv.copyControlPointSources env track) sources)
      else Some false
  | _, _ => Some false
  end.

(** Return the skater to the last location it was released by the user (or
    its starting location), including the position on a track (if any).
    There is no result when [startingAngle] is still undefined: angleProperty
    takes numbers only. returnedEmitter has no listener in the model. *)
Definition returnSkater (env : TrackEnv.t) (s : t) : option t :=
  sameTrack ← onUnchangedStartingTrack env s;
  startingAngle ← startingAngle s;
  let s :=
    if (sameTrack : bool) then
      s |> upd_parametricPositionProperty (Property.set (value (startingUProperty s)))
        |> upd_angleProperty (Property.set startingAngle)
        |> upd_onTopSideOfTrackProperty (Property.set (value (startingUpProperty s)))
        |> set_parametricSpeed 0
    else
      s |> upd_trackProperty (Property.set None)
        |> upd_angleProperty (Property.set startingAngle) in
  Some (s |> upd_positionProperty
               (Property.set (Vector2.copy (value (startingPositionProperty s))))
          |> upd_velocityProperty (Property.set (Vector2.mk 0 0))
          |> clearThermal
          |> updateEnergy
          |> updatedEmitter_emit).

(** If the skater is released, store the initial conditions for when the
    skater is returned. *)
Definition released (env : TrackEnv.t) (targetTrack : option Track)
    (targetU : option number) (s : t) : t :=
  let s := s |> set_dragging false in
  let s := s |> upd_velocityProperty (Property.set (Vector2.mk 0 0)) in
  let s := s |> set_parametricSpeed 0 in
  let s := s |> upd_trackProperty (Property.set targetTrack) in
  let s := s |> upd_parametricPositionProperty (Property.set targetU) in
  let s :=
    match targetTrack with
    | Some track =>
        s |> upd_positionProperty (Property.set
               (TrackEnv.getPoint env track (value (parametricPositionProperty s))))
    | None => s
    end in
  let s := s |> upd_startingPositionProperty
                  (Property.set (Vector2.copy (value (positionProperty s)))) in
  let s := s |> upd_startingUProperty (Property.set targetU) in
  let s := s |> upd_startingUpProperty (Property.set (value (onTopSideOfTrackProperty s))) in
  let s := s |> upd_startingTrackProperty (Property.set targetTrack) in
  let s := s |> set_startingTrackControlPointSources
                  (Some match targetTrack with
                        | Some track => TrackEnv.copyControlPointSources env track
                        | None => []
                        end) in
  let s := s |> set_startingAngle (Some (value (angleProperty s))) in
  s |> updateEnergy |> updatedEmitter_emit.

(** What construction fixes for good: the mass range and the initial value
    of every Property. *)
Definition initialValues (s : t) :=
  (massRange s,
   initialValue (trackProperty s),
   initialValue (parametricPositionProperty s),
   initialValue (parametricSpeedProperty s),
   initialValue (onTopSideOfTrackProperty s),
   initialValue (gravityMagnitudeProperty s),
   initialValue (referenceHeightProperty s),
   initialValue (positionProperty s),
   initialValue (massProperty s),
   initialValue (directionProperty s),
   initialValue (velocityProperty s),
   initialValue (draggingProperty s),
   initialValue (kineticEnergyProperty s),
   initialValue (potentialEnergyProperty s),
   initialValue (thermalEnergyProperty s),
   initialValue (totalEnergyProperty s),
   initialValue (angleProperty s),
   initialValue (startingPositionProperty s),
   initialValue (startingUProperty s),
   initialValue (startingUpProperty s),
   initialValue (startingTrackProperty s),
   initialValue (headPositionProperty s)).

End Skater.

(** ** SkaterState: the snapshot used by the physics loop *)

Module Overrides.

(** The overrides object: for each key, the overriding value when the key
    is in the object. *)
Record t : Type := mk {
  positionX : option number;
  positionY : option number;
  velocityX : option number;
  velocityY : option number;
  gravity : option number;
  referenceHeight : option number;
  mass : option number;
  track : option (option Track);
  angle : option number;
  onTopSideOfTrack : option bool;
  parametricPosition : option (option number);
  parametricSpeed : option number;
  dragging : option bool;
  thermalEnergy : option number
}.

End Overrides.

Module SkaterState.

Definition EMPTY_OBJECT : Overrides.t :=
  Overrides.mk None None None None None None None None None None None None None None.

(** The fields of a SkaterState instance. *)
Record t : Type := mk {
  positionX : number;
  positionY : number;
  velocityX : number;
  velocityY : number;
  gravity : number;
  referenceHeight : number;
  mass : number;
  track : option Track;
  angle : number;
  onTopSideOfTrack : bool;
  parametricPosition : option number;
  parametricSpeed : number;
  dragging : bool;
  thermalEnergy : number
}.

Definition set_positionX (v : number) (s : t) : t :=
  {| positionX := v; positionY := positionY s; velocityX := velocityX s;
     velocityY := velocityY s; gravity := gravity s; referenceHeight := referenceHeight s;
     mass := mass s; track := track s; angle := angle s;
     onTopSideOfTrack := onTopSideOfTrack s; parametricPosition := parametricPosition s;
     parametricSpeed := parametricSpeed s; dragging := dragging s;
     thermalEnergy := thermalEnergy s |}.

Definition set_positionY (v : number) (s : t) : t :=
  {| positionX := positionX s; positionY := v; velocityX := velocityX s;
     velocityY := velocityY s; gravity := gravity s; referenceHeight := referenceHeight s;
     mass := mass s; track := track s; angle := angle s;
     onTopSideOfTrack := onTopSideOfTrack s; parametricPosition := parametricPosition s;
     parametricSpeed := parametricSpeed s; dragging := dragging s;
     thermalEnergy := thermalEnergy s |}.

Definition set_velocityX (v : number) (s : t) : t :=
  {| positionX := positionX s; positionY := positionY s; velocityX := v;
     velocityY := velocityY s; gravity := gravity s; referenceHeight := referenceHeight s;
     mass := mass s; track := track s; angle := angle s;
     onTopSideOfTrack := onTopSideOfTrack s; parametricPosition := parametricPosition s;
     parametricSpeed := parametricSpeed s; dragging := dragging s;
     thermalEnergy := thermalEnergy s |}.

Definition set_velocityY (v : number) (s : t) : t :=
  {| positionX := positionX s; positionY := positionY s; velocityX := velocityX s;
     velocityY := v; gravity := gravity s; referenceHeight := referenceHeight s;
     mass := mass s; track := track s; angle := angle s;
     onTopSideOfTrack := onTopSideOfTrack s; parametricPosition := parametricPosition s;
     parametricSpeed := parametricSpeed s; dragging := dragging s;
     thermalEnergy := thermalEnergy s |}.

Definition set_gravity (v : number) (s : t) : t :=
  {| positionX := positionX s; positionY := positionY s; velocityX := velocityX s;
     velocityY := velocityY s; gravity := v; referenceHeight := referenceHeight s;
     mass := mass s; track := track s; angle := angle s;
     onTopSideOfTrack := onTopSideOfTrack s; parametricPosition := parametricPosition s;
     parametricSpeed := parametricSpeed s; dragging := dragging s;
     thermalEnergy := thermalEnergy s |}.

Definition set_referenceHeight (v : number) (s : t) : t :=
  {| positionX := positionX s; positionY := positionY s; velocityX := velocityX s;
     velocityY := velocityY s; gravity := gravity s; referenceHeight := v; mass := mass s;
     track := track s; angle := angle s; onTopSideOfTrack := onTopSideOfTrack s;
     parametricPosition := parametricPosition s; parametricSpeed := parametricSpeed s;
     dragging := dragging s; thermalEnergy := thermalEnergy s |}.

Definition set_mass (v : number) (s : t) : t :=
  {| positionX := positionX s; positionY := positionY s; velocityX := velocityX s;
     velocityY := velocityY s; gravity := gravity s; referenceHeight := referenceHeight s;
     mass := v; track := track s; angle := angle s; onTopSideOfTrack := onTopSideOfTrack s;
     parametricPosition := parametricPosition s; parametricSpeed := parametricSpeed s;
     dragging := dragging s; thermalEnergy := thermalEnergy s |}.

Definition set_track (v : option Track) (s : t) : t :=
  {| positionX := positionX s; positionY := positionY s; velocityX := velocityX s;
     velocityY := velocityY s; gravity := gravity s; referenceHeight := referenceHeight s;
     mass := mass s; track := v; angle := angle s; onTopSideOfTrack := onTopSideOfTrack s;
     parametricPosition := parametricPosition s; parametricSpeed := parametricSpeed s;
     dragging := dragging s; thermalEnergy := thermalEnergy s |}.

Definition set_angle (v : number) (s : t) : t :=
  {| positionX := positionX s; positionY := positionY s; velocityX := velocityX s;
     velocityY := velocityY s; gravity := gravity s; referenceHeight := referenceHeight s;
     mass := mass s; track := track s; angle := v; onTopSideOfTrack := onTopSideOfTrack s;
     parametricPosition := parametricPosition s; parametricSpeed := parametricSpeed s;
     dragging := dragging s; thermalEnergy := thermalEnergy s |}.

Definition set_onTopSideOfTrack (v : bool) (s : t) : t :=
  {| positionX := positionX s; positionY := positionY s; velocityX := velocityX s;
     velocityY := velocityY s; gravity := gravity s; referenceHeight := referenceHeight s;
     mass := mass s; track := track s; angle := angle s; onTopSideOfTrack := v;
     parametricPosition := parametricPosition s; parametricSpeed := parametricSpeed s;
     dragging := dragging s; thermalEnergy := thermalEnergy s |}.

Definition set_parametricPosition (v : option number) (s : t) : t :=
  {| positionX := positionX s; positionY := positionY s; velocityX := velocityX s;
     velocityY := velocityY s; gravity := gravity s; referenceHeight := referenceHeight s;
     mass := mass s; track := track s; angle := angle s;
     onTopSideOfTrack := onTopSideOfTrack s; parametricPosition := v;
     parametricSpeed := parametricSpeed s; dragging := dragging s;
     thermalEnergy := thermalEnergy s |}.

Definition set_parametricSpeed (v : number) (s : t) : t :=
  {| positionX := positionX s; positionY := positionY s; velocityX := velocityX s;
     velocityY := velocityY s; gravity := gravity s; referenceHeight := referenceHeight s;
     mass := mass s; track := track s; angle := angle s;
     onTopSideOfTrack := onTopSideOfTrack s; parametricPosition := parametricPosition s;
     parametricSpeed := v; dragging := dragging s; thermalEnergy := thermalEnergy s |}.

Definition set_dragging (v : bool) (s : t) : t :=
  {| positionX := positionX s; positionY := positionY s; velocityX := velocityX s;
     velocityY := velocityY s; gravity := gravity s; referenceHeight := referenceHeight s;
     mass := mass s; track := track s; angle := angle s;
     onTopSideOfTrack := onTopSideOfTrack s; parametricPosition := parametricPosition s;
     parametricSpeed := parametricSpeed s; dragging := v; thermalEnergy := thermalEnergy s |}.

Definition set_thermalEnergy (v : number) (s : t) : t :=
  {| positionX := positionX s; positionY := positionY s; velocityX := velocityX s;
     velocityY := velocityY s; gravity := gravity s; referenceHeight := referenceHeight s;
     mass := mass s; track := track s; angle := angle s;
     onTopSideOfTrack := onTopSideOfTrack s; parametricPosition := parametricPosition s;
     parametricSpeed := parametricSpeed s; dragging := dragging s; thermalEnergy := v |}.

(** SkaterState instances live in a heap, by location. *)
Definition loc : Type := positive.

Abbreviation heap := (gmap loc t).

(** A computation reads and writes the heap and may throw. *)
Definition M (A : Type) : Type := heap -> option (A * heap).

#[global] Instance M_ret : MRet M := fun A a h => Some (a, h).

#[global] Instance M_bind : MBind M := fun A B f m h =>
  match m h with
  | Some (a, h') => f a h'
  | None => None
  end.

(** [assert && assert( c )] *)
Definition assert (c : bool) : M unit := fun h => if c then Some (tt, h) else None.

(** [state.f = v], with [f] the setter of the field. *)
Definition write (state : loc) (f : t -> t) : M unit := fun h =>
  s ← h !! state;
  Some (tt, <[state := f s]> h).

(** The source of a construction: the live skater or a SkaterState instance. *)
Inductive Source : Type :=
| OfSkater (skater : Skater.t)
| OfState (state : loc).

Inductive SourceObject : Type :=
| SkaterObject (skater : Skater.t)
| StateObject (state : t).

Definition deref (h : heap) (source : Source) : option SourceObject :=
  match source with
  | OfSkater skater => Some (SkaterObject skater)
  | OfState state => StateObject <$> h !! state
  end.

(** [getValue( key, source, overrides )]: the override when the key is in
    the overrides, else the value of the source's Property of that name when
    it has one, else the source's field. *)
Definition getValue {A} (key : Overrides.t -> option A) (keyProperty : Skater.t -> A)
    (keyField : t -> A) (source : SourceObject) (overrides : Overrides.t) : A :=
  match key overrides with
  | Some v => v
  | None =>
      match source with
      | SkaterObject skater => keyProperty skater
      | StateObject state => keyField state
      end
  end.

(** The position and velocity coordinates: a skater passed in has a
    position vector, a SkaterState passed in has a number. *)
Definition getCoordinate (key : Overrides.t -> option number)
    (ofVector : Skater.t -> number) (ofField : t -> number)
    (source : SourceObject) (overrides : Overrides.t) : number :=
  match source with
  | SkaterObject skater =>
      match key overrides with Some v => v | None => ofVector skater end
  | StateObject state =>
      match key overrides with Some v => v | None => ofField state end
  end.

(** The fields that setState assigns. *)
Definition assigned (source : SourceObject) (overrides : Overrides.t) : t :=
  {| positionX :=
       getCoordinate Overrides.positionX
         (fun skater => Vector2.x (value (Skater.positionProperty skater)))
         positionX source overrides;
     positionY :=
       getCoordinate Overrides.positionY
         (fun skater => Vector2.y (value (Skater.positionProperty skater)))
         positionY source overrides;
     velocityX :=
       getCoordinate Overrides.velocityX
         (fun skater => Vector2.x (value (Skater.velocityProperty skater)))
         velocityX source overrides;
     velocityY :=
       getCoordinate Overrides.velocityY
         (fun skater => Vector2.y (value (Skater.velocityProperty skater)))
         velocityY source overrides;
     gravity := getValue Overrides.gravity Skater.gravity gravity source overrides;
     referenceHeight :=
       getValue Overrides.referenceHeight
         (fun skater => value (Skater.referenceHeightProperty skater))
         referenceHeight source overrides;
     mass :=
       getValue Overrides.mass (fun skater => value (Skater.massProperty skater))
         mass source overrides;
     track :=
       getValue Overrides.track (fun skater => value (Skater.trackProperty skater))
         track source overrides;
     angle :=
       getValue Overrides.angle (fun skater => value (Skater.angleProperty skater))
         angle source overrides;
     onTopSideOfTrack :=
       getValue Overrides.onTopSideOfTrack
         (fun skater => value (Skater.onTopSideOfTrackProperty skater))
         onTopSideOfTrack source overrides;
     parametricPosition :=
       getValue Overrides.parametricPosition
         (fun skater => value (Skater.parametricPositionProperty skater))
         parametricPosition source overrides;
     parametricSpeed :=
       getValue Overrides.parametricSpeed
         (fun skater => value (Skater.parametricSpeedProperty skater))
         parametricSpeed source overrides;
     dragging :=
       getValue Overrides.dragging (fun skater => value (Skater.draggingProperty skater))
         dragging source overrides;
     thermalEnergy :=
       getValue Overrides.thermalEnergy
         (fun skater => value (Skater.thermalEnergyProperty skater))
         thermalEnergy source overrides |}.

(** The sanity tests of setState. *)
Definition sane (s : t) : bool :=
  isFinite (thermalEnergy s) && isFinite (velocityX s) && isFinite (velocityY s)
  && isFinite (parametricSpeed s) && geb (thermalEnergy s) 0.

(** [this.setState( source, overrides )]: assign every field of [this],
    check, and return [this]. *)
Definition setState (this : loc) (source : Source) (overrides : option Overrides.t)
    : M loc := fun h =>
  let overrides := default EMPTY_OBJECT overrides in
  source ← deref h source;
  let h := <[this := assigned source overrides]> h in
  (assert (sane (assigned source overrides));; mret this) h.

(** [new SkaterState( source, overrides )]: a fresh instance, set by
    setState. *)
Definition new (source : Source) (overrides : option Overrides.t) : M loc := fun h =>
  setState (fresh (dom h)) source overrides h.

(** *** Energies, read from the fields *)

Definition getTotalEnergy (this : t) : number :=
  0.5 * mass this * (velocityX this * velocityX this + velocityY this * velocityY this)
  - mass this * gravity this * (positionY this - referenceHeight this)
  + thermalEnergy this.

Definition getKineticEnergy (this : t) : number :=
  0.5 * mass this * (velocityX this * velocityX this + velocityY this * velocityY this).

Definition getPotentialEnergy (this : t) : number :=
  - mass this * gravity this * (positionY this - referenceHeight this).

Definition getSpeed (this : t) : number :=
  sqrt (velocityX this * velocityX this + velocityY this * velocityY this).

Definition getVelocity (this : t) : Vector2.t :=
  Vector2.mk (velocityX this) (velocityY this).

Definition getSpeedFromEnergy (this : t) (kineticEnergy : number) : number :=
  sqrt (2 * Rabs kineticEnergy / mass this).

Definition getPosition (this : t) : Vector2.t :=
  Vector2.mk (positionX this) (positionY this).

(** *** Transforms: each makes a new instance from [this] *)

Definition update (this : loc) (overrides : option Overrides.t) : M loc :=
  new (OfState this) overrides.

Definition updateTrackUD (this : loc) (track : option Track) (parametricSpeed : number)
    : M loc :=
  state ← new (OfState this) (Some EMPTY_OBJECT);
  write state (set_track track);;
  write state (set_parametricSpeed parametricSpeed);;
  mret state.

Definition updateUUDVelocityPosition (this : loc) (parametricPosition : option number)
    (parametricSpeed velocityX velocityY positionX positionY : number) : M loc :=
  state ← new (OfState this) (Some EMPTY_OBJECT);
  write state (set_parametricPosition parametricPosition);;
  write state (set_parametricSpeed parametricSpeed);;
  write state (set_velocityX velocityX);;
  write state (set_velocityY velocityY);;
  write state (set_positionX positionX);;
  write state (set_positionY positionY);;
  mret state.

Definition updatePositionAngleUpVelocity (this : loc) (positionX positionY angle : number)
    (onTopSideOfTrack : bool) (velocityX velocityY : number) : M loc :=
  state ← new (OfState this) (Some EMPTY_OBJECT);
  write state (set_angle angle);;
  write state (set_onTopSideOfTrack onTopSideOfTrack);;
  write state (set_velocityX velocityX);;
  write state (set_velocityY velocityY);;
  write state (set_positionX positionX);;
  write state (set_positionY positionY);;
  mret state.

Definition updateThermalEnergy (this : loc) (thermalEnergy : number) : M loc :=
  assert (geb thermalEnergy 0);;
  state ← new (OfState this) (Some EMPTY_OBJECT);
  write state (set_thermalEnergy thermalEnergy);;
  mret state.

Definition updateUPosition (this : loc) (parametricPosition : option number)
    (positionX positionY : number) : M loc :=
  state ← new (OfState this) (Some EMPTY_OBJECT);
  write state (set_parametricPosition parametricPosition);;
  write state (set_positionX positionX);;
  write state (set_positionY positionY);;
  mret state.

(** Transition the SkaterState to the ground, updating thermal energy,
    angle, and velocity components accordingly. *)
Definition switchToGround (this : loc)
    (thermalEnergy velocityX velocityY positionX positionY : number) : M loc :=
  assert (geb thermalEnergy 0);;
  state ← new (OfState this) (Some EMPTY_OBJECT);
  write state (set_thermalEnergy thermalEnergy);;
  write state (set_track None);;
  write state (set_onTopSideOfTrack true);;
  write state (set_angle 0);;
  write state (set_velocityX velocityX);;
  write state (set_velocityY velocityY);;
  write state (set_positionX positionX);;
  write state (set_positionY positionY);;
  mret state.

(** Strike the ground (usually through falling). Velocity is zeroed as the
    skater hits the ground. *)
Definition strikeGround (this : loc) (thermalEnergy positionX : number) : M loc :=
  assert (geb thermalEnergy 0);;
  state ← new (OfState this) (Some EMPTY_OBJECT);
  write state (set_thermalEnergy thermalEnergy);;
  write state (set_positionX positionX);;
  write state (set_positionY 0);;
  write state (set_velocityX 0);;
  write state (set_velocityY 0);;
  write state (set_angle 0);;
  write state (set_onTopSideOfTrack true);;
  mret state.

(** Create an exact copy of this SkaterState. *)
Definition copy (this : loc) : M loc :=
  new (OfState this) (Some EMPTY_OBJECT).

(** Leave the track by zeroing the parametric speed and setting track to
    null. *)
Definition leaveTrack (this : loc) : M loc :=
  state ← new (OfState this) (Some EMPTY_OBJECT);
  write state (set_parametricSpeed 0);;
  write state (set_track None);;
  mret state.

Definition updatePosition (this : loc) (positionX positionY : number) : M loc :=
  state ← new (OfState this) (Some EMPTY_OBJECT);
  write state (set_positionX positionX);;
  write state (set_positionY positionY);;
  mret state.

Definition updateUDVelocity (this : loc) (parametricSpeed velocityX velocityY : number)
    : M loc :=
  state ← new (OfState this) (Some EMPTY_OBJECT);
  write state (set_parametricSpeed parametricSpeed);;
  write state (set_velocityX velocityX);;
  write state (set_velocityY velocityY);;
  mret state.

Definition continueFreeFall (this : loc) (velocityX velocityY positionX positionY : number)
    : M loc :=
  state ← new (OfState this) (Some EMPTY_OBJECT);
  write state (set_velocityX velocityX);;
  write state (set_velocityY velocityY);;
  write state (set_positionX positionX);;
  write state (set_positionY positionY);;
  mret state.

(** Return SkaterState to track, creating and returning a new SkaterState. *)
Definition attachToTrack (this : loc) (thermalEnergy : number) (track : option Track)
    (onTopSideOfTrack : bool) (parametricPosition : option number)
    (parametricSpeed velocityX velocityY positionX positionY : number) : M loc :=
  assert (geb thermalEnergy 0);;
  state ← new (OfState this) (Some EMPTY_OBJECT);
  write state (set_thermalEnergy thermalEnergy);;
  write state (set_track track);;
  write state (set_onTopSideOfTrack onTopSideOfTrack);;
  write state (set_parametricPosition parametricPosition);;
  write state (set_parametricSpeed parametricSpeed);;
  write state (set_velocityX velocityX);;
  write state (set_velocityY velocityY);;
  write state (set_positionX positionX);;
  write state (set_positionY positionY);;
  mret state.

(** The transforms by name, with their arguments. *)
Inductive Transform : Type :=
| Update (overrides : option Overrides.t)
| UpdateTrackUD (track : option Track) (parametricSpeed : number)
| UpdateUUDVelocityPosition (parametricPosition : option number)
    (parametricSpeed velocityX velocityY positionX positionY : number)
| UpdatePositionAngleUpVelocity (positionX positionY angle : number)
    (onTopSideOfTrack : bool) (velocityX velocityY : number)
| UpdateThermalEnergy (thermalEnergy : number)
| UpdateUPosition (parametricPosition : option number) (positionX positionY : number)
| SwitchToGround (thermalEnergy velocityX velocityY positionX positionY : number)
| StrikeGround (thermalEnergy positionX : number)
| Copy
| LeaveTrack
| UpdatePosition (positionX positionY : number)
| UpdateUDVelocity (parametricSpeed velocityX velocityY : number)
| ContinueFreeFall (velocityX velocityY positionX positionY : number)
| AttachToTrack (thermalEnergy : number) (track : option Track)
    (onTopSideOfTrack : bool) (parametricPosition : option number)
    (parametricSpeed velocityX velocityY positionX positionY : number).

Definition transform (tr : Transform) (this : loc) : M loc :=
  match tr with
  | Update overrides => update this overrides
  | UpdateTrackUD track parametricSpeed => updateTrackUD this track parametricSpeed
  | UpdateUUDVelocityPosition u uD vx vy px py =>
      updateUUDVelocityPosition this u uD vx vy px py
  | UpdatePositionAngleUpVelocity px py angle up vx vy =>
      updatePositionAngleUpVelocity this px py angle up vx vy
  | UpdateThermalEnergy thermalEnergy => updateThermalEnergy this thermalEnergy
  | UpdateUPosition u px py => updateUPosition this u px py
  | SwitchToGround thermalEnergy vx vy px py =>
      switchToGround this thermalEnergy vx vy px py
  | StrikeGround thermalEnergy px => strikeGround this thermalEnergy px
  | Copy => copy this
  | LeaveTrack => leaveTrack this
  | UpdatePosition px py => updatePosition this px py
  | UpdateUDVelocity uD vx vy => updateUDVelocity this uD vx vy
  | ContinueFreeFall vx vy px py => continueFreeFall this vx vy px py
  | AttachToTrack thermalEnergy track up u uD vx vy px py =>
      attachToTrack this thermalEnergy track up u uD vx vy px py
  end.

(** The thermal energy and the mass that a transform gives the new
    instance, when it gives one. *)
Definition thermalArgument (tr : Transform) : option number :=
  match tr with
  | Update (Some overrides) => Overrides.thermalEnergy overrides
  | UpdateThermalEnergy thermalEnergy
  | SwitchToGround thermalEnergy _ _ _ _
  | StrikeGround thermalEnergy _
  | AttachToTrack thermalEnergy _ _ _ _ _ _ _ _ => Some thermalEnergy
  | _ => None
  end.

Definition massArgument (tr : Transform) : option number :=
  match tr with
  | Update (Some overrides) => Overrides.mass overrides
  | _ => None
  end.

(** A transform is admissible when the thermal energy it is given, if any,
    is not negative: what the transforms assert. *)
Definition admissible (tr : Transform) : Prop :=
  match thermalArgument tr with
  | Some thermalEnergy => 0 <= thermalEnergy
  | None => True
  end.

(** Apply this state to the skater: the one operation with an effect
    outside the heap of snapshots. *)
Definition setToSkater (this : t) (env : TrackEnv.t) (skater : Skater.t) : Skater.t :=
  let skater := skater |> Skater.upd_trackProperty (Property.set (track this)) in
  let skater := skater |> Skater.upd_positionProperty
                  (Property.set (Vector2.mk (positionX this) (positionY this))) in
  let skater := skater |> Skater.upd_velocityProperty
                  (Property.set (Vector2.mk (velocityX this) (velocityY this))) in
  let skater := skater |> Skater.upd_parametricPositionProperty
                  (Property.set (parametricPosition this)) in
  let skater := skater |> Skater.set_parametricSpeed (parametricSpeed this) in
  let skater := skater |> Skater.upd_thermalEnergyProperty
                  (Property.set (thermalEnergy this)) in
  let skater := skater |> Skater.upd_onTopSideOfTrackProperty
                  (Property.set (onTopSideOfTrack this)) in
  let skater := skater |> Skater.upd_angleProperty (Property.set
                  match value (Skater.trackProperty skater) with
                  | Some track =>
                      TrackEnv.getViewAngleAt env track (parametricPosition this)
                      + (if onTopSideOfTrack this then 0 else PI)
                  | None => angle this
                  end) in
  skater |> Skater.updateEnergy.

End SkaterState.

(** ** SkaterNode: the drag handler of the skater's view

    SkaterNode addresses the skater's Properties by their short names:
    [skater.dragging] is the value of draggingProperty, [skater.up] that of
    onTopSideOfTrackProperty, [skater.u] and [skater.uD] those of the
    parametric position and speed, and [skater.trigger( 'updated' )] is
    updatedEmitter.emit(). *)

Module SkaterNode.

(** The handler's own variables: where the skater will be released. *)
Record t : Type := mk { targetTrack : option Track; targetU : option number }.

Definition new : t := mk None None.

(** The answer of model.getClosestTrackAndPositionAndParameter. *)
Record Closest : Type := mkClosest { track : option Track; u : number; point : Vector2.t }.

(** What a pointer event comes to: the pointer's position in model
    coordinates, within the visible bounds, and the closest physical track
    to it, if any. *)
Record DragEvent : Type := mkDragEvent {
  position : Vector2.t;
  closestTrackAndPositionAndParameter : option Closest
}.

(** The track point the skater snaps to, when there is one close enough. *)
Definition closeEnough (env : TrackEnv.t) (event : DragEvent)
    : option (Track * number * Vector2.t) :=
  closest ← closestTrackAndPositionAndParameter event;
  closestTrack ← track closest;
  if TrackEnv.isParameterInBounds env closestTrack (Some (u closest)) then
    let closestPoint := point closest in
    let distance := Vector2.distance closestPoint (position event) in
    if ltb distance 0.5 then Some (closestTrack, u closest, closestPoint) else None
  else None.

Definition drag (env : TrackEnv.t) (event : DragEvent) (this : t) (skater : Skater.t)
    : t * Skater.t :=
  let (this, skater) :=
    match closeEnough env event with
    | Some (targetTrack, targetU, _) =>
        (* Choose the side of the track that would have the skater upside up *)
        let normal := TrackEnv.getUnitNormalVector env targetTrack (Some targetU) in
        let skater := skater |> Skater.upd_onTopSideOfTrackProperty
                        (Property.set (gtb (Vector2.y normal) 0)) in
        let skater := skater |> Skater.upd_angleProperty (Property.set
                        (TrackEnv.getViewAngleAt env targetTrack (Some targetU)
                         + (if value (Skater.onTopSideOfTrackProperty skater)
                            then 0 else PI))) in
        let skater := skater |> Skater.upd_positionProperty
                        (Property.set (TrackEnv.getPoint env targetTrack (Some targetU))) in
        (mk (Some targetTrack) (Some targetU), skater)
    | None =>
        (* make skater upright if not near the track *)
        let skater := skater |> Skater.upd_angleProperty (Property.set 0) in
        let skater := skater |> Skater.upd_onTopSideOfTrackProperty (Property.set true) in
        let skater := skater |> Skater.upd_positionProperty
                        (Property.set (position event)) in
        (mk None None, skater)
    end in
  (this, skater |> Skater.updateEnergy |> Skater.updatedEmitter_emit).

Definition start (env : TrackEnv.t) (event : DragEvent) (this : t) (skater : Skater.t)
    : t * Skater.t :=
  let skater := skater |> Skater.set_dragging true in
  (* Clear thermal energy whenever skater is grabbed *)
  let skater := skater |> Skater.upd_thermalEnergyProperty (Property.set 0) in
  (* Jump to the input location when dragged *)
  drag env event this skater.

Definition end_ (env : TrackEnv.t) (this : t) (skater : Skater.t) : t * Skater.t :=
  let skater := skater |> Skater.set_dragging false in
  let skater := skater |> Skater.upd_velocityProperty (Property.set (Vector2.mk 0 0)) in
  let skater := skater |> Skater.set_parametricSpeed 0 in
  let skater := skater |> Skater.upd_trackProperty (Property.set (targetTrack this)) in
  let skater := skater |> Skater.upd_parametricPositionProperty
                  (Property.set (targetU this)) in
  let skater :=
    match targetTrack this with
    | Some track =>
        skater |> Skater.upd_positionProperty (Property.set
          (TrackEnv.getPoint env track (value (Skater.parametricPositionProperty skater))))
    | None => skater
    end in
  let skater := skater |> Skater.upd_startingPositionProperty
                  (Property.set (Vector2.copy (value (Skater.positionProperty skater)))) in
  let skater := skater |> Skater.upd_startingUProperty (Property.set (targetU this)) in
  let skater := skater |> Skater.upd_startingUpProperty
                  (Property.set (value (Skater.onTopSideOfTrackProperty skater))) in
  let skater := skater |> Skater.upd_startingTrackProperty
                  (Property.set (targetTrack this)) in
  (this, skater |> Skater.updateEnergy |> Skater.updatedEmitter_emit).

End SkaterNode.

(** ** Skater of Energy Skate Park: Basics

    The earlier skater model: gravity is a Property of its own and there is
    no reference height. *)

Module SkaterBasics.

(** The constants read from Constants, which is not among the modelled
    files. *)
Record Constants : Type := mkConstants {
  DEFAULT_MASS : number;
  MIN_MASS : number;
  MAX_MASS : number
}.

Record t : Type := mk {
  trackProperty : Property (option Track);
  parametricPositionProperty : Property (option number);
  parametricSpeedProperty : Property number;
  onTopSideOfTrackProperty : Property bool;
  gravityProperty : Property number;
  positionProperty : Property Vector2.t;
  massProperty : Property number;
  directionProperty : Property string;
  velocityProperty : Property Vector2.t;
  draggingProperty : Property bool;
  kineticEnergyProperty : Property number;
  potentialEnergyProperty : Property number;
  thermalEnergyProperty : Property number;
  totalEnergyProperty : Property number;
  angleProperty : Property number;
  startingPositionProperty : Property Vector2.t;
  startingUProperty : Property (option number);
  startingUpProperty : Property bool;
  startingTrackProperty : Property (option Track);
  headPositionProperty : Property Vector2.t;
  startingTrackControlPointSources : option (list Vector2.t);
  startingAngle : option number
}.

Definition upd_trackProperty (f : Property (option Track) -> Property (option Track))
    (s : t) : t :=
  {| trackProperty := f (trackProperty s);
     parametricPositionProperty := parametricPositionProperty s;
     parametricSpeedProperty := parametricSpeedProperty s;
     onTopSideOfTrackProperty := onTopSideOfTrackProperty s;
     gravityProperty := gravityProperty s; positionProperty := positionProperty s;
     massProperty := massProperty s; directionProperty := directionProperty s;
     velocityProperty := velocityProperty s; draggingProperty := draggingProperty s;
     kineticEnergyProperty := kineticEnergyProperty s;
     potentialEnergyProperty := potentialEnergyProperty s;
     thermalEnergyProperty := thermalEnergyProperty s;
     totalEnergyProperty := totalEnergyProperty s; angleProperty := angleProperty s;
     startingPositionProperty := startingPositionProperty s;
     startingUProperty := startingUProperty s; startingUpProperty := startingUpProperty s;
     startingTrackProperty := startingTrackProperty s;
     headPositionProperty := headPositionProperty s;
     startingTrackControlPointSources := startingTrackControlPointSources s;
     startingAngle := startingAngle s |}.

Definition upd_parametricPositionProperty (f : Property (option number) -> Property (option number))
    (s : t) : t :=
  {| trackProperty := trackProperty s;
     parametricPositionProperty := f (parametricPositionProperty s);
     parametricSpeedProperty := parametricSpeedProperty s;
     onTopSideOfTrackProperty := onTopSideOfTrackProperty s;
     gravityProperty := gravityProperty s; positionProperty := positionProperty s;
     massProperty := massProperty s; directionProperty := directionProperty s;
     velocityProperty := velocityProperty s; draggingProperty := draggingProperty s;
     kineticEnergyProperty := kineticEnergyProperty s;
     potentialEnergyProperty := potentialEnergyProperty s;
     thermalEnergyProperty := thermalEnergyProperty s;
     totalEnergyProperty := totalEnergyProperty s; angleProperty := angleProperty s;
     startingPositionProperty := startingPositionProperty s;
     startingUProperty := startingUProperty s; startingUpProperty := startingUpProperty s;
     startingTrackProperty := startingTrackProperty s;
     headPositionProperty := headPositionProperty s;
     startingTrackControlPointSources := startingTrackControlPointSources s;
     startingAngle := startingAngle s |}.

Definition upd_parametricSpeedProperty (f : Property number -> Property number) (s : t) : t :=
  {| trackProperty := trackProperty s;
     parametricPositionProperty := parametricPositionProperty s;
     parametricSpeedProperty := f (parametricSpeedProperty s);
     onTopSideOfTrackProperty := onTopSideOfTrackProperty s;
     gravityProperty := gravityProperty s; positionProperty := positionProperty s;
     massProperty := massProperty s; directionProperty := directionProperty s;
     velocityProperty := velocityProperty s; draggingProperty := draggingProperty s;
     kineticEnergyProperty := kineticEnergyProperty s;
     potentialEnergyProperty := potentialEnergyProperty s;
     thermalEnergyProperty := thermalEnergyProperty s;
     totalEnergyProperty := totalEnergyProperty s; angleProperty := angleProperty s;
     startingPositionProperty := startingPositionProperty s;
     startingUProperty := startingUProperty s; startingUpProperty := startingUpProperty s;
     startingTrackProperty := startingTrackProperty s;
     headPositionProperty := headPositionProperty s;
     startingTrackControlPointSources := startingTrackControlPointSources s;
     startingAngle := startingAngle s |}.

Definition upd_onTopSideOfTrackProperty (f : Property bool -> Property bool) (s : t) : t :=
  {| trackProperty := trackProperty s;
     parametricPositionProperty := parametricPositionProperty s;
     parametricSpeedProperty := parametricSpeedProperty s;
     onTopSideOfTrackProperty := f (onTopSideOfTrackProperty s);
     gravityProperty := gravityProperty s; positionProperty := positionProperty s;
     massProperty := massProperty s; directionProperty := directionProperty s;
     velocityProperty := velocityProperty s; draggingProperty := draggingProperty s;
     kineticEnergyProperty := kineticEnergyProperty s;
     potentialEnergyProperty := potentialEnergyProperty s;
     thermalEnergyProperty := thermalEnergyProperty s;
     totalEnergyProperty := totalEnergyProperty s; angleProperty := angleProperty s;
     startingPositionProperty := startingPositionProperty s;
     startingUProperty := startingUProperty s; startingUpProperty := startingUpProperty s;
     startingTrackProperty := startingTrackProperty s;
     headPositionProperty := headPositionProperty s;
     startingTrackControlPointSources := startingTrackControlPointSources s;
     startingAngle := startingAngle s |}.

Definition upd_gravityProperty (f : Property number -> Property number) (s : t) : t :=
  {| trackProperty := trackProperty s;
     parametricPositionProperty := parametricPositionProperty s;
     parametricSpeedProperty := parametricSpeedProperty s;
     onTopSideOfTrackProperty := onTopSideOfTrackProperty s;
     gravityProperty := f (gravityProperty s); positionProperty := positionProperty s;
     massProperty := massProperty s; directionProperty := directionProperty s;
     velocityProperty := velocityProperty s; draggingProperty := draggingProperty s;
     kineticEnergyProperty := kineticEnergyProperty s;
     potentialEnergyProperty := potentialEnergyProperty s;
     thermalEnergyProperty := thermalEnergyProperty s;
     totalEnergyProperty := totalEnergyProperty s; angleProperty := angleProperty s;
     startingPositionProperty := startingPositionProperty s;
     startingUProperty := startingUProperty s; startingUpProperty := startingUpProperty s;
     startingTrackProperty := startingTrackProperty s;
     headPositionProperty := headPositionProperty s;
     startingTrackControlPointSources := startingTrackControlPointSources s;
     startingAngle := startingAngle s |}.

Definition upd_positionProperty (f : Property Vector2.t -> Property Vector2.t) (s : t) : t :=
  {| trackProperty := trackProperty s;
     parametricPositionProperty := parametricPositionProperty s;
     parametricSpeedProperty := parametricSpeedProperty s;
     onTopSideOfTrackProperty := onTopSideOfTrackProperty s;
     gravityProperty := gravityProperty s; positionProperty := f (positionProperty s);
     massProperty := massProperty s; directionProperty := directionProperty s;
     velocityProperty := velocityProperty s; draggingProperty := draggingProperty s;
     kineticEnergyProperty := kineticEnergyProperty s;
     potentialEnergyProperty := potentialEnergyProperty s;
     thermalEnergyProperty := thermalEnergyProperty s;
     totalEnergyProperty := totalEnergyProperty s; angleProperty := angleProperty s;
     startingPositionProperty := startingPositionProperty s;
     startingUProperty := startingUProperty s; startingUpProperty := startingUpProperty s;
     startingTrackProperty := startingTrackProperty s;
     headPositionProperty := headPositionProperty s;
     startingTrackControlPointSources := startingTrackControlPointSources s;
     startingAngle := startingAngle s |}.

Definition upd_massProperty (f : Property number -> Property number) (s : t) : t :=
  {| trackProperty := trackProperty s;
     parametricPositionProperty := parametricPositionProperty s;
     parametricSpeedProperty := parametricSpeedProperty s;
     onTopSideOfTrackProperty := onTopSideOfTrackProperty s;
     gravityProperty := gravityProperty s; positionProperty := positionProperty s;
     massProperty := f (massProperty s); directionProperty := directionProperty s;
     velocityProperty := velocityProperty s; draggingProperty := draggingProperty s;
     kineticEnergyProperty := kineticEnergyProperty s;
     potentialEnergyProperty := potentialEnergyProperty s;
     thermalEnergyProperty := thermalEnergyProperty s;
     totalEnergyProperty := totalEnergyProperty s; angleProperty := angleProperty s;
     startingPositionProperty := startingPositionProperty s;
     startingUProperty := startingUProperty s; startingUpProperty := startingUpProperty s;
     startingTrackProperty := startingTrackProperty s;
     headPositionProperty := headPositionProperty s;
     startingTrackControlPointSources := startingTrackControlPointSources s;
     startingAngle := startingAngle s |}.

Definition upd_directionProperty (f : Property string -> Property string) (s : t) : t :=
  {| trackProperty := trackProperty s;
     parametricPositionProperty := parametricPositionProperty s;
     parametricSpeedProperty := parametricSpeedProperty s;
     onTopSideOfTrackProperty := onTopSideOfTrackProperty s;
     gravityProperty := gravityProperty s; positionProperty := positionProperty s;
     massProperty := massProperty s; directionProperty := f (directionProperty s);
     velocityProperty := velocityProperty s; draggingProperty := draggingProperty s;
     kineticEnergyProperty := kineticEnergyProperty s;
     potentialEnergyProperty := potentialEnergyProperty s;
     thermalEnergyProperty := thermalEnergyProperty s;
     totalEnergyProperty := totalEnergyProperty s; angleProperty := angleProperty s;
     startingPositionProperty := startingPositionProperty s;
     startingUProperty := startingUProperty s; startingUpProperty := startingUpProperty s;
     startingTrackProperty := startingTrackProperty s;
     headPositionProperty := headPositionProperty s;
     startingTrackControlPointSources := startingTrackControlPointSources s;
     startingAngle := startingAngle s |}.

Definition upd_velocityProperty (f : Property Vector2.t -> Property Vector2.t) (s : t) : t :=
  {| trackProperty := trackProperty s;
     parametricPositionProperty := parametricPositionProperty s;
     parametricSpeedProperty := parametricSpeedProperty s;
     onTopSideOfTrackProperty := onTopSideOfTrackProperty s;
     gravityProperty := gravityProperty s; positionProperty := positionProperty s;
     massProperty := massProperty s; directionProperty := directionProperty s;
     velocityProperty := f (velocityProperty s); draggingProperty := draggingProperty s;
     kineticEnergyProperty := kineticEnergyProperty s;
     potentialEnergyProperty := potentialEnergyProperty s;
     thermalEnergyProperty := thermalEnergyProperty s;
     totalEnergyProperty := totalEnergyProperty s; angleProperty := angleProperty s;
     startingPositionProperty := startingPositionProperty s;
     startingUProperty := startingUProperty s; startingUpProperty := startingUpProperty s;
     startingTrackProperty := startingTrackProperty s;
     headPositionProperty := headPositionProperty s;
     startingTrackControlPointSources := startingTrackControlPointSources s;
     startingAngle := startingAngle s |}.

Definition upd_draggingProperty (f : Property bool -> Property bool) (s : t) : t :=
  {| trackProperty := trackProperty s;
     parametricPositionProperty := parametricPositionProperty s;
     parametricSpeedProperty := parametricSpeedProperty s;
     onTopSideOfTrackProperty := onTopSideOfTrackProperty s;
     gravityProperty := gravityProperty s; positionProperty := positionProperty s;
     massProperty := massProperty s; directionProperty := directionProperty s;
     velocityProperty := velocityProperty s; draggingProperty := f (draggingProperty s);
     kineticEnergyProperty := kineticEnergyProperty s;
     potentialEnergyProperty := potentialEnergyProperty s;
     thermalEnergyProperty := thermalEnergyProperty s;
     totalEnergyProperty := totalEnergyProperty s; angleProperty := angleProperty s;
     startingPositionProperty := startingPositionProperty s;
     startingUProperty := startingUProperty s; startingUpProperty := startingUpProperty s;
     startingTrackProperty := startingTrackProperty s;
     headPositionProperty := headPositionProperty s;
     startingTrackControlPointSources := startingTrackControlPointSources s;
     startingAngle := startingAngle s |}.

Definition upd_kineticEnergyProperty (f : Property number -> Property number) (s : t) : t :=
  {| trackProperty := trackProperty s;
     parametricPositionProperty := parametricPositionProperty s;
     parametricSpeedProperty := parametricSpeedProperty s;
     onTopSideOfTrackProperty := onTopSideOfTrackProperty s;
     gravityProperty := gravityProperty s; positionProperty := positionProperty s;
     massProperty := massProperty s; directionProperty := directionProperty s;
     velocityProperty := velocityProperty s; draggingProperty := draggingProperty s;
     kineticEnergyProperty := f (kineticEnergyProperty s);
     potentialEnergyProperty := potentialEnergyProperty s;
     thermalEnergyProperty := thermalEnergyProperty s;
     totalEnergyProperty := totalEnergyProperty s; angleProperty := angleProperty s;
     startingPositionProperty := startingPositionProperty s;
     startingUProperty := startingUProperty s; startingUpProperty := startingUpProperty s;
     startingTrackProperty := startingTrackProperty s;
     headPositionProperty := headPositionProperty s;
     startingTrackControlPointSources := startingTrackControlPointSources s;
     startingAngle := startingAngle s |}.

Definition upd_potentialEnergyProperty (f : Property number -> Property number) (s : t) : t :=
  {| trackProperty := trackProperty s;
     parametricPositionProperty := parametricPositionProperty s;
     parametricSpeedProperty := parametricSpeedProperty s;
     onTopSideOfTrackProperty := onTopSideOfTrackProperty s;
     gravityProperty := gravityProperty s; positionProperty := positionProperty s;
     massProperty := massProperty s; directionProperty := directionProperty s;
     velocityProperty := velocityProperty s; draggingProperty := draggingProperty s;
     kineticEnergyProperty := kineticEnergyProperty s;
     potentialEnergyProperty := f (potentialEnergyProperty s);
     thermalEnergyProperty := thermalEnergyProperty s;
     totalEnergyProperty := totalEnergyProperty s; angleProperty := angleProperty s;
     startingPositionProperty := startingPositionProperty s;
     startingUProperty := startingUProperty s; startingUpProperty := startingUpProperty s;
     startingTrackProperty := startingTrackProperty s;
     headPositionProperty := headPositionProperty s;
     startingTrackControlPointSources := startingTrackControlPointSources s;
     startingAngle := startingAngle s |}.

Definition upd_thermalEnergyProperty (f : Property number -> Property number) (s : t) : t :=
  {| trackProperty := trackProperty s;
     parametricPositionProperty := parametricPositionProperty s;
     parametricSpeedProperty := parametricSpeedProperty s;
     onTopSideOfTrackProperty := onTopSideOfTrackProperty s;
     gravityProperty := gravityProperty s; positionProperty := positionProperty s;
     massProperty := massProperty s; directionProperty := directionProperty s;
     velocityProperty := velocityProperty s; draggingProperty := draggingProperty s;
     kineticEnergyProperty := kineticEnergyProperty s;
     potentialEnergyProperty := potentialEnergyProperty s;
     thermalEnergyProperty := f (thermalEnergyProperty s);
     totalEnergyProperty := totalEnergyProperty s; angleProperty := angleProperty s;
     startingPositionProperty := startingPositionProperty s;
     startingUProperty := startingUProperty s; startingUpProperty := startingUpProperty s;
     startingTrackProperty := startingTrackProperty s;
     headPositionProperty := headPositionProperty s;
     startingTrackControlPointSources := startingTrackControlPointSources s;
     startingAngle := startingAngle s |}.

Definition upd_totalEnergyProperty (f : Property number -> Property number) (s : t) : t :=
  {| trackProperty := trackProperty s;
     parametricPositionProperty := parametricPositionProperty s;
     parametricSpeedProperty := parametricSpeedProperty s;
     onTopSideOfTrackProperty := onTopSideOfTrackProperty s;
     gravityProperty := gravityProperty s; positionProperty := positionProperty s;
     massProperty := massProperty s; directionProperty := directionProperty s;
     velocityProperty := velocityProperty s; draggingProperty := draggingProperty s;
     kineticEnergyProperty := kineticEnergyProperty s;
     potentialEnergyProperty := potentialEnergyProperty s;
     thermalEnergyProperty := thermalEnergyProperty s;
     totalEnergyProperty := f (totalEnergyProperty s); angleProperty := angleProperty s;
     startingPositionProperty := startingPositionProperty s;
     startingUProperty := startingUProperty s; startingUpProperty := startingUpProperty s;
     startingTrackProperty := startingTrackProperty s;
     headPositionProperty := headPositionProperty s;
     startingTrackControlPointSources := startingTrackControlPointSources s;
     startingAngle := startingAngle s |}.

Definition upd_angleProperty (f : Property number -> Property number) (s : t) : t :=
  {| trackProperty := trackProperty s;
     parametricPositionProperty := parametricPositionProperty s;
     parametricSpeedProperty := parametricSpeedProperty s;
     onTopSideOfTrackProperty := onTopSideOfTrackProperty s;
     gravityProperty := gravityProperty s; positionProperty := positionProperty s;
     massProperty := massProperty s; directionProperty := directionProperty s;
     velocityProperty := velocityProperty s; draggingProperty := draggingProperty s;
     kineticEnergyProperty := kineticEnergyProperty s;
     potentialEnergyProperty := potentialEnergyProperty s;
     thermalEnergyProperty := thermalEnergyProperty s;
     totalEnergyProperty := totalEnergyProperty s; angleProperty := f (angleProperty s);
     startingPositionProperty := startingPositionProperty s;
     startingUProperty := startingUProperty s; startingUpProperty := startingUpProperty s;
     startingTrackProperty := startingTrackProperty s;
     headPositionProperty := headPositionProperty s;
     startingTrackControlPointSources := startingTrackControlPointSources s;
     startingAngle := startingAngle s |}.

Definition upd_startingPositionProperty (f : Property Vector2.t -> Property Vector2.t)
    (s : t) : t :=
  {| trackProperty := trackProperty s;
     parametricPositionProperty := parametricPositionProperty s;
     parametricSpeedProperty := parametricSpeedProperty s;
     onTopSideOfTrackProperty := onTopSideOfTrackProperty s;
     gravityProperty := gravityProperty s; positionProperty := positionProperty s;
     massProperty := massProperty s; directionProperty := directionProperty s;
     velocityProperty := velocityProperty s; draggingProperty := draggingProperty s;
     kineticEnergyProperty := kineticEnergyProperty s;
     potentialEnergyProperty := potentialEnergyProperty s;
     thermalEnergyProperty := thermalEnergyProperty s;
     totalEnergyProperty := totalEnergyProperty s; angleProperty := angleProperty s;
     startingPositionProperty := f (startingPositionProperty s);
     startingUProperty := startingUProperty s; startingUpProperty := startingUpProperty s;
     startingTrackProperty := startingTrackProperty s;
     headPositionProperty := headPositionProperty s;
     startingTrackControlPointSources := startingTrackControlPointSources s;
     startingAngle := startingAngle s |}.

Definition upd_startingUProperty (f : Property (option number) -> Property (option number))
    (s : t) : t :=
  {| trackProperty := trackProperty s;
     parametricPositionProperty := parametricPositionProperty s;
     parametricSpeedProperty := parametricSpeedProperty s;
     onTopSideOfTrackProperty := onTopSideOfTrackProperty s;
     gravityProperty := gravityProperty s; positionProperty := positionProperty s;
     massProperty := massProperty s; directionProperty := directionProperty s;
     velocityProperty := velocityProperty s; draggingProperty := draggingProperty s;
     kineticEnergyProperty := kineticEnergyProperty s;
     potentialEnergyProperty := potentialEnergyProperty s;
     thermalEnergyProperty := thermalEnergyProperty s;
     totalEnergyProperty := totalEnergyProperty s; angleProperty := angleProperty s;
     startingPositionProperty := startingPositionProperty s;
     startingUProperty := f (startingUProperty s); startingUpProperty := startingUpProperty s;
     startingTrackProperty := startingTrackProperty s;
     headPositionProperty := headPositionProperty s;
     startingTrackControlPointSources := startingTrackControlPointSources s;
     startingAngle := startingAngle s |}.

Definition upd_startingUpProperty (f : Property bool -> Property bool) (s : t) : t :=
  {| trackProperty := trackProperty s;
     parametricPositionProperty := parametricPositionProperty s;
     parametricSpeedProperty := parametricSpeedProperty s;
     onTopSideOfTrackProperty := onTopSideOfTrackProperty s;
     gravityProperty := gravityProperty s; positionProperty := positionProperty s;
     massProperty := massProperty s; directionProperty := directionProperty s;
     velocityProperty := velocityProperty s; draggingProperty := draggingProperty s;
     kineticEnergyProperty := kineticEnergyProperty s;
     potentialEnergyProperty := potentialEnergyProperty s;
     thermalEnergyProperty := thermalEnergyProperty s;
     totalEnergyProperty := totalEnergyProperty s; angleProperty := angleProperty s;
     startingPositionProperty := startingPositionProperty s;
     startingUProperty := startingUProperty s; startingUpProperty := f (startingUpProperty s);
     startingTrackProperty := startingTrackProperty s;
     headPositionProperty := headPositionProperty s;
     startingTrackControlPointSources := startingTrackControlPointSources s;
     startingAngle := startingAngle s |}.

Definition upd_startingTrackProperty (f : Property (option Track) -> Property (option Track))
    (s : t) : t :=
  {| trackProperty := trackProperty s;
     parametricPositionProperty := parametricPositionProperty s;
     parametricSpeedProperty := parametricSpeedProperty s;
     onTopSideOfTrackProperty := onTopSideOfTrackProperty s;
     gravityProperty := gravityProperty s; positionProperty := positionProperty s;
     massProperty := massProperty s; directionProperty := directionProperty s;
     velocityProperty := velocityProperty s; draggingProperty := draggingProperty s;
     kineticEnergyProperty := kineticEnergyProperty s;
     potentialEnergyProperty := potentialEnergyProperty s;
     thermalEnergyProperty := thermalEnergyProperty s;
     totalEnergyProperty := totalEnergyProperty s; angleProperty := angleProperty s;
     startingPositionProperty := startingPositionProperty s;
     startingUProperty := startingUProperty s; startingUpProperty := startingUpProperty s;
     startingTrackProperty := f (startingTrackProperty s);
     headPositionProperty := headPositionProperty s;
     startingTrackControlPointSources := startingTrackControlPointSources s;
     startingAngle := startingAngle s |}.

Definition upd_headPositionProperty (f : Property Vector2.t -> Property Vector2.t)
    (s : t) : t :=
  {| trackProperty := trackProperty s;
     parametricPositionProperty := parametricPositionProperty s;
     parametricSpeedProperty := parametricSpeedProperty s;
     onTopSideOfTrackProperty := onTopSideOfTrackProperty s;
     gravityProperty := gravityProperty s; positionProperty := positionProperty s;
     massProperty := massProperty s; directionProperty := directionProperty s;
     velocityProperty := velocityProperty s; draggingProperty := draggingProperty s;
     kineticEnergyProperty := kineticEnergyProperty s;
     potentialEnergyProperty := potentialEnergyProperty s;
     thermalEnergyProperty := thermalEnergyProperty s;
     totalEnergyProperty := totalEnergyProperty s; angleProperty := angleProperty s;
     startingPositionProperty := startingPositionProperty s;
     startingUProperty := startingUProperty s; startingUpProperty := startingUpProperty s;
     startingTrackProperty := startingTrackProperty s;
     headPositionProperty := f (headPositionProperty s);
     startingTrackControlPointSources := startingTrackControlPointSources s;
     startingAngle := startingAngle s |}.

Definition set_startingTrackControlPointSources (v : option (list Vector2.t)) (s : t) : t :=
  {| trackProperty := trackProperty s;
     parametricPositionProperty := parametricPositionProperty s;
     parametricSpeedProperty := parametricSpeedProperty s;
     onTopSideOfTrackProperty := onTopSideOfTrackProperty s;
     gravityProperty := gravityProperty s; positionProperty := positionProperty s;
     massProperty := massProperty s; directionProperty := directionProperty s;
     velocityProperty := velocityProperty s; draggingProperty := draggingProperty s;
     kineticEnergyProperty := kineticEnergyProperty s;
     potentialEnergyProperty := potentialEnergyProperty s;
     thermalEnergyProperty := thermalEnergyProperty s;
     totalEnergyProperty := totalEnergyProperty s; angleProperty := angleProperty s;
     startingPositionProperty := startingPositionProperty s;
     startingUProperty := startingUProperty s; startingUpProperty := startingUpProperty s;
     startingTrackProperty := startingTrackProperty s;
     headPositionProperty := headPositionProperty s; startingTrackControlPointSources := v;
     startingAngle := startingAngle s |}.

Definition set_startingAngle (v : option number) (s : t) : t :=
  {| trackProperty := trackProperty s;
     parametricPositionProperty := parametricPositionProperty s;
     parametricSpeedProperty := parametricSpeedProperty s;
     onTopSideOfTrackProperty := onTopSideOfTrackProperty s;
     gravityProperty := gravityProperty s; positionProperty := positionProperty s;
     massProperty := massProperty s; directionProperty := directionProperty s;
     velocityProperty := velocityProperty s; draggingProperty := draggingProperty s;
     kineticEnergyProperty := kineticEnergyProperty s;
     potentialEnergyProperty := potentialEnergyProperty s;
     thermalEnergyProperty := thermalEnergyProperty s;
     totalEnergyProperty := totalEnergyProperty s; angleProperty := angleProperty s;
     startingPositionProperty := startingPositionProperty s;
     startingUProperty := startingUProperty s; startingUpProperty := startingUpProperty s;
     startingTrackProperty := startingTrackProperty s;
     headPositionProperty := headPositionProperty s;
     startingTrackControlPointSources := startingTrackControlPointSources s;
     startingAngle := v |}.

Definition updateEnergy (s : t) : t :=
  let s := s |> upd_kineticEnergyProperty (Property.set
    (0.5 * value (massProperty s) * Vector2.magnitudeSquared (value (velocityProperty s)))) in
  let s := s |> upd_potentialEnergyProperty (Property.set
    (- value (massProperty s) * Vector2.y (value (positionProperty s))
     * value (gravityProperty s))) in
  s |> upd_totalEnergyProperty (Property.set
    (value (kineticEnergyProperty s) + value (potentialEnergyProperty s)
     + value (thermalEnergyProperty s))).

Definition draggingListener (dragging : bool) (s : t) : t :=
  if dragging then s |> upd_velocityProperty (Property.set (Vector2.mk 0 0)) else s.

Definition parametricSpeedListener (parametricSpeed : number) (s : t) : t :=
  let speedThreshold := 0.01 in
  if gtb parametricSpeed speedThreshold then
    s |> upd_directionProperty (Property.set
      (if value (onTopSideOfTrackProperty s) then "right" else "left")%string)
  else if ltb parametricSpeed (- speedThreshold) then
    s |> upd_directionProperty (Property.set
      (if value (onTopSideOfTrackProperty s) then "left" else "right")%string)
  else
    (* Keep the same direction *)
    s.

Definition set_dragging (v : bool) (s : t) : t :=
  if Bool.eqb v (value (draggingProperty s)) then s
  else s |> upd_draggingProperty (Property.set v) |> draggingListener v.

Definition set_parametricSpeed (v : number) (s : t) : t :=
  if eqb v (value (parametricSpeedProperty s)) then s
  else s |> upd_parametricSpeedProperty (Property.set v) |> parametricSpeedListener v.

(** Update the head position for showing the pie chart. *)
Definition updateHeadPosition (constants : Constants) (s : t) : t :=
  let skaterHeight :=
    Utils.linear (MIN_MASS constants) (MAX_MASS constants) 1.65 2.4
      (value (massProperty s)) in
  let vectorX := skaterHeight * cos (value (angleProperty s) - PI / 2) in
  let vectorY := skaterHeight * sin (value (angleProperty s) - PI / 2) in
  s |> upd_headPositionProperty (Property.set
    (Vector2.mk (Vector2.x (value (positionProperty s)) + vectorX)
                (Vector2.y (value (positionProperty s)) - vectorY))).

Definition updatedEmitter_emit (constants : Constants) (s : t) : t :=
  updateHeadPosition constants s.

Definition new (constants : Constants) : t :=
  let s :=
    {| trackProperty := Property.new None;
       parametricPositionProperty := Property.new (Some 0);
       parametricSpeedProperty := Property.new 0;
       onTopSideOfTrackProperty := Property.new true;
       gravityProperty := Property.new (-9.8);
       positionProperty := Property.new (Vector2.mk 3.5 0);
       massProperty := Property.new (DEFAULT_MASS constants);
       directionProperty := Property.new "left"%string;
       velocityProperty := Property.new (Vector2.mk 0 0);
       draggingProperty := Property.new false;
       kineticEnergyProperty := Property.new 0;
       potentialEnergyProperty := Property.new 0;
       thermalEnergyProperty := Property.new 0;
       totalEnergyProperty := Property.new 0;
       angleProperty := Property.new 0;
       startingPositionProperty := Property.new (Vector2.mk 3.5 0);
       startingUProperty := Property.new (Some 0);
       startingUpProperty := Property.new true;
       startingTrackProperty := Property.new None;
       headPositionProperty := Property.new (Vector2.mk 0 0);
       startingTrackControlPointSources := None;
       startingAngle := None |} in
  (* link calls the listener once with the current value; the listener of
     massProperty is updateEnergy *)
  let s := s |> draggingListener (value (draggingProperty s)) in
  let s := s |> parametricSpeedListener (value (parametricSpeedProperty s)) in
  let s := s |> updateEnergy in
  s |> updateEnergy.

Definition clearThermal (s : t) : t :=
  s |> upd_thermalEnergyProperty (Property.set 0) |> updateEnergy.

Definition onUnchangedStartingTrack (env : TrackEnv.t) (s : t) : option bool :=
  match value (startingTrackProperty s), value (trackProperty s) with
  | Some startingTrack, Some track =>
      if decide (track = startingTrack) then
        sources ← startingTrackControlPointSources s;
        Some (arrayEquals (TrackEnv.copyControlPointSources env track) sources)
      else Some false
  | _, _ => Some false
  end.

(** Return the skater to the last location it was released by the user (or
    its starting location), including the position on a track (if any). *)
Definition returnSkater (constants : Constants) (env : TrackEnv.t) (s : t) : option t :=
  sameTrack ← onUnchangedStartingTrack env s;
  startingAngle ← startingAngle s;
  let s :=
    if (sameTrack : bool) then
      s |> upd_parametricPositionProperty (Property.set (value (startingUProperty s)))
        |> upd_angleProperty (Property.set startingAngle)
        |> upd_onTopSideOfTrackProperty (Property.set (value (startingUpProperty s)))
        |> set_parametricSpeed 0
    else
      s |> upd_trackProperty (Property.set None)
        |> upd_angleProperty (Property.set startingAngle) in
  Some (s |> upd_positionProperty
               (Property.set (Vector2.copy (value (startingPositionProperty s))))
          |> upd_velocityProperty (Property.set (Vector2.mk 0 0))
          |> clearThermal
          |> updateEnergy
          |> updatedEmitter_emit constants).

Definition released (constants : Constants) (env : TrackEnv.t)
    (targetTrack : option Track) (targetU : option number) (s : t) : t :=
  let s := s |> set_dragging false in
  let s := s |> upd_velocityProperty (Property.set (Vector2.mk 0 0)) in
  let s := s |> set_parametricSpeed 0 in
  let s := s |> upd_trackProperty (Property.set targetTrack) in
  let s := s |> upd_parametricPositionProperty (Property.set targetU) in
  let s :=
    match targetTrack with
    | Some track =>
        s |> upd_positionProperty (Property.set
               (TrackEnv.getPoint env track (value (parametricPositionProperty s))))
    | None => s
    end in
  let s := s |> upd_startingPositionProperty
                  (Property.set (Vector2.copy (value (positionProperty s)))) in
  let s := s |> upd_startingUProperty (Property.set targetU) in
  let s := s |> upd_startingUpProperty (Property.set (value (onTopSideOfTrackProperty s))) in
  let s := s |> upd_startingTrackProperty (Property.set targetTrack) in
  let s := s |> set_startingTrackControlPointSources
                  (Some match targetTrack with
                        | Some track => TrackEnv.copyControlPointSources env track
                        | None => []
                        end) in
  let s := s |> set_startingAngle (Some (value (angleProperty s))) in
  s |> updateEnergy |> updatedEmitter_emit constants.

End SkaterBasics.

(** ** The running simulation

    The skater, its drag handler and the heap of snapshots, moved by the
    operations above. *)

Module Sim.

Record World : Type := mkWorld {
  skater : Skater.t;
  node : SkaterNode.t;
  states : gmap SkaterState.loc SkaterState.t
}.

Definition initial (options : Skater.Options.t) : World :=
  mkWorld (Skater.new options) SkaterNode.new ∅.

(** What can happen to a world: a call of one of the skater's methods, a
    control setting a Property within its range, a pointer event on the
    skater's node, the construction of a snapshot of the skater, a
    transform of a snapshot, and the commit of a snapshot to the skater. *)
Inductive Action : Type :=
| Reset
| ResetPosition
| ReturnToInitialPosition
| ReturnSkater (env : TrackEnv.t)
| Released (env : TrackEnv.t) (targetTrack : option Track) (targetU : option number)
| ClearThermal
| UpdateEnergy
| SetMass (mass : number)
| SetGravityMagnitude (gravityMagnitude : number)
| SetReferenceHeight (referenceHeight : number)
| DragStart (env : TrackEnv.t) (event : SkaterNode.DragEvent)
| Drag (env : TrackEnv.t) (event : SkaterNode.DragEvent)
| DragEnd (env : TrackEnv.t)
| Snapshot (overrides : option Overrides.t)
| Transform (this : SkaterState.loc) (tr : SkaterState.Transform)
| Commit (this : SkaterState.loc) (env : TrackEnv.t).

Definition inRange (r : Range.t) (v : number) : bool :=
  geb v (Range.min r) && geb (Range.max r) v.

Definition withSkater (f : Skater.t -> Skater.t) (w : World) : World :=
  mkWorld (f (skater w)) (node w) (states w).

Definition withNode (f : SkaterNode.t -> Skater.t -> SkaterNode.t * Skater.t) (w : World)
    : World :=
  let (node, skater) := f (node w) (skater w) in
  mkWorld skater node (states w).

Definition withStates (m : SkaterState.M SkaterState.loc) (w : World) : option World :=
  r ← m (states w);
  Some (mkWorld (skater w) (node w) r.2).

(** One action on the world. massProperty and gravityMagnitudeProperty are
    NumberProperties with a range, and take values of their range only.
    A snapshot is [new SkaterState( skater, overrides )], as the step of
    GraphsModel makes one while the skater is dragged; a transform is any
    of the fourteen, with any arguments. A commit is
    [state.setToSkater( skater )] followed by [skater.updatedEmitter.emit()],
    as the cursor drag of EnergyPlot does with a recorded snapshot: it does
    not look at the dragging flag. *)
Definition perform (a : Action) (w : World) : option World :=
  match a with
  | Reset => Some (withSkater Skater.reset w)
  | ResetPosition => Some (withSkater Skater.resetPosition w)
  | ReturnToInitialPosition => Some (withSkater Skater.returnToInitialPosition w)
  | ReturnSkater env =>
      skater ← Skater.returnSkater env (skater w);
      Some (mkWorld skater (node w) (states w))
  | Released env targetTrack targetU =>
      Some (withSkater (Skater.released env targetTrack targetU) w)
  | ClearThermal => Some (withSkater Skater.clearThermal w)
  | UpdateEnergy => Some (withSkater Skater.updateEnergy w)
  | SetMass mass =>
      if inRange (Skater.massRange (skater w)) mass
      then Some (withSkater (Skater.set_mass mass) w) else None
  | SetGravityMagnitude gravityMagnitude =>
      if inRange (Range.mk 1E-6 100) gravityMagnitude
      then Some (withSkater
                   (Skater.upd_gravityMagnitudeProperty (Property.set gravityMagnitude)) w)
      else None
  | SetReferenceHeight referenceHeight =>
      Some (withSkater
              (Skater.upd_referenceHeightProperty (Property.set referenceHeight)) w)
  | DragStart env event => Some (withNode (SkaterNode.start env event) w)
  | Drag env event => Some (withNode (SkaterNode.drag env event) w)
  | DragEnd env => Some (withNode (SkaterNode.end_ env) w)
  | Snapshot overrides =>
      withStates (SkaterState.new (SkaterState.OfSkater (skater w)) overrides) w
  | Transform this tr => withStates (SkaterState.transform tr this) w
  | Commit this env =>
      state ← states w !! this;
      Some (withSkater
              (fun skater => skater |> SkaterState.setToSkater state env
                                    |> Skater.updatedEmitter_emit) w)
  end.

Fixpoint run (actions : list Action) (w : World) : option World :=
  match actions with
  | [] => Some w
  | a :: actions => w' ← perform a w; run actions w'
  end.

(** The worlds that a skater constructed with [options] can come to. *)
Definition reachable (options : Skater.Options.t) (w : World) : Prop :=
  exists actions, run actions (initial options) = Some w.

(** The options a skater is constructed with are well formed when the mass
    range lies above zero and holds the default mass. *)
Definition wellFormed (options : Skater.Options.t) : Prop :=
  0 < Range.min (Skater.Options.massRange options)
  /\ Range.contains (Skater.Options.massRange options) (Skater.Options.defaultMass options).

(** The mass that an action gives a snapshot of its own, if any. *)
Definition massOverride (a : Action) : option number :=
  match a with
  | Snapshot overrides => Overrides.mass (default SkaterState.EMPTY_OBJECT overrides)
  | Transform _ tr => SkaterState.massArgument tr
  | _ => None
  end.

(** Whether an action commits a snapshot to a skater that is dragged. *)
Definition commitsWhileDragging (a : Action) (w : World) : bool :=
  match a with
  | Commit _ _ => value (Skater.draggingProperty (skater w))
  | _ => false
  end.

(** Whether no action of a run from [w] commits a snapshot to the skater
    while it is dragged. *)
Fixpoint neverCommitsWhileDragging (actions : list Action) (w : World) : bool :=
  match actions with
  | [] => true
  | a :: actions =>
      negb (commitsWhileDragging a w)
      && match perform a w with
         | Some w' => neverCommitsWhileDragging actions w'
         | None => true
         end
  end.

(** What holds of the skater in every reachable world. *)
Definition skaterInvariant (options : Skater.Options.t) (s : Skater.t) : Prop :=
  Skater.initialValues s = Skater.initialValues (Skater.new options)
  /\ 0 <= value (Skater.thermalEnergyProperty s)
  /\ Range.contains (Skater.Options.massRange options) (value (Skater.massProperty s)).

(** A dragged skater has no velocity. *)
Definition stillWhileDragged (s : Skater.t) : Prop :=
  value (Skater.draggingProperty s) = true ->
  value (Skater.velocityProperty s) = Vector2.mk 0 0.

(** What holds of every snapshot in the heap of a reachable world. *)
Definition statesInvariant (h : gmap SkaterState.loc SkaterState.t) : Prop :=
  forall l s, h !! l = Some s -> 0 <= SkaterState.thermalEnergy s.

(** Every snapshot has a mass of the mass range. *)
Definition massInvariant (options : Skater.Options.t)
    (h : gmap SkaterState.loc SkaterState.t) : Prop :=
  forall l s, h !! l = Some s ->
    Range.contains (Skater.Options.massRange options) (SkaterState.mass s).

Definition invariant (options : Skater.Options.t) (w : World) : Prop :=
  skaterInvariant options (skater w) /\ statesInvariant (states w).

End Sim.

(** ** Example inputs *)

Module Examples.

Definition options : Skater.Options.t :=
  Skater.Options.mk 62.5 (Range.mk 25 100).

Definition constants : SkaterBasics.Constants :=
  SkaterBasics.mkConstants 62.5 25 100.

(** A world with one track, of three control points. *)
Definition sources : list Vector2.t :=
  [Vector2.mk 0 1; Vector2.mk 1 0; Vector2.mk 2 1].

Definition env : TrackEnv.t :=
  TrackEnv.mk (fun _ => sources) (fun _ _ => Vector2.mk 1 0) (fun _ _ => 0)
    (fun _ _ => Vector2.mk 0 1) (fun _ _ => true).

(** A pointer event away from every track. *)
Definition event : SkaterNode.DragEvent :=
  SkaterNode.mkDragEvent (Vector2.mk 2 3) None.

(** A snapshot in free fall, about to cross the ground. *)
Definition falling : SkaterState.t :=
  {| SkaterState.positionX := 0.5; SkaterState.positionY := 0.2;
     SkaterState.velocityX := 3; SkaterState.velocityY := -4;
     SkaterState.gravity := -9.8; SkaterState.referenceHeight := 0;
     SkaterState.mass := 60; SkaterState.track := None;
     SkaterState.angle := 0; SkaterState.onTopSideOfTrack := true;
     SkaterState.parametricPosition := None; SkaterState.parametricSpeed := 0;
     SkaterState.dragging := false; SkaterState.thermalEnergy := 0 |}.

(** A snapshot on the track. *)
Definition riding : SkaterState.t :=
  {| SkaterState.positionX := 1; SkaterState.positionY := 0;
     SkaterState.velocityX := 2; SkaterState.velocityY := 0;
     SkaterState.gravity := -9.8; SkaterState.referenceHeight := 0;
     SkaterState.mass := 60; SkaterState.track := Some 1%positive;
     SkaterState.angle := 0; SkaterState.onTopSideOfTrack := true;
     SkaterState.parametricPosition := Some 0.5; SkaterState.parametricSpeed := 2;
     SkaterState.dragging := false; SkaterState.thermalEnergy := 5 |}.

(** A skater released on the track at its lowest point, some steps later. *)
Definition released : Skater.t :=
  {| Skater.massRange := Range.mk 25 100;
     Skater.trackProperty := Property.mk (Some 1%positive) None;
     Skater.parametricPositionProperty := Property.mk (Some 0.6) (Some 0);
     Skater.parametricSpeedProperty := Property.mk 2 0;
     Skater.onTopSideOfTrackProperty := Property.mk true true;
     Skater.gravityMagnitudeProperty := Property.mk 9.8 9.8;
     Skater.referenceHeightProperty := Property.mk 0 0;
     Skater.positionProperty := Property.mk (Vector2.mk 1.5 0.3) (Vector2.mk 3.5 0);
     Skater.massProperty := Property.mk 60 62.5;
     Skater.directionProperty := Property.mk "right"%string "left"%string;
     Skater.velocityProperty := Property.mk (Vector2.mk 2 1) (Vector2.mk 0 0);
     Skater.draggingProperty := Property.mk false false;
     Skater.kineticEnergyProperty := Property.mk 150 0;
     Skater.potentialEnergyProperty := Property.mk 176.4 0;
     Skater.thermalEnergyProperty := Property.mk 5 0;
     Skater.totalEnergyProperty := Property.mk 331.4 0;
     Skater.angleProperty := Property.mk 0.2 0;
     Skater.startingPositionProperty := Property.mk (Vector2.mk 1 0) (Vector2.mk 3.5 0);
     Skater.startingUProperty := Property.mk (Some 0.5) (Some 0);
     Skater.startingUpProperty := Property.mk true true;
     Skater.startingTrackProperty := Property.mk (Some 1%positive) None;
     Skater.headPositionProperty :=
       Property.mk (Vector2.mk 1.5 2.3)
         (Skater.headPositionAt (Range.mk 25 100) 62.5 0 (Vector2.mk 3.5 0));
     Skater.startingTrackControlPointSources := Some sources;
     Skater.startingAngle := Some 0 |}.

(** The same skater in Basics. *)
Definition basicsReleased : SkaterBasics.t :=
  {| SkaterBasics.trackProperty := Property.mk (Some 1%positive) None;
     SkaterBasics.parametricPositionProperty := Property.mk (Some 0.6) (Some 0);
     SkaterBasics.parametricSpeedProperty := Property.mk 2 0;
     SkaterBasics.onTopSideOfTrackProperty := Property.mk true true;
     SkaterBasics.gravityProperty := Property.mk (-9.8) (-9.8);
     SkaterBasics.positionProperty := Property.mk (Vector2.mk 1.5 0.3) (Vector2.mk 3.5 0);
     SkaterBasics.massProperty := Property.mk 60 62.5;
     SkaterBasics.directionProperty := Property.mk "right"%string "left"%string;
     SkaterBasics.velocityProperty := Property.mk (Vector2.mk 2 1) (Vector2.mk 0 0);
     SkaterBasics.draggingProperty := Property.mk false false;
     SkaterBasics.kineticEnergyProperty := Property.mk 150 0;
     SkaterBasics.potentialEnergyProperty := Property.mk 176.4 0;
     SkaterBasics.thermalEnergyProperty := Property.mk 5 0;
     SkaterBasics.totalEnergyProperty := Property.mk 331.4 0;
     SkaterBasics.angleProperty := Property.mk 0.2 0;
     SkaterBasics.startingPositionProperty :=
       Property.mk (Vector2.mk 1 0) (Vector2.mk 3.5 0);
     SkaterBasics.startingUProperty := Property.mk (Some 0.5) (Some 0);
     SkaterBasics.startingUpProperty := Property.mk true true;
     SkaterBasics.startingTrackProperty := Property.mk (Some 1%positive) None;
     SkaterBasics.headPositionProperty := Property.mk (Vector2.mk 1.5 2.3) (Vector2.mk 0 0);
     SkaterBasics.startingTrackControlPointSources := Some sources;
     SkaterBasics.startingAngle := Some 0 |}.

(** The overrides of [state.update( { mass: -5 } )]. *)
Definition lighter : Overrides.t :=
  Overrides.mk None None None None None None (Some (-5)) None None None None None None
    None.

(** The mass is set to 60; a snapshot of the skater strikes the ground
    with 750 J of thermal energy and is committed to the skater. *)
Definition landing : list Sim.Action :=
  [Sim.SetMass 60;
   Sim.Snapshot None;
   Sim.Transform 1%positive (SkaterState.StrikeGround 750 0.8);
   Sim.Commit 2%positive env].

(** A snapshot of the skater is updated with a mass of its own. *)
Definition lightening : list Sim.Action :=
  [Sim.Snapshot None; Sim.Transform 1%positive (SkaterState.Update (Some lighter))].

(** A snapshot of the skater continues in free fall at 2 m/s and is
    committed to the skater. *)
Definition moving : list Sim.Action :=
  [Sim.Snapshot None;
   Sim.Transform 1%positive (SkaterState.ContinueFreeFall 2 0 3.6 0);
   Sim.Commit 2%positive env].

(** The moving skater is grabbed. *)
Definition grabbing : list Sim.Action :=
  moving ++ [Sim.DragStart env event].

(** The skater is grabbed; then a snapshot of it continues in free fall at
    2 m/s and is committed to the skater, still grabbed. *)
Definition committing : list Sim.Action :=
  [Sim.DragStart env event;
   Sim.Snapshot None;
   Sim.Transform 1%positive (SkaterState.ContinueFreeFall 2 0 2.1 3);
   Sim.Commit 2%positive env].

(** A skater with the reference height raised. *)
Definition raised : Skater.t :=
  Skater.new options |> Skater.upd_referenceHeightProperty (Property.set 2).

End Examples.

(** * Properties *)

(** ** The tests on numbers *)

Lemma gtb_spec (a b : number) : gtb a b = true <-> a > b.
Proof. unfold gtb. destruct (Rlt_dec b a); split; intros; try discriminate; auto; lra. Qed.

Lemma ltb_spec (a b : number) : ltb a b = true <-> a < b.
Proof. unfold ltb. destruct (Rlt_dec a b); split; intros; try discriminate; auto; lra. Qed.

Lemma geb_spec (a b : number) : geb a b = true <-> a >= b.
Proof. unfold geb. destruct (Rle_dec b a); split; intros; try discriminate; auto; lra. Qed.

Lemma eqb_spec (a b : number) : eqb a b = true <-> a = b.
Proof. unfold eqb. destruct (Req_dec_T a b); split; intros; try discriminate; auto; lra. Qed.

Lemma geb_nonneg (a : number) : 0 <= a -> geb a 0 = true.
Proof. intros. apply geb_spec. lra. Qed.

Lemma Vector2_equals_spec (a b : Vector2.t) : Vector2.equals a b = true <-> a = b.
Proof.
  unfold Vector2.equals. rewrite andb_true_iff, !eqb_spec.
  destruct a, b; simpl. split.
  - intros [-> ->]. reflexivity.
  - intros [= -> ->]. auto.
Qed.

(** arrayEquals holds of two arrays exactly when they have the same
    elements in the same order. *)
Lemma arrayEquals_spec (a b : list Vector2.t) : arrayEquals a b = true <-> a = b.
Proof.
  unfold arrayEquals. revert b.
  induction a as [|elm1 a IH]; intros [|elm2 b]; simpl; try (split; [discriminate|congruence]).
  - split; reflexivity.
  - specialize (IH b). destruct (length a =? length b)%nat eqn:Hlen; simpl in *.
    + destruct (Vector2.equals elm1 elm2) eqn:He; simpl.
      * apply Vector2_equals_spec in He. subst. rewrite IH. split; congruence.
      * split; [discriminate|]. intros [= -> ->].
        assert (Vector2.equals elm2 elm2 = true) by by apply Vector2_equals_spec.
        congruence.
    + split; [discriminate|]. intros [= -> ->].
      rewrite Nat.eqb_refl in Hlen. discriminate.
Qed.

Lemma Rabs_le_bounds (x b : number) : Rabs x <= b -> - b <= x <= b.
Proof.
  intros H. pose proof (Rle_abs x) as Hpos. pose proof (Rle_abs (- x)) as Hneg.
  rewrite Rabs_Ropp in Hneg. lra.
Qed.

(** ** SkaterState: construction and the transforms *)

Section SkaterStateFacts.

Import SkaterState.

Implicit Types (h : gmap loc t) (this : loc) (s : t).

Lemma assigned_state s : assigned (StateObject s) EMPTY_OBJECT = s.
Proof. by destruct s. Qed.

Lemma sane_spec s : sane s = true <-> 0 <= thermalEnergy s.
Proof. unfold sane, isFinite. simpl. rewrite geb_spec. split; lra. Qed.

(** Construction from a source checks the thermal energy assigned. *)
Lemma new_run h source overrides object :
  deref h source = Some object ->
  0 <= thermalEnergy (assigned object (default EMPTY_OBJECT overrides)) ->
  new source overrides h
  = Some (fresh (dom h),
          <[fresh (dom h) := assigned object (default EMPTY_OBJECT overrides)]> h).
Proof.
  intros Hd Hth. unfold new, setState. rewrite Hd. simpl.
  unfold mbind, M_bind, assert. apply sane_spec in Hth. by rewrite Hth.
Qed.

Lemma new_inv h source overrides l' h' :
  new source overrides h = Some (l', h') ->
  exists object,
    deref h source = Some object
    /\ 0 <= thermalEnergy (assigned object (default EMPTY_OBJECT overrides))
    /\ l' = fresh (dom h)
    /\ h' = <[l' := assigned object (default EMPTY_OBJECT overrides)]> h.
Proof.
  unfold new, setState. destruct (deref h source) as [object|]; [|discriminate].
  simpl. unfold mbind, M_bind, assert.
  destruct (sane _) eqn:Hsane; [|discriminate].
  intros [= <- <-]. exists object. apply sane_spec in Hsane. auto.
Qed.

Lemma new_of_state h this s :
  h !! this = Some s -> 0 <= thermalEnergy s ->
  new (OfState this) (Some EMPTY_OBJECT) h
  = Some (fresh (dom h), <[fresh (dom h) := s]> h).
Proof.
  intros Hs Hth. rewrite (new_run h _ _ (StateObject s)); cbn [default deref].
  - by rewrite assigned_state.
  - by rewrite Hs.
  - by rewrite assigned_state.
Qed.

Lemma write_insert h l s (f : t -> t) :
  write l f (<[l := s]> h) = Some (tt, <[l := f s]> h).
Proof. unfold write. rewrite lookup_insert_eq. simpl. by rewrite insert_insert_eq. Qed.

Lemma assert_nonneg (a : number) h : 0 <= a -> assert (geb a 0) h = Some (tt, h).
Proof. intros. unfold assert. by rewrite geb_nonneg. Qed.

(** Running a transform whose assertions hold: unfold it to the allocation
    and the field writes on the new instance. *)
Ltac run_transform Hs Hth :=
  repeat (unfold mbind, M_bind);
  rewrite ?assert_nonneg by assumption;
  rewrite (new_of_state _ _ _ Hs Hth);
  rewrite ?write_insert;
  unfold mret, M_ret.

Lemma copy_run h this s :
  h !! this = Some s -> 0 <= thermalEnergy s ->
  copy this h = Some (fresh (dom h), <[fresh (dom h) := s]> h).
Proof. intros Hs Hth. unfold copy. by rewrite (new_of_state _ _ _ Hs Hth). Qed.

Lemma leaveTrack_run h this s :
  h !! this = Some s -> 0 <= thermalEnergy s ->
  leaveTrack this h
  = Some (fresh (dom h),
          <[fresh (dom h) := s |> set_parametricSpeed 0 |> set_track None]> h).
Proof. intros Hs Hth. unfold leaveTrack. by run_transform Hs Hth. Qed.

Lemma strikeGround_run h this s (thermalEnergy positionX : number) :
  h !! this = Some s -> 0 <= SkaterState.thermalEnergy s -> 0 <= thermalEnergy ->
  strikeGround this thermalEnergy positionX h
  = Some (fresh (dom h),
          <[fresh (dom h) :=
              s |> set_thermalEnergy thermalEnergy |> set_positionX positionX
                |> set_positionY 0 |> set_velocityX 0 |> set_velocityY 0
                |> set_angle 0 |> set_onTopSideOfTrack true]> h).
Proof. intros Hs Hth Harg. unfold strikeGround. by run_transform Hs Hth. Qed.

Lemma switchToGround_run h this s
    (thermalEnergy velocityX velocityY positionX positionY : number) :
  h !! this = Some s -> 0 <= SkaterState.thermalEnergy s -> 0 <= thermalEnergy ->
  switchToGround this thermalEnergy velocityX velocityY positionX positionY h
  = Some (fresh (dom h),
          <[fresh (dom h) :=
              s |> set_thermalEnergy thermalEnergy |> set_track None
                |> set_onTopSideOfTrack true |> set_angle 0
                |> set_velocityX velocityX |> set_velocityY velocityY
                |> set_positionX positionX |> set_positionY positionY]> h).
Proof. intros Hs Hth Harg. unfold switchToGround. by run_transform Hs Hth. Qed.

(** Every admissible transform of an instance in the heap allocates one
    new instance and writes nothing else. *)
Lemma transform_run tr h this s :
  h !! this = Some s -> 0 <= thermalEnergy s -> admissible tr ->
  exists s',
    transform tr this h = Some (fresh (dom h), <[fresh (dom h) := s']> h)
    /\ thermalEnergy s' = default (thermalEnergy s) (thermalArgument tr)
    /\ mass s' = default (mass s) (massArgument tr).
Proof.
  intros Hs Hth Hadm.
  destruct tr as [[overrides|]| | | | | | | | | | | | |]; unfold admissible in Hadm; simpl in Hadm;
    simpl transform;
    try (unfold updateTrackUD, updateUUDVelocityPosition, updatePositionAngleUpVelocity,
           updateThermalEnergy, updateUPosition, switchToGround, strikeGround, copy,
           leaveTrack, updatePosition, updateUDVelocity, continueFreeFall, attachToTrack;
         run_transform Hs Hth; eexists; split; [reflexivity | by destruct s]).
  - (* update with overrides *)
    unfold update.
    assert (Hth' : 0 <= thermalEnergy (assigned (StateObject s) overrides)).
    { simpl. unfold getValue. destruct (Overrides.thermalEnergy overrides); auto. }
    rewrite (new_run h _ _ (StateObject s)); cbn [default deref]; [|by rewrite Hs|done].
    eexists; split; [reflexivity|]. by unfold getValue.
  - (* update without overrides *)
    unfold update.
    rewrite (new_run h _ _ (StateObject s)); cbn [default deref];
      [|by rewrite Hs|by rewrite assigned_state].
    eexists; split; [reflexivity|]. by unfold getValue.
Qed.

Lemma new_of_state_inv h this overrides l' h' :
  new (OfState this) overrides h = Some (l', h') ->
  exists s,
    h !! this = Some s
    /\ 0 <= thermalEnergy (assigned (StateObject s) (default EMPTY_OBJECT overrides))
    /\ l' = fresh (dom h)
    /\ h' = <[l' := assigned (StateObject s) (default EMPTY_OBJECT overrides)]> h.
Proof.
  intros (object & Hd & Hth & -> & ->)%new_inv. simpl in Hd.
  destruct (h !! this) as [s|]; [|discriminate]. injection Hd as <-. eauto.
Qed.

(** A transform that returns has allocated one new instance, whose thermal
    energy is not negative, and has written nothing else. *)
Lemma transform_inv tr h this l' h' :
  transform tr this h = Some (l', h') ->
  exists s s',
    h !! this = Some s
    /\ l' = fresh (dom h)
    /\ h' = <[l' := s']> h
    /\ 0 <= thermalEnergy s'
    /\ mass s' = default (mass s) (massArgument tr).
Proof.
  intros Hrun.
  destruct tr as [overrides| | | | | | | | | | | | |]; simpl in Hrun;
    unfold update, updateTrackUD, updateUUDVelocityPosition, updatePositionAngleUpVelocity,
      updateThermalEnergy, updateUPosition, switchToGround, strikeGround, copy,
      leaveTrack, updatePosition, updateUDVelocity, continueFreeFall, attachToTrack in Hrun;
    repeat (unfold mbind, M_bind in Hrun);
    unfold assert in Hrun;
    repeat match type of Hrun with
           | context [geb ?a 0] =>
               let H := fresh "Harg" in
               destruct (geb a 0) eqn:H; [apply geb_spec in H|discriminate]
           end;
    (destruct (new _ _ h) as [[l0 h0]|] eqn:Hnew; [|discriminate]);
    apply new_of_state_inv in Hnew as (s & Hs & Hth & -> & ->);
    try (cbn [default] in *; rewrite assigned_state in *;
         rewrite ?write_insert in Hrun; unfold mret, M_ret in Hrun;
         injection Hrun as <- <-;
         eexists s, _; repeat split; try eassumption; try reflexivity;
         destruct s; simpl in *; lra).
  (* update: the fields assigned, under the overrides *)
  injection Hrun as <- <-. exists s. eexists. repeat split; try eassumption.
  destruct overrides as [overrides|]; simpl; unfold getValue; reflexivity.
Qed.

End SkaterStateFacts.
(** ** Tactics for the skater's record *)

(** Evaluate a chain of assignments on a skater given by its fields. *)
Ltac skater_eval :=
  cbv [
       Skater.massRange Skater.trackProperty Skater.parametricPositionProperty
       Skater.parametricSpeedProperty Skater.onTopSideOfTrackProperty
       Skater.gravityMagnitudeProperty Skater.referenceHeightProperty
       Skater.positionProperty Skater.massProperty Skater.directionProperty
       Skater.velocityProperty Skater.draggingProperty Skater.kineticEnergyProperty
       Skater.potentialEnergyProperty Skater.thermalEnergyProperty
       Skater.totalEnergyProperty Skater.angleProperty Skater.startingPositionProperty
       Skater.startingUProperty Skater.startingUpProperty Skater.startingTrackProperty
       Skater.headPositionProperty Skater.startingTrackControlPointSources
       Skater.startingAngle Skater.upd_trackProperty
       Skater.upd_parametricPositionProperty Skater.upd_parametricSpeedProperty
       Skater.upd_onTopSideOfTrackProperty Skater.upd_gravityMagnitudeProperty
       Skater.upd_referenceHeightProperty Skater.upd_positionProperty
       Skater.upd_massProperty Skater.upd_directionProperty Skater.upd_velocityProperty
       Skater.upd_draggingProperty Skater.upd_kineticEnergyProperty
       Skater.upd_potentialEnergyProperty Skater.upd_thermalEnergyProperty
       Skater.upd_totalEnergyProperty Skater.upd_angleProperty
       Skater.upd_startingPositionProperty Skater.upd_startingUProperty
       Skater.upd_startingUpProperty Skater.upd_startingTrackProperty
       Skater.upd_headPositionProperty Skater.set_startingTrackControlPointSources
       Skater.set_startingAngle Skater.updateEnergy Skater.updatedEmitter_emit
       Skater.updateHeadPosition Skater.getHeadPosition Skater.gravity
       Skater.massListener Skater.clearThermal Skater.draggingListener Property.set
       Property.reset Property.new Property.value Property.initialValue Vector2.x
       Vector2.y Vector2.magnitudeSquared Vector2.copy andb
  ].

Ltac skater_eval_in H :=
  cbv [
       Skater.massRange Skater.trackProperty Skater.parametricPositionProperty
       Skater.parametricSpeedProperty Skater.onTopSideOfTrackProperty
       Skater.gravityMagnitudeProperty Skater.referenceHeightProperty
       Skater.positionProperty Skater.massProperty Skater.directionProperty
       Skater.velocityProperty Skater.draggingProperty Skater.kineticEnergyProperty
       Skater.potentialEnergyProperty Skater.thermalEnergyProperty
       Skater.totalEnergyProperty Skater.angleProperty Skater.startingPositionProperty
       Skater.startingUProperty Skater.startingUpProperty Skater.startingTrackProperty
       Skater.headPositionProperty Skater.startingTrackControlPointSources
       Skater.startingAngle Skater.upd_trackProperty
       Skater.upd_parametricPositionProperty Skater.upd_parametricSpeedProperty
       Skater.upd_onTopSideOfTrackProperty Skater.upd_gravityMagnitudeProperty
       Skater.upd_referenceHeightProperty Skater.upd_positionProperty
       Skater.upd_massProperty Skater.upd_directionProperty Skater.upd_velocityProperty
       Skater.upd_draggingProperty Skater.upd_kineticEnergyProperty
       Skater.upd_potentialEnergyProperty Skater.upd_thermalEnergyProperty
       Skater.upd_totalEnergyProperty Skater.upd_angleProperty
       Skater.upd_startingPositionProperty Skater.upd_startingUProperty
       Skater.upd_startingUpProperty Skater.upd_startingTrackProperty
       Skater.upd_headPositionProperty Skater.set_startingTrackControlPointSources
       Skater.set_startingAngle Skater.updateEnergy Skater.updatedEmitter_emit
       Skater.updateHeadPosition Skater.getHeadPosition Skater.gravity
       Skater.massListener Skater.clearThermal Skater.draggingListener Property.set
       Property.reset Property.new Property.value Property.initialValue Vector2.x
       Vector2.y Vector2.magnitudeSquared Vector2.copy andb
  ] in H.

(** Case analysis on a skater and on each of its Properties. *)
Ltac destruct_skater s :=
  destruct s as [? [] [] [] [] [] [] [] [] [] [] [] [] [] [] [] [] [] [] [] [] [] ? ?].

(** The same for the skater of Basics. *)
Ltac basics_eval :=
  cbv [
       SkaterBasics.trackProperty SkaterBasics.parametricPositionProperty
       SkaterBasics.parametricSpeedProperty SkaterBasics.onTopSideOfTrackProperty
       SkaterBasics.gravityProperty SkaterBasics.positionProperty
       SkaterBasics.massProperty SkaterBasics.directionProperty
       SkaterBasics.velocityProperty SkaterBasics.draggingProperty
       SkaterBasics.kineticEnergyProperty SkaterBasics.potentialEnergyProperty
       SkaterBasics.thermalEnergyProperty SkaterBasics.totalEnergyProperty
       SkaterBasics.angleProperty SkaterBasics.startingPositionProperty
       SkaterBasics.startingUProperty SkaterBasics.startingUpProperty
       SkaterBasics.startingTrackProperty SkaterBasics.headPositionProperty
       SkaterBasics.startingTrackControlPointSources SkaterBasics.startingAngle
       SkaterBasics.upd_trackProperty SkaterBasics.upd_parametricPositionProperty
       SkaterBasics.upd_parametricSpeedProperty
       SkaterBasics.upd_onTopSideOfTrackProperty SkaterBasics.upd_gravityProperty
       SkaterBasics.upd_positionProperty SkaterBasics.upd_massProperty
       SkaterBasics.upd_directionProperty SkaterBasics.upd_velocityProperty
       SkaterBasics.upd_draggingProperty SkaterBasics.upd_kineticEnergyProperty
       SkaterBasics.upd_potentialEnergyProperty SkaterBasics.upd_thermalEnergyProperty
       SkaterBasics.upd_totalEnergyProperty SkaterBasics.upd_angleProperty
       SkaterBasics.upd_startingPositionProperty SkaterBasics.upd_startingUProperty
       SkaterBasics.upd_startingUpProperty SkaterBasics.upd_startingTrackProperty
       SkaterBasics.upd_headPositionProperty
       SkaterBasics.set_startingTrackControlPointSources SkaterBasics.set_startingAngle
       SkaterBasics.updateEnergy SkaterBasics.updatedEmitter_emit
       SkaterBasics.updateHeadPosition SkaterBasics.clearThermal Property.set
       Property.reset Property.new Property.value Property.initialValue Vector2.x
       Vector2.y Vector2.magnitudeSquared Vector2.copy andb
  ].

Ltac destruct_basics s :=
  destruct s as [[] [] [] [] [] [] [] [] [] [] [] [] [] [] [] [] [] [] [] [] ? ?].

(** ** Skater: assignments in sequence *)

Section SkaterAssignments.

Import Skater.

Implicit Types (s : t) (options : Options.t).

Lemma gtb_threshold : gtb 0 0.01 = false.
Proof. unfold gtb. destruct (Rlt_dec _ _); [lra|done]. Qed.

Lemma ltb_threshold : ltb 0 (Ropp 0.01) = false.
Proof. unfold ltb. destruct (Rlt_dec _ _); [lra|done]. Qed.

(** The assignments with a listener, as plain assignments: setting the
    parametric speed may also set the direction, setting the mass also sets
    the energies, and setting the dragging flag also sets the velocity. *)
Lemma set_parametricSpeed_nf v s :
  exists direction,
    set_parametricSpeed v s
    = s |> upd_parametricSpeedProperty (Property.set v)
        |> upd_directionProperty (Property.set direction).
Proof.
  unfold set_parametricSpeed, parametricSpeedListener. cbv zeta.
  destruct (eqb v _) eqn:Hv.
  - apply eqb_spec in Hv. exists (value (directionProperty s)).
    destruct_skater s. simpl in *. by subst.
  - destruct (gtb v _); [|destruct (ltb v _)].
    + eexists. reflexivity.
    + eexists. reflexivity.
    + exists (value (directionProperty s)). by destruct_skater s.
Qed.

Lemma set_mass_nf v s :
  exists ke pe te,
    set_mass v s
    = s |> upd_massProperty (Property.set v)
        |> upd_kineticEnergyProperty (Property.set ke)
        |> upd_potentialEnergyProperty (Property.set pe)
        |> upd_totalEnergyProperty (Property.set te).
Proof.
  unfold set_mass, massListener, updateEnergy.
  destruct (eqb v _) eqn:Hv.
  - apply eqb_spec in Hv.
    exists (value (kineticEnergyProperty s)), (value (potentialEnergyProperty s)),
      (value (totalEnergyProperty s)).
    destruct_skater s. simpl in *. by subst.
  - eexists _, _, _. reflexivity.
Qed.

Lemma set_dragging_nf v s :
  set_dragging v s
  = s |> upd_draggingProperty (Property.set v)
      |> upd_velocityProperty (Property.set
           (if v && negb (value (draggingProperty s)) then Vector2.mk 0 0
            else value (velocityProperty s))).
Proof.
  unfold set_dragging, draggingListener.
  destruct_skater s. cbn [Property.value draggingProperty velocityProperty].
  repeat match goal with b : bool |- _ => destruct b end; reflexivity.
Qed.

End SkaterAssignments.

(** Turn the assignments with a listener into plain assignments. *)
Ltac skater_nf :=
  unfold Skater.reset_parametricSpeedProperty, Skater.reset_massProperty,
    Skater.reset_draggingProperty;
  rewrite ?set_dragging_nf;
  repeat match goal with
         | |- context [Skater.set_parametricSpeed ?v ?s] =>
             let d := fresh "d" in
             destruct (set_parametricSpeed_nf v s) as [d ->]
         | |- context [Skater.set_mass ?v ?s] =>
             let ke := fresh "ke" in
             let pe := fresh "pe" in
             let te := fresh "te" in
             destruct (set_mass_nf v s) as (ke & pe & te & ->)
         end.

Section SkaterFacts.

Import Skater.

Implicit Types (s : t) (options : Options.t).

(** The skater as constructed, before the energies are computed. *)
Lemma new_unfold options :
  new options
  = {| massRange := Options.massRange options;
       trackProperty := Property.new None;
       parametricPositionProperty := Property.new (Some 0);
       parametricSpeedProperty := Property.new 0;
       onTopSideOfTrackProperty := Property.new true;
       gravityMagnitudeProperty := Property.new 9.8;
       referenceHeightProperty := Property.new 0;
       positionProperty := Property.new (Vector2.mk 3.5 0);
       massProperty := Property.new (Options.defaultMass options);
       directionProperty := Property.new "left"%string;
       velocityProperty := Property.new (Vector2.mk 0 0);
       draggingProperty := Property.new false;
       kineticEnergyProperty := Property.new 0;
       potentialEnergyProperty := Property.new 0;
       thermalEnergyProperty := Property.new 0;
       totalEnergyProperty := Property.new 0;
       angleProperty := Property.new 0;
       startingPositionProperty := Property.new (Vector2.mk 3.5 0);
       startingUProperty := Property.new (Some 0);
       startingUpProperty := Property.new true;
       startingTrackProperty := Property.new None;
       headPositionProperty :=
         Property.new
           (headPositionAt (Options.massRange options) (Options.defaultMass options) 0
              (Vector2.mk 3.5 0));
       startingTrackControlPointSources := None;
       startingAngle := None |}
    |> updateEnergy |> updateEnergy.
Proof.
  unfold new, parametricSpeedListener, massListener. cbv zeta.
  cbn [Property.value draggingProperty parametricSpeedProperty Property.new draggingListener].
  by rewrite gtb_threshold, ltb_threshold.
Qed.

Lemma initialValues_new options :
  initialValues (new options)
  = (Options.massRange options, None, Some 0, 0, true, 9.8, 0, Vector2.mk 3.5 0,
     Options.defaultMass options, "left"%string, Vector2.mk 0 0, false, 0, 0, 0, 0, 0,
     Vector2.mk 3.5 0, Some 0, true, None,
     headPositionAt (Options.massRange options) (Options.defaultMass options) 0 (Vector2.mk 3.5 0)).
Proof. by rewrite new_unfold. Qed.

(** *** The invariant of the skater *)

Ltac open_fields Hinit s :=
  rewrite initialValues_new in Hinit;
  cbv zeta; skater_nf;
  destruct_skater s;
  unfold initialValues, Range.contains in *;
  cbn in *|-;
  injection Hinit as -> -> -> -> -> -> -> -> -> -> -> -> -> -> -> -> -> -> -> -> -> ->.

Ltac open_invariant s :=
  let Hinit := fresh "Hinit" in
  let Hth := fresh "Hth" in
  let Hmass := fresh "Hmass" in
  intros (Hinit & Hth & Hmass);
  open_fields Hinit s;
  unfold Sim.skaterInvariant; rewrite initialValues_new;
  unfold initialValues, Range.contains.

Ltac open_still s :=
  let Hinit := fresh "Hinit" in
  let Hth := fresh "Hth" in
  let Hmass := fresh "Hmass" in
  let Hdrag := fresh "Hdrag" in
  unfold Sim.stillWhileDragged;
  intros (Hinit & Hth & Hmass) Hdrag;
  open_fields Hinit s.

Ltac close_invariant :=
  skater_eval;
  repeat split; try reflexivity; try lra; try assumption; try discriminate.

Ltac close_still :=
  skater_eval; try reflexivity; try assumption; try discriminate.

Lemma new_invariant options : Sim.wellFormed options -> Sim.skaterInvariant options (new options).
Proof.
  intros [Hmin Hmass]. unfold Sim.skaterInvariant. split; [done|].
  rewrite new_unfold. unfold Range.contains in *. close_invariant.
Qed.

Lemma new_still options : Sim.stillWhileDragged (new options).
Proof. unfold Sim.stillWhileDragged. rewrite new_unfold. skater_eval. discriminate. Qed.

Lemma updateEnergy_invariant options s :
  Sim.skaterInvariant options s -> Sim.skaterInvariant options (updateEnergy s).
Proof. open_invariant s. close_invariant. Qed.

Lemma updateEnergy_still options s :
  Sim.skaterInvariant options s ->
  Sim.stillWhileDragged s -> Sim.stillWhileDragged (updateEnergy s).
Proof. open_still s. close_still. Qed.

Lemma updatedEmitter_emit_invariant options s :
  Sim.skaterInvariant options s -> Sim.skaterInvariant options (updatedEmitter_emit s).
Proof. open_invariant s. close_invariant. Qed.

Lemma updatedEmitter_emit_still options s :
  Sim.skaterInvariant options s ->
  Sim.stillWhileDragged s -> Sim.stillWhileDragged (updatedEmitter_emit s).
Proof. open_still s. close_still. Qed.

Lemma clearThermal_invariant options s :
  Sim.skaterInvariant options s -> Sim.skaterInvariant options (clearThermal s).
Proof. open_invariant s. close_invariant. Qed.

Lemma clearThermal_still options s :
  Sim.skaterInvariant options s ->
  Sim.stillWhileDragged s -> Sim.stillWhileDragged (clearThermal s).
Proof. open_still s. close_still. Qed.

Lemma reset_invariant options s :
  Sim.wellFormed options ->
  Sim.skaterInvariant options s -> Sim.skaterInvariant options (reset s).
Proof.
  intros [Hmin Hdefault]. unfold reset. open_invariant s. unfold Range.contains in *.
  close_invariant.
Qed.

Lemma reset_still options s :
  Sim.skaterInvariant options s ->
  Sim.stillWhileDragged s -> Sim.stillWhileDragged (reset s).
Proof. unfold reset. open_still s. close_still. Qed.

Lemma resetPosition_invariant options s :
  Sim.skaterInvariant options s -> Sim.skaterInvariant options (resetPosition s).
Proof. unfold resetPosition. open_invariant s. close_invariant. Qed.

Lemma resetPosition_still options s :
  Sim.skaterInvariant options s ->
  Sim.stillWhileDragged s -> Sim.stillWhileDragged (resetPosition s).
Proof. unfold resetPosition. open_still s. close_still. Qed.

Lemma returnToInitialPosition_invariant options s :
  Sim.skaterInvariant options s -> Sim.skaterInvariant options (returnToInitialPosition s).
Proof. unfold returnToInitialPosition, reset. open_invariant s. close_invariant. Qed.

Lemma returnToInitialPosition_still options s :
  Sim.skaterInvariant options s ->
  Sim.stillWhileDragged s -> Sim.stillWhileDragged (returnToInitialPosition s).
Proof. unfold returnToInitialPosition, reset. open_still s. close_still. Qed.

Lemma released_invariant options env targetTrack targetU s :
  Sim.skaterInvariant options s ->
  Sim.skaterInvariant options (released env targetTrack targetU s).
Proof.
  unfold released. open_invariant s. destruct targetTrack; close_invariant.
Qed.

Lemma released_still options env targetTrack targetU s :
  Sim.skaterInvariant options s ->
  Sim.stillWhileDragged s -> Sim.stillWhileDragged (released env targetTrack targetU s).
Proof. unfold released. open_still s. destruct targetTrack; close_still. Qed.

Lemma returnSkater_invariant options env s s' :
  returnSkater env s = Some s' ->
  Sim.skaterInvariant options s -> Sim.skaterInvariant options s'.
Proof.
  unfold returnSkater.
  destruct (onUnchangedStartingTrack env s) as [sameTrack|]; [|discriminate].
  destruct (startingAngle s) as [angle|]; [|discriminate].
  cbn [mbind option_bind]. intros [= <-].
  destruct sameTrack; open_invariant s; close_invariant.
Qed.

Lemma returnSkater_still options env s s' :
  returnSkater env s = Some s' ->
  Sim.skaterInvariant options s ->
  Sim.stillWhileDragged s -> Sim.stillWhileDragged s'.
Proof.
  unfold returnSkater.
  destruct (onUnchangedStartingTrack env s) as [sameTrack|]; [|discriminate].
  destruct (startingAngle s) as [angle|]; [|discriminate].
  cbn [mbind option_bind]. intros [= <-].
  destruct sameTrack; open_still s; close_still.
Qed.

Lemma set_mass_invariant options mass s :
  Range.contains (Options.massRange options) mass ->
  Sim.skaterInvariant options s -> Sim.skaterInvariant options (set_mass mass s).
Proof. intros Hrange. open_invariant s. unfold Range.contains in *. close_invariant. Qed.

Lemma set_mass_still options mass s :
  Sim.skaterInvariant options s ->
  Sim.stillWhileDragged s -> Sim.stillWhileDragged (set_mass mass s).
Proof. open_still s. close_still. Qed.

Lemma set_gravityMagnitude_invariant options gravityMagnitude s :
  Sim.skaterInvariant options s ->
  Sim.skaterInvariant options
    (upd_gravityMagnitudeProperty (Property.set gravityMagnitude) s).
Proof. open_invariant s. close_invariant. Qed.

Lemma set_gravityMagnitude_still options gravityMagnitude s :
  Sim.skaterInvariant options s ->
  Sim.stillWhileDragged s ->
  Sim.stillWhileDragged (upd_gravityMagnitudeProperty (Property.set gravityMagnitude) s).
Proof. open_still s. close_still. Qed.

Lemma set_referenceHeight_invariant options referenceHeight s :
  Sim.skaterInvariant options s ->
  Sim.skaterInvariant options
    (upd_referenceHeightProperty (Property.set referenceHeight) s).
Proof. open_invariant s. close_invariant. Qed.

Lemma set_referenceHeight_still options referenceHeight s :
  Sim.skaterInvariant options s ->
  Sim.stillWhileDragged s ->
  Sim.stillWhileDragged (upd_referenceHeightProperty (Property.set referenceHeight) s).
Proof. open_still s. close_still. Qed.

(** The drag handler. *)
Lemma drag_invariant options env event node s :
  Sim.skaterInvariant options s ->
  Sim.skaterInvariant options (SkaterNode.drag env event node s).2.
Proof.
  unfold SkaterNode.drag. destruct (SkaterNode.closeEnough env event) as [[[? ?] ?]|];
    cbn [snd]; open_invariant s; close_invariant.
Qed.

Lemma drag_still options env event node s :
  Sim.skaterInvariant options s ->
  Sim.stillWhileDragged s -> Sim.stillWhileDragged (SkaterNode.drag env event node s).2.
Proof.
  unfold SkaterNode.drag. destruct (SkaterNode.closeEnough env event) as [[[? ?] ?]|];
    cbn [snd]; open_still s; close_still.
Qed.

Lemma start_invariant options env event node s :
  Sim.skaterInvariant options s ->
  Sim.skaterInvariant options (SkaterNode.start env event node s).2.
Proof.
  unfold SkaterNode.start. cbv zeta. intros Hinv. apply drag_invariant.
  revert Hinv. open_invariant s. close_invariant.
Qed.

(** Grabbing the skater stops it, whatever its velocity was. *)
Lemma start_still options env event node s :
  Sim.skaterInvariant options s ->
  Sim.stillWhileDragged s -> Sim.stillWhileDragged (SkaterNode.start env event node s).2.
Proof.
  unfold SkaterNode.start. cbv zeta. intros Hinv Hstill. apply (drag_still options).
  - revert Hinv. open_invariant s. close_invariant.
  - revert Hinv Hstill. open_still s. skater_eval. intros _.
    match goal with
    | |- context [negb ?dragging] => destruct dragging
    end; [auto|reflexivity].
Qed.

Lemma end_invariant options env node s :
  Sim.skaterInvariant options s ->
  Sim.skaterInvariant options (SkaterNode.end_ env node s).2.
Proof.
  unfold SkaterNode.end_. cbn [snd]. open_invariant s.
  destruct (SkaterNode.targetTrack node); close_invariant.
Qed.

Lemma end_still options env node s :
  Sim.skaterInvariant options s ->
  Sim.stillWhileDragged s -> Sim.stillWhileDragged (SkaterNode.end_ env node s).2.
Proof.
  unfold SkaterNode.end_. cbn [snd]. open_still s.
  destruct (SkaterNode.targetTrack node); close_still.
Qed.

(** Committing a snapshot. *)
Lemma setToSkater_invariant options env state s :
  0 <= SkaterState.thermalEnergy state ->
  Sim.skaterInvariant options s ->
  Sim.skaterInvariant options (SkaterState.setToSkater state env s).
Proof.
  intros Hstate. unfold SkaterState.setToSkater.
  destruct state. cbn [SkaterState.thermalEnergy] in Hstate.
  unfold SkaterState.track, SkaterState.positionX, SkaterState.positionY,
    SkaterState.velocityX, SkaterState.velocityY, SkaterState.parametricPosition,
    SkaterState.parametricSpeed, SkaterState.thermalEnergy, SkaterState.onTopSideOfTrack,
    SkaterState.angle.
  open_invariant s. close_invariant.
Qed.

(** Committing a snapshot to a skater that is not dragged leaves it not
    dragged. *)
Lemma setToSkater_still options env state s :
  value (draggingProperty s) = false ->
  Sim.skaterInvariant options s ->
  Sim.stillWhileDragged (SkaterState.setToSkater state env s).
Proof.
  intros Hfree. unfold SkaterState.setToSkater.
  destruct state.
  unfold SkaterState.track, SkaterState.positionX, SkaterState.positionY,
    SkaterState.velocityX, SkaterState.velocityY, SkaterState.parametricPosition,
    SkaterState.parametricSpeed, SkaterState.thermalEnergy, SkaterState.onTopSideOfTrack,
    SkaterState.angle.
  unfold Sim.stillWhileDragged. intros (Hinit & Hth & Hmass).
  open_fields Hinit s. subst. close_still.
Qed.

End SkaterFacts.
(** ** The invariant of the running simulation *)

Section SimFacts.

Import Sim.

Implicit Types (w : World) (options : Skater.Options.t).

Lemma inRange_spec r v : inRange r v = true <-> Range.contains r v.
Proof.
  unfold inRange, Range.contains. rewrite andb_true_iff, !geb_spec. split; lra.
Qed.

Lemma initial_invariant options : wellFormed options -> invariant options (initial options).
Proof.
  intros Hwf. split.
  - by apply new_invariant.
  - intros l s. simpl. by rewrite lookup_empty.
Qed.

Lemma massRange_invariant options s :
  skaterInvariant options s -> Skater.massRange s = Skater.Options.massRange options.
Proof.
  intros [Hinit _]. rewrite initialValues_new in Hinit.
  unfold Skater.initialValues in Hinit. congruence.
Qed.

(** A snapshot of the skater, and a transform of a snapshot, leave a heap
    of snapshots with the invariant. *)
Lemma snapshot_invariant s h overrides l' h' :
  statesInvariant h ->
  SkaterState.new (SkaterState.OfSkater s) overrides h = Some (l', h') ->
  statesInvariant h'.
Proof.
  intros Hh (object & Hd & Hth & -> & ->)%new_inv.
  intros l st. rewrite lookup_insert. case_decide; [by intros [= <-]|apply Hh].
Qed.

Lemma transform_invariant h tr this l' h' :
  statesInvariant h ->
  SkaterState.transform tr this h = Some (l', h') ->
  statesInvariant h'.
Proof.
  intros Hh (s & s' & Hs & -> & -> & Hth & Hmass)%transform_inv.
  intros l st. rewrite lookup_insert. case_decide; [by intros [= <-]|apply Hh].
Qed.

Lemma perform_invariant options a w w' :
  wellFormed options ->
  invariant options w -> perform a w = Some w' -> invariant options w'.
Proof.
  intros Hwf [Hs Hh]. destruct w as [s node h]. simpl in Hs, Hh.
  destruct a; cbn [perform]; unfold withSkater, withNode, withStates;
    cbn [Sim.skater Sim.node Sim.states mbind option_bind].
  - intros [= <-]. split; [by apply reset_invariant|done].
  - intros [= <-]. split; [by apply resetPosition_invariant|done].
  - intros [= <-]. split; [by apply returnToInitialPosition_invariant|done].
  - destruct (Skater.returnSkater env s) as [s'|] eqn:Hret; [|discriminate].
    intros [= <-]. split; [by eapply returnSkater_invariant|done].
  - intros [= <-]. split; [by apply released_invariant|done].
  - intros [= <-]. split; [by apply clearThermal_invariant|done].
  - intros [= <-]. split; [by apply updateEnergy_invariant|done].
  - destruct (inRange _ mass) eqn:Hrange; [|discriminate].
    intros [= <-]. split; [|done]. apply set_mass_invariant; [|done].
    apply inRange_spec. by rewrite <- (massRange_invariant options s).
  - destruct (inRange _ gravityMagnitude); [|discriminate].
    intros [= <-]. split; [by apply set_gravityMagnitude_invariant|done].
  - intros [= <-]. split; [by apply set_referenceHeight_invariant|done].
  - pose proof (start_invariant options env event node s Hs) as Hstart.
    destruct (SkaterNode.start env event node s). intros [= <-]. by split.
  - pose proof (drag_invariant options env event node s Hs) as Hdrag.
    destruct (SkaterNode.drag env event node s). intros [= <-]. by split.
  - pose proof (end_invariant options env node s Hs) as Hend.
    destruct (SkaterNode.end_ env node s). intros [= <-]. by split.
  - destruct (SkaterState.new _ _ h) as [[l' h']|] eqn:Hnew; [|discriminate].
    intros [= <-]. split; [done|]. by eapply snapshot_invariant.
  - destruct (SkaterState.transform tr this h) as [[l' h']|] eqn:Hrun; [|discriminate].
    intros [= <-]. split; [done|]. by eapply transform_invariant.
  - destruct (h !! this) as [state|] eqn:Hstate; [|discriminate].
    intros [= <-]. split; [|done]. simpl.
    apply updatedEmitter_emit_invariant, setToSkater_invariant; [|done].
    by apply (Hh this).
Qed.

Lemma run_invariant options actions w w' :
  wellFormed options ->
  invariant options w -> run actions w = Some w' -> invariant options w'.
Proof.
  intros Hwf. revert w. induction actions as [|a actions IH]; intros w Hw; simpl.
  - by intros [= <-].
  - destruct (perform a w) as [w1|] eqn:Hstep; [|discriminate]. simpl.
    apply IH. by eapply perform_invariant.
Qed.

Lemma reachable_invariant options w :
  wellFormed options -> reachable options w -> invariant options w.
Proof.
  intros Hwf [actions Hrun]. eapply run_invariant; [done| |done].
  by apply initial_invariant.
Qed.

(** *** The mass of the snapshots

    A snapshot takes the mass of the skater and a transform keeps the mass
    of its receiver, unless the overrides hold a mass. *)
Lemma perform_massInvariant options a w w' :
  invariant options w ->
  massInvariant options (states w) ->
  massOverride a = None ->
  perform a w = Some w' ->
  massInvariant options (states w').
Proof.
  intros [Hs Hh] Hm Hov. destruct w as [s node h]. simpl in Hs, Hh, Hm.
  destruct a; cbn [perform]; unfold withSkater, withNode, withStates;
    cbn [Sim.skater Sim.node Sim.states mbind option_bind];
    try (intros [= <-]; exact Hm).
  - destruct (Skater.returnSkater env s); [|discriminate]. by intros [= <-].
  - destruct (inRange _ mass); [|discriminate]. by intros [= <-].
  - destruct (inRange _ gravityMagnitude); [|discriminate]. by intros [= <-].
  - destruct (SkaterNode.start env event node s). by intros [= <-].
  - destruct (SkaterNode.drag env event node s). by intros [= <-].
  - destruct (SkaterState.new _ _ h) as [[l' h']|] eqn:Hnew; [|discriminate].
    intros [= <-]. cbn [Sim.states snd].
    apply new_inv in Hnew as (object & Hd & _ & -> & ->). injection Hd as <-.
    intros l st. rewrite lookup_insert. case_decide; [|apply Hm].
    intros [= <-]. simpl in Hov |- *. unfold SkaterState.getValue. rewrite Hov.
    by destruct Hs as (_ & _ & Hmass).
  - destruct (SkaterState.transform tr this h) as [[l' h']|] eqn:Hrun; [|discriminate].
    intros [= <-]. cbn [Sim.states snd].
    apply transform_inv in Hrun as (s0 & s' & Hs0 & -> & -> & _ & Hmass).
    intros l st. rewrite lookup_insert. case_decide; [|apply Hm].
    intros [= <-]. simpl in Hov. rewrite Hmass, Hov. simpl. by apply (Hm this).
  - destruct (h !! this); [|discriminate]. by intros [= <-].
Qed.

Lemma run_massInvariant options actions w w' :
  wellFormed options ->
  invariant options w ->
  massInvariant options (states w) ->
  Forall (fun a => massOverride a = None) actions ->
  run actions w = Some w' ->
  massInvariant options (states w').
Proof.
  intros Hwf. revert w.
  induction actions as [|a actions IH]; intros w Hw Hm Hov; simpl.
  - by intros [= <-].
  - apply Forall_cons in Hov as [Ha Hov].
    destruct (perform a w) as [w1|] eqn:Hstep; [|discriminate]. simpl.
    apply IH; [by eapply perform_invariant|by eapply perform_massInvariant|done].
Qed.

(** *** The dragged skater

    Every action but the commit of a snapshot to a dragged skater leaves a
    dragged skater without velocity. *)
Lemma perform_still options a w w' :
  invariant options w ->
  stillWhileDragged (skater w) ->
  commitsWhileDragging a w = false ->
  perform a w = Some w' ->
  stillWhileDragged (skater w').
Proof.
  intros [Hs Hh] Hstill Hcalm. destruct w as [s node h]. simpl in Hs, Hh, Hstill, Hcalm.
  destruct a; cbn [perform]; unfold withSkater, withNode, withStates;
    cbn [Sim.skater Sim.node Sim.states mbind option_bind].
  - intros [= <-]. by apply (reset_still options).
  - intros [= <-]. by apply (resetPosition_still options).
  - intros [= <-]. by apply (returnToInitialPosition_still options).
  - destruct (Skater.returnSkater env s) as [s'|] eqn:Hret; [|discriminate].
    intros [= <-]. by eapply (returnSkater_still options).
  - intros [= <-]. by apply (released_still options).
  - intros [= <-]. by apply (clearThermal_still options).
  - intros [= <-]. by apply (updateEnergy_still options).
  - destruct (inRange _ mass); [|discriminate].
    intros [= <-]. by apply (set_mass_still options).
  - destruct (inRange _ gravityMagnitude); [|discriminate].
    intros [= <-]. by apply (set_gravityMagnitude_still options).
  - intros [= <-]. by apply (set_referenceHeight_still options).
  - pose proof (start_still options env event node s Hs Hstill) as Hstart.
    destruct (SkaterNode.start env event node s). by intros [= <-].
  - pose proof (drag_still options env event node s Hs Hstill) as Hdrag.
    destruct (SkaterNode.drag env event node s). by intros [= <-].
  - pose proof (end_still options env node s Hs Hstill) as Hend.
    destruct (SkaterNode.end_ env node s). by intros [= <-].
  - destruct (SkaterState.new _ _ h) as [[l' h']|]; [|discriminate]. by intros [= <-].
  - destruct (SkaterState.transform tr this h) as [[l' h']|]; [|discriminate].
    by intros [= <-].
  - destruct (h !! this) as [state|] eqn:Hstate; [|discriminate].
    intros [= <-]. simpl.
    apply (updatedEmitter_emit_still options).
    + apply setToSkater_invariant; [by apply (Hh this)|done].
    + by apply (setToSkater_still options).
Qed.

Lemma run_still options actions w w' :
  wellFormed options ->
  invariant options w ->
  stillWhileDragged (skater w) ->
  neverCommitsWhileDragging actions w = true ->
  run actions w = Some w' ->
  stillWhileDragged (skater w').
Proof.
  intros Hwf. revert w.
  induction actions as [|a actions IH]; intros w Hw Hstill Hcalm; simpl.
  - by intros [= <-].
  - simpl in Hcalm. apply andb_true_iff in Hcalm as [Ha Hcalm].
    apply negb_true_iff in Ha.
    destruct (perform a w) as [w1|] eqn:Hstep; [|discriminate]. simpl.
    apply IH; [by eapply perform_invariant|by eapply perform_still|done].
Qed.

End SimFacts.
(** ** Returning the skater *)

Section ReturnFacts.

Implicit Types (env : TrackEnv.t).

(** The skater stays on the track exactly when it is on the track recorded
    at release and that track has the control-point sources recorded
    then. *)
Lemma onUnchangedStartingTrack_spec env (s : Skater.t) sources :
  Skater.startingTrackControlPointSources s = Some sources ->
  exists sameTrack,
    Skater.onUnchangedStartingTrack env s = Some sameTrack
    /\ (sameTrack = true <->
        exists track,
          value (Skater.startingTrackProperty s) = Some track
          /\ value (Skater.trackProperty s) = Some track
          /\ TrackEnv.copyControlPointSources env track = sources).
Proof.
  intros Hsources. unfold Skater.onUnchangedStartingTrack. rewrite Hsources.
  destruct (value (Skater.startingTrackProperty s)) as [startingTrack|].
  - destruct (value (Skater.trackProperty s)) as [track|].
    + case_decide as Hsame.
      * subst. eexists. split; [reflexivity|]. rewrite arrayEquals_spec. split.
        -- intros <-. eauto.
        -- by intros (? & [= <-] & _ & <-).
      * exists false. split; [done|]. split; [done|].
        intros (? & [= <-] & [= ->] & _). done.
    + exists false. split; [done|]. split; [done|]. by intros (? & _ & ? & _).
  - exists false. split; [done|]. split; [done|]. by intros (? & ? & _).
Qed.

Lemma returnSkater_sameTrack env (s : Skater.t) angle :
  Skater.onUnchangedStartingTrack env s = Some true ->
  Skater.startingAngle s = Some angle ->
  exists s',
    Skater.returnSkater env s = Some s'
    /\ value (Skater.trackProperty s') = value (Skater.trackProperty s)
    /\ value (Skater.parametricPositionProperty s') = value (Skater.startingUProperty s)
    /\ value (Skater.angleProperty s') = angle
    /\ value (Skater.onTopSideOfTrackProperty s') = value (Skater.startingUpProperty s)
    /\ value (Skater.parametricSpeedProperty s') = 0
    /\ value (Skater.positionProperty s') = value (Skater.startingPositionProperty s)
    /\ value (Skater.velocityProperty s') = Vector2.mk 0 0
    /\ value (Skater.thermalEnergyProperty s') = 0.
Proof.
  intros Hsame Hangle. unfold Skater.returnSkater. rewrite Hsame, Hangle.
  cbn [mbind option_bind]. eexists. split; [reflexivity|].
  destruct (set_parametricSpeed_nf 0
              (s |> Skater.upd_parametricPositionProperty
                      (Property.set (value (Skater.startingUProperty s)))
                 |> Skater.upd_angleProperty (Property.set angle)
                 |> Skater.upd_onTopSideOfTrackProperty
                      (Property.set (value (Skater.startingUpProperty s)))))
    as [d ->].
  destruct_skater s. skater_eval. repeat split.
Qed.

Lemma returnSkater_otherTrack env (s : Skater.t) angle :
  Skater.onUnchangedStartingTrack env s = Some false ->
  Skater.startingAngle s = Some angle ->
  exists s',
    Skater.returnSkater env s = Some s'
    /\ value (Skater.trackProperty s') = None
    /\ value (Skater.angleProperty s') = angle
    /\ value (Skater.positionProperty s') = value (Skater.startingPositionProperty s)
    /\ value (Skater.velocityProperty s') = Vector2.mk 0 0
    /\ value (Skater.thermalEnergyProperty s') = 0.
Proof.
  intros Hsame Hangle. unfold Skater.returnSkater. rewrite Hsame, Hangle.
  cbn [mbind option_bind]. eexists. split; [reflexivity|].
  destruct_skater s. skater_eval. repeat split.
Qed.

(** The same three facts for the skater of Basics. *)
Lemma basics_set_parametricSpeed_nf v (s : SkaterBasics.t) :
  exists direction,
    SkaterBasics.set_parametricSpeed v s
    = s |> SkaterBasics.upd_parametricSpeedProperty (Property.set v)
        |> SkaterBasics.upd_directionProperty (Property.set direction).
Proof.
  unfold SkaterBasics.set_parametricSpeed, SkaterBasics.parametricSpeedListener. cbv zeta.
  destruct (eqb v _) eqn:Hv.
  - apply eqb_spec in Hv. exists (value (SkaterBasics.directionProperty s)).
    destruct_basics s. simpl in *. by subst.
  - destruct (gtb v _); [|destruct (ltb v _)].
    + eexists. reflexivity.
    + eexists. reflexivity.
    + exists (value (SkaterBasics.directionProperty s)). by destruct_basics s.
Qed.

Lemma basics_onUnchangedStartingTrack_spec env (s : SkaterBasics.t) sources :
  SkaterBasics.startingTrackControlPointSources s = Some sources ->
  exists sameTrack,
    SkaterBasics.onUnchangedStartingTrack env s = Some sameTrack
    /\ (sameTrack = true <->
        exists track,
          value (SkaterBasics.startingTrackProperty s) = Some track
          /\ value (SkaterBasics.trackProperty s) = Some track
          /\ TrackEnv.copyControlPointSources env track = sources).
Proof.
  intros Hsources. unfold SkaterBasics.onUnchangedStartingTrack. rewrite Hsources.
  destruct (value (SkaterBasics.startingTrackProperty s)) as [startingTrack|].
  - destruct (value (SkaterBasics.trackProperty s)) as [track|].
    + case_decide as Hsame.
      * subst. eexists. split; [reflexivity|]. rewrite arrayEquals_spec. split.
        -- intros <-. eauto.
        -- by intros (? & [= <-] & _ & <-).
      * exists false. split; [done|]. split; [done|].
        intros (? & [= <-] & [= ->] & _). done.
    + exists false. split; [done|]. split; [done|]. by intros (? & _ & ? & _).
  - exists false. split; [done|]. split; [done|]. by intros (? & ? & _).
Qed.

Lemma basics_returnSkater_sameTrack constants env (s : SkaterBasics.t) angle :
  SkaterBasics.onUnchangedStartingTrack env s = Some true ->
  SkaterBasics.startingAngle s = Some angle ->
  exists s',
    SkaterBasics.returnSkater constants env s = Some s'
    /\ value (SkaterBasics.trackProperty s') = value (SkaterBasics.trackProperty s)
    /\ value (SkaterBasics.parametricPositionProperty s')
       = value (SkaterBasics.startingUProperty s)
    /\ value (SkaterBasics.angleProperty s') = angle
    /\ value (SkaterBasics.onTopSideOfTrackProperty s')
       = value (SkaterBasics.startingUpProperty s)
    /\ value (SkaterBasics.parametricSpeedProperty s') = 0
    /\ value (SkaterBasics.positionProperty s')
       = value (SkaterBasics.startingPositionProperty s)
    /\ value (SkaterBasics.velocityProperty s') = Vector2.mk 0 0
    /\ value (SkaterBasics.thermalEnergyProperty s') = 0.
Proof.
  intros Hsame Hangle. unfold SkaterBasics.returnSkater. rewrite Hsame, Hangle.
  cbn [mbind option_bind]. eexists. split; [reflexivity|].
  destruct (basics_set_parametricSpeed_nf 0
              (s |> SkaterBasics.upd_parametricPositionProperty
                      (Property.set (value (SkaterBasics.startingUProperty s)))
                 |> SkaterBasics.upd_angleProperty (Property.set angle)
                 |> SkaterBasics.upd_onTopSideOfTrackProperty
                      (Property.set (value (SkaterBasics.startingUpProperty s)))))
    as [d ->].
  destruct_basics s. basics_eval. repeat split.
Qed.

Lemma basics_returnSkater_otherTrack constants env (s : SkaterBasics.t) angle :
  SkaterBasics.onUnchangedStartingTrack env s = Some false ->
  SkaterBasics.startingAngle s = Some angle ->
  exists s',
    SkaterBasics.returnSkater constants env s = Some s'
    /\ value (SkaterBasics.trackProperty s') = None
    /\ value (SkaterBasics.angleProperty s') = angle
    /\ value (SkaterBasics.positionProperty s')
       = value (SkaterBasics.startingPositionProperty s)
    /\ value (SkaterBasics.velocityProperty s') = Vector2.mk 0 0
    /\ value (SkaterBasics.thermalEnergyProperty s') = 0.
Proof.
  intros Hsame Hangle. unfold SkaterBasics.returnSkater. rewrite Hsame, Hangle.
  cbn [mbind option_bind]. eexists. split; [reflexivity|].
  destruct_basics s. basics_eval. repeat split.
Qed.

End ReturnFacts.
(** ** Resetting the skater *)

Section ResetFacts.

Import Skater.

Implicit Types (s : t) (options : Options.t).

Ltac open_initialValues Hinit s :=
  rewrite initialValues_new in Hinit;
  destruct_skater s; unfold initialValues in Hinit; cbn in Hinit;
  injection Hinit as -> -> -> -> -> -> -> -> -> -> -> -> -> -> -> -> -> -> -> -> -> ->.

Ltac close_fields :=
  skater_eval; f_equal;
  try (apply (f_equal2 Property.mk); [|reflexivity]);
  try lra.

(** resetPosition leaves the skater as constructed, but for the mass and
    the reference height, for the energies and the head position, which
    are computed again, and for the two plain fields of the last release. *)
Lemma resetPosition_closed options s :
  initialValues s = initialValues (new options) ->
  resetPosition s
  = new options
      |> upd_massProperty (Property.set (value (massProperty s)))
      |> upd_referenceHeightProperty (Property.set (value (referenceHeightProperty s)))
      |> set_startingTrackControlPointSources (startingTrackControlPointSources s)
      |> set_startingAngle (startingAngle s)
      |> updateEnergy
      |> updatedEmitter_emit.
Proof.
  intros Hinit. unfold resetPosition. cbv zeta. skater_nf. rewrite new_unfold.
  open_initialValues Hinit s. close_fields.
Qed.

(** returnToInitialPosition leaves the skater as constructed, but for the
    mass and for the two plain fields of the last release. *)
Lemma returnToInitialPosition_closed options s :
  initialValues s = initialValues (new options) ->
  returnToInitialPosition s
  = new options
      |> upd_massProperty (Property.set (value (massProperty s)))
      |> set_startingTrackControlPointSources (startingTrackControlPointSources s)
      |> set_startingAngle (startingAngle s).
Proof.
  intros Hinit. unfold returnToInitialPosition. cbv zeta.
  unfold set_mass, massListener.
  destruct (eqb _ _) eqn:Hmass.
  - apply eqb_spec in Hmass. revert Hmass.
    unfold reset. skater_nf. rewrite new_unfold.
    open_initialValues Hinit s. skater_eval. intros ->. close_fields.
  - clear Hmass. unfold reset. skater_nf. rewrite new_unfold.
    open_initialValues Hinit s. close_fields.
Qed.

End ResetFacts.
(** ** Dragging *)

Section DragFacts.

Lemma setState_inv (h : gmap SkaterState.loc SkaterState.t) this source overrides l' h' :
  SkaterState.setState this source overrides h = Some (l', h') ->
  exists s',
    l' = this /\ h' = <[this := s']> h /\ 0 <= SkaterState.thermalEnergy s'.
Proof.
  unfold SkaterState.setState.
  destruct (SkaterState.deref h source) as [object|]; [|discriminate].
  simpl. unfold mbind, SkaterState.M_bind, SkaterState.assert.
  destruct (SkaterState.sane _) eqn:Hsane; [|discriminate].
  intros [= <- <-]. eexists. repeat split. by apply sane_spec.
Qed.

(** Grabbing the skater sets the dragging flag and clears the thermal
    energy. *)
Lemma start_grabs env event node (s : Skater.t) :
  let s' := (SkaterNode.start env event node s).2 in
  value (Skater.draggingProperty s') = true
  /\ value (Skater.thermalEnergyProperty s') = 0.
Proof.
  unfold SkaterNode.start, SkaterNode.drag. cbv zeta. rewrite set_dragging_nf.
  destruct (SkaterNode.closeEnough env event) as [[[? ?] ?]|]; cbn [snd];
    destruct_skater s; skater_eval; done.
Qed.

(** When the dragging flag becomes true, the velocity is set to zero. *)
Lemma set_dragging_true (s : Skater.t) :
  value (Skater.draggingProperty s) = false ->
  value (Skater.draggingProperty (Skater.set_dragging true s)) = true
  /\ value (Skater.velocityProperty (Skater.set_dragging true s)) = Vector2.mk 0 0.
Proof.
  rewrite set_dragging_nf. destruct_skater s. skater_eval. by intros ->.
Qed.

Lemma options_wellFormed : Sim.wellFormed Examples.options.
Proof. unfold Sim.wellFormed, Range.contains. simpl. lra. Qed.

End DragFacts.

(** ** Runs of the simulation, step by step *)

Section RunFacts.

Import Sim.

Implicit Types (w : World) (h : gmap SkaterState.loc SkaterState.t).

(** The first two locations that construction allocates. *)
Lemma fresh_dom_empty h : h = ∅ -> fresh (dom h) = 1%positive.
Proof. intros ->. by rewrite dom_empty_L. Qed.

Lemma fresh_dom_singleton h (s : SkaterState.t) :
  h = <[1%positive := s]> ∅ -> fresh (dom h) = 2%positive.
Proof. intros ->. rewrite dom_insert_L, dom_empty_L. reflexivity. Qed.

Ltac fresh_first :=
  match goal with
  | |- context [@fresh ?A ?C ?I ?X] =>
      replace (@fresh A C I X) with 1%positive by (symmetry; by apply fresh_dom_empty)
  end.

Ltac fresh_second :=
  match goal with
  | |- context [@fresh ?A ?C ?I ?X] =>
      replace (@fresh A C I X) with 2%positive
        by (symmetry; by eapply fresh_dom_singleton)
  end.

Ltac name_second st :=
  match goal with
  | |- context [<[2%positive := ?s]> _] => set (st := s)
  end.

Lemma perform_Snapshot w :
  0 <= value (Skater.thermalEnergyProperty (skater w)) ->
  perform (Snapshot None) w
  = Some (mkWorld (skater w) (node w)
            (<[fresh (dom (states w)) :=
                 SkaterState.assigned (SkaterState.SkaterObject (skater w))
                   SkaterState.EMPTY_OBJECT]> (states w))).
Proof.
  intros Hth. cbn [perform]. unfold withStates.
  by rewrite (new_run _ _ _ (SkaterState.SkaterObject (skater w))).
Qed.

Lemma continueFreeFall_run h this s (velocityX velocityY positionX positionY : number) :
  h !! this = Some s -> 0 <= SkaterState.thermalEnergy s ->
  SkaterState.continueFreeFall this velocityX velocityY positionX positionY h
  = Some (fresh (dom h),
          <[fresh (dom h) :=
              s |> SkaterState.set_velocityX velocityX |> SkaterState.set_velocityY velocityY
                |> SkaterState.set_positionX positionX
                |> SkaterState.set_positionY positionY]> h).
Proof.
  intros Hs Hth. unfold SkaterState.continueFreeFall.
  repeat (unfold mbind, SkaterState.M_bind).
  rewrite (new_of_state _ _ _ Hs Hth). rewrite ?write_insert. reflexivity.
Qed.

Lemma perform_Commit w this env state :
  states w !! this = Some state ->
  perform (Commit this env) w
  = Some (mkWorld
            (skater w |> SkaterState.setToSkater state env |> Skater.updatedEmitter_emit)
            (node w) (states w)).
Proof. intros Hstate. cbn [perform]. by rewrite Hstate. Qed.

Lemma perform_DragStart w env event :
  perform (DragStart env event) w
  = Some (mkWorld (SkaterNode.start env event (node w) (skater w)).2
            (SkaterNode.start env event (node w) (skater w)).1 (states w)).
Proof.
  cbn [perform]. unfold withNode. by destruct (SkaterNode.start env event (node w) (skater w)).
Qed.

(** What a commit writes to the skater, and what it leaves. *)
Lemma commit_values (state : SkaterState.t) env (s : Skater.t) :
  let s' := s |> SkaterState.setToSkater state env |> Skater.updatedEmitter_emit in
  value (Skater.velocityProperty s')
  = Vector2.mk (SkaterState.velocityX state) (SkaterState.velocityY state)
  /\ value (Skater.thermalEnergyProperty s') = SkaterState.thermalEnergy state
  /\ value (Skater.draggingProperty s') = value (Skater.draggingProperty s)
  /\ value (Skater.massProperty s') = value (Skater.massProperty s).
Proof.
  cbv zeta. unfold SkaterState.setToSkater. cbv zeta. skater_nf.
  destruct state. destruct_skater s.
  unfold SkaterState.track, SkaterState.positionX, SkaterState.positionY,
    SkaterState.velocityX, SkaterState.velocityY, SkaterState.parametricPosition,
    SkaterState.parametricSpeed, SkaterState.thermalEnergy, SkaterState.onTopSideOfTrack,
    SkaterState.angle.
  skater_eval. repeat split.
Qed.

Lemma perform_SetMass w mass :
  Range.contains (Skater.massRange (skater w)) mass ->
  perform (SetMass mass) w
  = Some (mkWorld (Skater.set_mass mass (skater w)) (node w) (states w)).
Proof. intros Hrange%inRange_spec. cbn [perform]. by rewrite Hrange. Qed.

Lemma perform_Transform w this tr l' h' :
  SkaterState.transform tr this (states w) = Some (l', h') ->
  perform (Transform this tr) w = Some (mkWorld (skater w) (node w) h').
Proof. intros Hrun. cbn [perform]. unfold withStates. by rewrite Hrun. Qed.

Lemma snapshot_values (s : Skater.t) :
  let state := SkaterState.assigned (SkaterState.SkaterObject s) SkaterState.EMPTY_OBJECT in
  SkaterState.thermalEnergy state = value (Skater.thermalEnergyProperty s)
  /\ SkaterState.mass state = value (Skater.massProperty s).
Proof. by split. Qed.

Lemma new_values :
  value (Skater.thermalEnergyProperty (Skater.new Examples.options)) = 0
  /\ value (Skater.draggingProperty (Skater.new Examples.options)) = false
  /\ Skater.massRange (Skater.new Examples.options) = Range.mk 25 100.
Proof. rewrite new_unfold. skater_eval. repeat split. Qed.

(** Move on to the next action of a run. *)
Ltac step := cbn [mbind option_bind Sim.skater Sim.node Sim.states snd].

(** The skater lands: its thermal energy is that of the snapshot that
    struck the ground, and its mass is the mass it was given. *)
Lemma landing_run :
  exists w s,
    run Examples.landing (initial Examples.options) = Some w
    /\ states w !! 2%positive = Some s
    /\ SkaterState.thermalEnergy s = 750
    /\ SkaterState.mass s = 60
    /\ value (Skater.thermalEnergyProperty (skater w)) = 750
    /\ value (Skater.massProperty (skater w)) = 60.
Proof.
  destruct new_values as (Hth & _ & Hrange).
  unfold Examples.landing, initial. cbn [run].
  rewrite perform_SetMass
    by (cbn [Sim.skater]; rewrite Hrange; unfold Range.contains; simpl; lra).
  step.
  set (s1 := Skater.set_mass 60 (Skater.new Examples.options)).
  assert (Hs1 : value (Skater.thermalEnergyProperty s1) = 0
                /\ value (Skater.massProperty s1) = 60).
  { subst s1. destruct (set_mass_nf 60 (Skater.new Examples.options)) as (? & ? & ? & ->).
    rewrite new_unfold. skater_eval. by split. }
  destruct Hs1 as [Hth1 Hmass1].
  rewrite perform_Snapshot by (cbn [Sim.skater]; lra).
  step. fresh_first.
  destruct (snapshot_values s1) as [Hst1 Hm1].
  set (st1 := SkaterState.assigned (SkaterState.SkaterObject s1) SkaterState.EMPTY_OBJECT)
    in *.
  erewrite perform_Transform; cycle 1.
  { cbn [SkaterState.transform Sim.states]. apply (strikeGround_run _ _ st1).
    - by rewrite lookup_insert_eq.
    - lra.
    - lra. }
  step. fresh_second.
  name_second st2.
  assert (Hst2 : SkaterState.thermalEnergy st2 = 750 /\ SkaterState.mass st2 = 60).
  { subst st2. destruct st1. simpl in *. split; [reflexivity|lra]. }
  destruct Hst2 as [Hth2 Hm2].
  rewrite (perform_Commit _ _ _ st2) by (cbn [Sim.states]; by rewrite lookup_insert_eq).
  step.
  eexists _, st2. split; [reflexivity|]. step.
  split; [by rewrite lookup_insert_eq|].
  destruct (commit_values st2 Examples.env s1) as (_ & Hth' & _ & Hmass').
  rewrite Hth', Hmass'. repeat split; lra.
Qed.

(** A snapshot updated with a mass of -5 has that mass. *)
Lemma lightening_run :
  exists w s,
    run Examples.lightening (initial Examples.options) = Some w
    /\ states w !! 2%positive = Some s
    /\ SkaterState.mass s = -5.
Proof.
  destruct new_values as (Hth & _ & _).
  unfold Examples.lightening, initial. cbn [run].
  rewrite perform_Snapshot by (cbn [Sim.skater]; lra).
  step. fresh_first.
  destruct (snapshot_values (Skater.new Examples.options)) as [Hst1 _].
  set (st1 := SkaterState.assigned _ SkaterState.EMPTY_OBJECT) in *.
  erewrite perform_Transform; cycle 1.
  { cbn [SkaterState.transform Sim.states]. unfold SkaterState.update.
    apply (new_run _ _ _ (SkaterState.StateObject st1)).
    - cbn [SkaterState.deref]. by rewrite lookup_insert_eq.
    - change (0 <= SkaterState.thermalEnergy st1). lra. }
  step. fresh_second.
  eexists _, _. split; [reflexivity|]. step.
  split; [by rewrite lookup_insert_eq|]. reflexivity.
Qed.

Lemma run_cons a actions w w1 :
  perform a w = Some w1 -> run (a :: actions) w = run actions w1.
Proof. intros Hstep. simpl. by rewrite Hstep. Qed.

Lemma neverCommitsWhileDragging_cons a actions w w1 :
  commitsWhileDragging a w = false ->
  perform a w = Some w1 ->
  neverCommitsWhileDragging (a :: actions) w = neverCommitsWhileDragging actions w1.
Proof. intros Hcalm Hstep. simpl. by rewrite Hcalm, Hstep. Qed.

(** A commit sets a skater that is not dragged in motion. *)
Lemma moving_run :
  exists w,
    run Examples.moving (initial Examples.options) = Some w
    /\ neverCommitsWhileDragging Examples.moving (initial Examples.options) = true
    /\ value (Skater.velocityProperty (skater w)) = Vector2.mk 2 0
    /\ value (Skater.draggingProperty (skater w)) = false.
Proof.
  destruct new_values as (Hth & Hfree & _).
  set (s0 := Skater.new Examples.options) in *.
  destruct (snapshot_values s0) as [Hst1 _].
  set (st1 := SkaterState.assigned _ SkaterState.EMPTY_OBJECT) in *.
  set (st2 := st1 |> SkaterState.set_velocityX 2 |> SkaterState.set_velocityY 0
                  |> SkaterState.set_positionX 3.6 |> SkaterState.set_positionY 0).
  set (w1 := mkWorld s0 SkaterNode.new (<[1%positive := st1]> ∅)).
  set (w2 := mkWorld s0 SkaterNode.new (<[2%positive := st2]> (<[1%positive := st1]> ∅))).
  set (w3 := mkWorld (s0 |> SkaterState.setToSkater st2 Examples.env
                         |> Skater.updatedEmitter_emit)
               SkaterNode.new (<[2%positive := st2]> (<[1%positive := st1]> ∅))).
  assert (H1 : perform (Snapshot None) (initial Examples.options) = Some w1).
  { rewrite perform_Snapshot
      by (change (0 <= value (Skater.thermalEnergyProperty s0)); lra).
    unfold initial. cbn [Sim.skater Sim.node Sim.states]. by fresh_first. }
  assert (H2 : perform (Transform 1%positive (SkaterState.ContinueFreeFall 2 0 3.6 0)) w1
               = Some w2).
  { erewrite perform_Transform; cycle 1.
    { cbn [SkaterState.transform]. apply (continueFreeFall_run _ _ st1).
      - subst w1. cbn [Sim.states]. by rewrite lookup_insert_eq.
      - lra. }
    subst w1. cbn [Sim.skater Sim.node Sim.states]. by fresh_second. }
  assert (H3 : perform (Commit 2%positive Examples.env) w2 = Some w3).
  { apply perform_Commit. subst w2. cbn [Sim.states]. by rewrite lookup_insert_eq. }
  exists w3. unfold Examples.moving. split; [|split].
  - rewrite (run_cons _ _ _ _ H1), (run_cons _ _ _ _ H2), (run_cons _ _ _ _ H3).
    reflexivity.
  - rewrite (neverCommitsWhileDragging_cons (Snapshot None) _ _ w1 eq_refl H1).
    rewrite (neverCommitsWhileDragging_cons (Transform _ _) _ _ w2 eq_refl H2).
    rewrite (neverCommitsWhileDragging_cons (Commit _ _) _ w2 w3 Hfree H3).
    reflexivity.
  - destruct (commit_values st2 Examples.env s0) as (Hvel & _ & Hdrag & _).
    subst w3. cbn [Sim.skater]. rewrite Hvel, Hdrag. split; [reflexivity|exact Hfree].
Qed.

Lemma run_app actions1 actions2 w w1 :
  run actions1 w = Some w1 -> run (actions1 ++ actions2) w = run actions2 w1.
Proof.
  revert w. induction actions1 as [|a actions1 IH]; intros w; simpl.
  - by intros [= ->].
  - destruct (perform a w) as [w'|]; [|discriminate]. simpl. apply IH.
Qed.

Lemma neverCommitsWhileDragging_app actions1 actions2 w w1 :
  run actions1 w = Some w1 ->
  neverCommitsWhileDragging (actions1 ++ actions2) w
  = neverCommitsWhileDragging actions1 w && neverCommitsWhileDragging actions2 w1.
Proof.
  revert w. induction actions1 as [|a actions1 IH]; intros w; simpl.
  - by intros [= ->].
  - destruct (perform a w) as [w'|]; [|discriminate]. simpl. intros Hrun.
    rewrite (IH _ Hrun). by rewrite andb_assoc.
Qed.

(** The moving skater is grabbed. *)
Lemma grabbing_run :
  exists w0 w,
    run Examples.moving (initial Examples.options) = Some w0
    /\ value (Skater.velocityProperty (skater w0)) = Vector2.mk 2 0
    /\ run Examples.grabbing (initial Examples.options) = Some w
    /\ neverCommitsWhileDragging Examples.grabbing (initial Examples.options) = true
    /\ value (Skater.draggingProperty (skater w)) = true.
Proof.
  destruct moving_run as (w0 & Hrun & Hcalm & Hvelocity & _).
  set (grab := SkaterNode.start Examples.env Examples.event (node w0) (skater w0)).
  assert (Hstep : perform (DragStart Examples.env Examples.event) w0
                  = Some (mkWorld grab.2 grab.1 (states w0)))
    by apply perform_DragStart.
  exists w0, (mkWorld grab.2 grab.1 (states w0)).
  split; [exact Hrun|]. split; [exact Hvelocity|].
  unfold Examples.grabbing. split; [|split].
  - rewrite (run_app _ _ _ _ Hrun). by rewrite (run_cons _ _ _ _ Hstep).
  - rewrite (neverCommitsWhileDragging_app _ _ _ _ Hrun), Hcalm.
    by rewrite (neverCommitsWhileDragging_cons (DragStart _ _) _ _ _ eq_refl Hstep).
  - cbn [Sim.skater]. apply start_grabs.
Qed.

(** A commit sets a skater that is dragged in motion, too. *)
Lemma committing_run :
  exists w,
    run Examples.committing (initial Examples.options) = Some w
    /\ value (Skater.draggingProperty (skater w)) = true
    /\ value (Skater.velocityProperty (skater w)) = Vector2.mk 2 0.
Proof.
  destruct (start_grabs Examples.env Examples.event SkaterNode.new
              (Skater.new Examples.options)) as [Hdrag Hth].
  set (grab := SkaterNode.start Examples.env Examples.event SkaterNode.new
                 (Skater.new Examples.options)) in *.
  destruct (snapshot_values grab.2) as [Hst1 _].
  set (st1 := SkaterState.assigned _ SkaterState.EMPTY_OBJECT) in *.
  set (st2 := st1 |> SkaterState.set_velocityX 2 |> SkaterState.set_velocityY 0
                  |> SkaterState.set_positionX 2.1 |> SkaterState.set_positionY 3).
  set (w1 := mkWorld grab.2 grab.1 ∅).
  set (w2 := mkWorld grab.2 grab.1 (<[1%positive := st1]> ∅)).
  set (w3 := mkWorld grab.2 grab.1 (<[2%positive := st2]> (<[1%positive := st1]> ∅))).
  set (w4 := mkWorld (grab.2 |> SkaterState.setToSkater st2 Examples.env
                             |> Skater.updatedEmitter_emit)
               grab.1 (<[2%positive := st2]> (<[1%positive := st1]> ∅))).
  assert (H1 : perform (DragStart Examples.env Examples.event) (initial Examples.options)
               = Some w1).
  { by rewrite perform_DragStart. }
  assert (H2 : perform (Snapshot None) w1 = Some w2).
  { rewrite perform_Snapshot
      by (change (0 <= value (Skater.thermalEnergyProperty grab.2)); lra).
    subst w1. cbn [Sim.skater Sim.node Sim.states]. by fresh_first. }
  assert (H3 : perform (Transform 1%positive (SkaterState.ContinueFreeFall 2 0 2.1 3)) w2
               = Some w3).
  { erewrite perform_Transform; cycle 1.
    { cbn [SkaterState.transform]. apply (continueFreeFall_run _ _ st1).
      - subst w2. cbn [Sim.states]. by rewrite lookup_insert_eq.
      - lra. }
    subst w2. cbn [Sim.skater Sim.node Sim.states]. by fresh_second. }
  assert (H4 : perform (Commit 2%positive Examples.env) w3 = Some w4).
  { apply perform_Commit. subst w3. cbn [Sim.states]. by rewrite lookup_insert_eq. }
  exists w4. unfold Examples.committing. split.
  - rewrite (run_cons _ _ _ _ H1), (run_cons _ _ _ _ H2), (run_cons _ _ _ _ H3),
      (run_cons _ _ _ _ H4).
    reflexivity.
  - destruct (commit_values st2 Examples.env grab.2) as (Hvel & _ & Hdrag' & _).
    subst w4. cbn [Sim.skater]. rewrite Hvel, Hdrag'. split; [exact Hdrag|reflexivity].
Qed.

End RunFacts.
(** ** The model on the example inputs *)

Example falling_kineticEnergy : SkaterState.getKineticEnergy Examples.falling = 750.
Proof. unfold SkaterState.getKineticEnergy. simpl. lra. Qed.

Example falling_potentialEnergy : SkaterState.getPotentialEnergy Examples.falling = 117.6.
Proof. unfold SkaterState.getPotentialEnergy. simpl. lra. Qed.

Example falling_totalEnergy : SkaterState.getTotalEnergy Examples.falling = 867.6.
Proof. unfold SkaterState.getTotalEnergy. simpl. lra. Qed.

Example sources_unchanged : arrayEquals Examples.sources Examples.sources = true.
Proof. by apply arrayEquals_spec. Qed.

Example sources_moved :
  arrayEquals Examples.sources [Vector2.mk 0 1; Vector2.mk 1 0.5; Vector2.mk 2 1] = false.
Proof.
  apply not_true_is_false. rewrite arrayEquals_spec. unfold Examples.sources.
  intros [= H]. lra.
Qed.

Example sources_shorter : arrayEquals Examples.sources [Vector2.mk 0 1] = false.
Proof. reflexivity. Qed.

Example released_energies :
  let s := Skater.updateEnergy Examples.released in
  value (Skater.kineticEnergyProperty s) = 150
  /\ value (Skater.potentialEnergyProperty s) = 176.4
  /\ value (Skater.totalEnergyProperty s) = 331.4.
Proof. cbv zeta. unfold Examples.released. skater_eval. repeat split; lra. Qed.

Example released_turns_left :
  value (Skater.directionProperty (Skater.set_parametricSpeed (-1) Examples.released))
  = "left"%string.
Proof.
  unfold Skater.set_parametricSpeed, Skater.parametricSpeedListener. cbv zeta.
  replace (eqb (-1) _) with false
    by (symmetry; apply not_true_is_false; rewrite eqb_spec; simpl; lra).
  replace (gtb (-1) 0.01) with false
    by (symmetry; apply not_true_is_false; rewrite gtb_spec; lra).
  replace (ltb (-1) (- (0.01))) with true by (symmetry; apply ltb_spec; lra).
  reflexivity.
Qed.

Example released_keeps_direction :
  value (Skater.directionProperty (Skater.set_parametricSpeed 0.005 Examples.released))
  = "right"%string.
Proof.
  unfold Skater.set_parametricSpeed, Skater.parametricSpeedListener. cbv zeta.
  replace (eqb 0.005 _) with false
    by (symmetry; apply not_true_is_false; rewrite eqb_spec; simpl; lra).
  replace (gtb 0.005 0.01) with false
    by (symmetry; apply not_true_is_false; rewrite gtb_spec; lra).
  replace (ltb 0.005 (- (0.01))) with false
    by (symmetry; apply not_true_is_false; rewrite ltb_spec; lra).
  reflexivity.
Qed.

(** * The claims of the specification *)

(** C1. The energies are functions of the fields: the kinetic energy is
    1/2 m (vx^2 + vy^2), the potential energy is - m g (y - referenceHeight)
    with g the gravity magnitude negated, hence not positive, and the total
    is their sum with the thermal energy. A SkaterState returns these from
    its three getters; updateEnergy stores them in the skater's three
    energy Properties and leaves position, velocity, mass, gravity,
    reference height and thermal energy as they were; a snapshot of the
    skater takes the skater's signed gravity. The skater of Basics
    has no reference height: its potential energy is measured from the
    ground. *)
Theorem energy_bookkeeping :
  (forall s : SkaterState.t,
     SkaterState.getKineticEnergy s
     = 1 / 2 * SkaterState.mass s
       * (SkaterState.velocityX s ^ 2 + SkaterState.velocityY s ^ 2)
     /\ SkaterState.getPotentialEnergy s
        = - (SkaterState.mass s * SkaterState.gravity s
             * (SkaterState.positionY s - SkaterState.referenceHeight s))
     /\ SkaterState.getTotalEnergy s
        = SkaterState.getKineticEnergy s + SkaterState.getPotentialEnergy s
          + SkaterState.thermalEnergy s)
  /\ (forall s : Skater.t,
        let s' := Skater.updateEnergy s in
        let m := value (Skater.massProperty s) in
        let v := value (Skater.velocityProperty s) in
        let y := Vector2.y (value (Skater.positionProperty s)) in
        value (Skater.kineticEnergyProperty s')
        = 1 / 2 * m * (Vector2.x v ^ 2 + Vector2.y v ^ 2)
        /\ value (Skater.potentialEnergyProperty s')
           = - (m * Skater.gravity s * (y - value (Skater.referenceHeightProperty s)))
        /\ value (Skater.totalEnergyProperty s')
           = value (Skater.kineticEnergyProperty s')
             + value (Skater.potentialEnergyProperty s')
             + value (Skater.thermalEnergyProperty s)
        /\ Skater.gravity s = - value (Skater.gravityMagnitudeProperty s)
        /\ (0 <= value (Skater.gravityMagnitudeProperty s) -> Skater.gravity s <= 0)
        /\ value (Skater.positionProperty s') = value (Skater.positionProperty s)
        /\ value (Skater.velocityProperty s') = v
        /\ value (Skater.massProperty s') = m
        /\ Skater.gravity s' = Skater.gravity s
        /\ value (Skater.referenceHeightProperty s')
           = value (Skater.referenceHeightProperty s)
        /\ value (Skater.thermalEnergyProperty s')
           = value (Skater.thermalEnergyProperty s)
        /\ SkaterState.gravity
             (SkaterState.assigned (SkaterState.SkaterObject s) SkaterState.EMPTY_OBJECT)
           = Skater.gravity s)
  /\ (forall s : SkaterBasics.t,
        let s' := SkaterBasics.updateEnergy s in
        let m := value (SkaterBasics.massProperty s) in
        let v := value (SkaterBasics.velocityProperty s) in
        let y := Vector2.y (value (SkaterBasics.positionProperty s)) in
        value (SkaterBasics.kineticEnergyProperty s')
        = 1 / 2 * m * (Vector2.x v ^ 2 + Vector2.y v ^ 2)
        /\ value (SkaterBasics.potentialEnergyProperty s')
           = - (m * value (SkaterBasics.gravityProperty s) * (y - 0))
        /\ value (SkaterBasics.totalEnergyProperty s')
           = value (SkaterBasics.kineticEnergyProperty s')
             + value (SkaterBasics.potentialEnergyProperty s')
             + value (SkaterBasics.thermalEnergyProperty s)).
Proof.
  split; [|split].
  - intros s. unfold SkaterState.getKineticEnergy, SkaterState.getPotentialEnergy,
      SkaterState.getTotalEnergy. repeat split; lra.
  - intros s. destruct_skater s. skater_eval. repeat split; lra.
  - intros s. destruct_basics s. basics_eval. repeat split; lra.
Qed.

Lemma energy_bookkeeping_witness :
  0 <= value (Skater.gravityMagnitudeProperty Examples.released)
  /\ Skater.gravity Examples.released <= 0.
Proof.
  assert (H : 0 <= value (Skater.gravityMagnitudeProperty Examples.released))
    by (simpl; lra).
  split; [exact H|].
  exact (proj1 (proj2 (proj2 (proj2 (proj2
    (proj1 (proj2 energy_bookkeeping) Examples.released))))) H).
Defined.




(** C3, as the code has it. strikeGround puts a snapshot in free fall on
    the ground at the given x: y = 0, no velocity, angle 0, no track,
    upright, with the thermal energy it is given; so the thermal energy
    grows by exactly the kinetic energy before the impact when the caller
    gives the sum of the two. switchToGround returns a snapshot with no
    track, upright, at angle 0, with the thermal energy, the velocity and
    the position it is given. *)
Theorem ground_strike
    (h : gmap SkaterState.loc SkaterState.t) (this : SkaterState.loc) (s : SkaterState.t)
    (thermalEnergy velocityX velocityY positionX positionY : number) :
  h !! this = Some s ->
  SkaterState.track s = None ->
  0 <= SkaterState.thermalEnergy s ->
  0 <= thermalEnergy ->
  (exists l' h' s',
     SkaterState.strikeGround this thermalEnergy positionX h = Some (l', h')
     /\ h' !! l' = Some s'
     /\ SkaterState.positionX s' = positionX
     /\ SkaterState.positionY s' = 0
     /\ SkaterState.velocityX s' = 0
     /\ SkaterState.velocityY s' = 0
     /\ SkaterState.angle s' = 0
     /\ SkaterState.track s' = None
     /\ SkaterState.onTopSideOfTrack s' = true
     /\ SkaterState.thermalEnergy s' = thermalEnergy
     /\ (thermalEnergy = SkaterState.thermalEnergy s + SkaterState.getKineticEnergy s ->
         SkaterState.thermalEnergy s' - SkaterState.thermalEnergy s
         = SkaterState.getKineticEnergy s))
  /\ (exists l' h' s',
        SkaterState.switchToGround this thermalEnergy velocityX velocityY
          positionX positionY h = Some (l', h')
        /\ h' !! l' = Some s'
        /\ SkaterState.track s' = None
        /\ SkaterState.onTopSideOfTrack s' = true
        /\ SkaterState.angle s' = 0
        /\ SkaterState.thermalEnergy s' = thermalEnergy
        /\ SkaterState.velocityX s' = velocityX
        /\ SkaterState.velocityY s' = velocityY
        /\ SkaterState.positionX s' = positionX
        /\ SkaterState.positionY s' = positionY).
Proof.
  intros Hs Htrack Hth Harg. split.
  - eexists _, _, _. split; [by apply strikeGround_run|].
    split; [by rewrite lookup_insert_eq|].
    destruct s; simpl in *. repeat split; try done. intros ->. lra.
  - eexists _, _, _. split; [by apply switchToGround_run|].
    split; [by rewrite lookup_insert_eq|]. by destruct s.
Qed.

Lemma ground_strike_witness :
  exists l' h' s',
    SkaterState.strikeGround 1%positive 750 0.8 {[1%positive := Examples.falling]}
    = Some (l', h')
    /\ h' !! l' = Some s'
    /\ SkaterState.positionY s' = 0
    /\ SkaterState.thermalEnergy s' = 750.
Proof.
  assert (Hthis : ({[1%positive := Examples.falling]} : gmap _ _) !! 1%positive
                  = Some Examples.falling) by apply lookup_singleton_eq.
  assert (Hfree : SkaterState.track Examples.falling = None) by reflexivity.
  assert (Hth : 0 <= SkaterState.thermalEnergy Examples.falling) by (simpl; lra).
  assert (Harg : 0 <= 750) by lra.
  destruct (ground_strike _ _ _ 750 0 0 0.8 0 Hthis Hfree Hth Harg)
    as [(l' & h' & s' & Hrun & Hs' & _ & Hy & _ & _ & _ & _ & _ & Hth' & _) _].
  exists l', h', s'. repeat split; assumption.
Defined.

(** C3, as stated, fails: switchToGround of a snapshot in free fall keeps
    the velocity it is given, here 3 along x, and takes the thermal energy
    it is given, here 10, whatever the kinetic energy before, here 750. *)
Lemma ground_strike_counterexample :
  exists l' h' s',
    SkaterState.switchToGround 1%positive 10 3 0 0.8 0 {[1%positive := Examples.falling]}
    = Some (l', h')
    /\ h' !! l' = Some s'
    /\ SkaterState.track Examples.falling = None
    /\ SkaterState.getKineticEnergy Examples.falling = 750
    /\ SkaterState.velocityX s' = 3
    /\ SkaterState.velocityX s' <> 0
    /\ SkaterState.thermalEnergy s' = 10
    /\ SkaterState.thermalEnergy s'
       <> SkaterState.thermalEnergy Examples.falling
          + SkaterState.getKineticEnergy Examples.falling.
Proof.
  eexists _, _, _. split.
  - apply (switchToGround_run _ _ Examples.falling).
    + apply lookup_singleton_eq.
    + simpl. lra.
    + lra.
  - split; [by rewrite lookup_insert_eq|].
    unfold SkaterState.getKineticEnergy. simpl. repeat split; lra.
Qed.

(** C4. leaveTrack returns a snapshot off the track with no parametric
    speed, and with every other field of the receiver: position and
    velocity are preserved. *)
Theorem leaveTrack_preserves_motion
    (h : gmap SkaterState.loc SkaterState.t) (this : SkaterState.loc) (s : SkaterState.t) :
  h !! this = Some s ->
  0 <= SkaterState.thermalEnergy s ->
  exists l' h' s',
    SkaterState.leaveTrack this h = Some (l', h')
    /\ h' !! l' = Some s'
    /\ SkaterState.track s' = None
    /\ SkaterState.parametricSpeed s' = 0
    /\ SkaterState.positionX s' = SkaterState.positionX s
    /\ SkaterState.positionY s' = SkaterState.positionY s
    /\ SkaterState.velocityX s' = SkaterState.velocityX s
    /\ SkaterState.velocityY s' = SkaterState.velocityY s
    /\ SkaterState.thermalEnergy s' = SkaterState.thermalEnergy s
    /\ SkaterState.mass s' = SkaterState.mass s
    /\ SkaterState.gravity s' = SkaterState.gravity s
    /\ SkaterState.referenceHeight s' = SkaterState.referenceHeight s
    /\ SkaterState.angle s' = SkaterState.angle s
    /\ SkaterState.onTopSideOfTrack s' = SkaterState.onTopSideOfTrack s
    /\ SkaterState.parametricPosition s' = SkaterState.parametricPosition s
    /\ SkaterState.dragging s' = SkaterState.dragging s.
Proof.
  intros Hs Hth. eexists _, _, _. split; [by apply leaveTrack_run|].
  split; [by rewrite lookup_insert_eq|]. by destruct s.
Qed.

Lemma leaveTrack_preserves_motion_witness :
  exists l' h' s',
    SkaterState.leaveTrack 1%positive {[1%positive := Examples.riding]} = Some (l', h')
    /\ h' !! l' = Some s'
    /\ SkaterState.track s' = None
    /\ SkaterState.parametricSpeed s' = 0
    /\ SkaterState.positionX s' = 1
    /\ SkaterState.velocityX s' = 2.
Proof.
  assert (Hthis : ({[1%positive := Examples.riding]} : gmap _ _) !! 1%positive
                  = Some Examples.riding) by apply lookup_singleton_eq.
  assert (Hth : 0 <= SkaterState.thermalEnergy Examples.riding) by (simpl; lra).
  destruct (leaveTrack_preserves_motion _ _ _ Hthis Hth)
    as (l' & h' & s' & Hrun & Hs' & Htrack & Hspeed & Hx & _ & Hvx & _).
  exists l', h', s'. repeat split; assumption.
Defined.

(** C5. Every transform returns a new instance and leaves the receiver,
    like every other instance, with the fields it had. A transform has a
    result when the receiver is in the heap with a thermal energy that is
    not negative and the thermal energy given, if any, is not negative. *)
Theorem transforms_return_new_instances (tr : SkaterState.Transform)
    (h : gmap SkaterState.loc SkaterState.t) (this : SkaterState.loc) (s : SkaterState.t) :
  h !! this = Some s ->
  0 <= SkaterState.thermalEnergy s ->
  SkaterState.admissible tr ->
  exists l' h' s',
    SkaterState.transform tr this h = Some (l', h')
    /\ h !! l' = None
    /\ h' !! l' = Some s'
    /\ l' <> this
    /\ h' !! this = Some s
    /\ forall l, l <> l' -> h' !! l = h !! l.
Proof.
  intros Hs Hth Hadm.
  destruct (transform_run tr h this s Hs Hth Hadm) as (s' & Hrun & _).
  assert (Hfresh : h !! fresh (dom h) = None) by apply not_elem_of_dom, is_fresh.
  assert (Hne : fresh (dom h) <> this) by congruence.
  exists (fresh (dom h)), (<[fresh (dom h) := s']> h), s'.
  repeat split; try done.
  - apply lookup_insert_eq.
  - by rewrite lookup_insert_ne.
  - intros l Hl. by rewrite lookup_insert_ne.
Qed.

Lemma transforms_return_new_instances_witness :
  exists l' h' s',
    SkaterState.transform (SkaterState.StrikeGround 750 0.8) 1%positive
      {[1%positive := Examples.falling]} = Some (l', h')
    /\ h' !! l' = Some s'
    /\ l' <> 1%positive
    /\ h' !! 1%positive = Some Examples.falling.
Proof.
  assert (Hthis : ({[1%positive := Examples.falling]} : gmap _ _) !! 1%positive
                  = Some Examples.falling) by apply lookup_singleton_eq.
  assert (Hth : 0 <= SkaterState.thermalEnergy Examples.falling) by (simpl; lra).
  assert (Hadm : SkaterState.admissible (SkaterState.StrikeGround 750 0.8))
    by (unfold SkaterState.admissible; simpl; lra).
  destruct (transforms_return_new_instances _ _ _ _ Hthis Hth Hadm)
    as (l' & h' & s' & Hrun & _ & Hs' & Hne & Hkept & _).
  exists l', h', s'. repeat split; assumption.
Defined.

(** C6. copy returns a snapshot with the fields of the receiver, so the
    copy and the receiver have the same total energy. *)
Theorem copy_roundtrip
    (h : gmap SkaterState.loc SkaterState.t) (this : SkaterState.loc) (s : SkaterState.t) :
  h !! this = Some s ->
  0 <= SkaterState.thermalEnergy s ->
  exists l' h',
    SkaterState.copy this h = Some (l', h')
    /\ h' !! l' = Some s
    /\ h' !! this = Some s
    /\ SkaterState.getTotalEnergy <$> h' !! l' = SkaterState.getTotalEnergy <$> h' !! this.
Proof.
  intros Hs Hth. eexists _, _. split; [by apply copy_run|].
  assert (Hne : fresh (dom h) <> this).
  { intros Heq. pose proof (is_fresh (dom h)) as Hfresh.
    apply not_elem_of_dom in Hfresh. congruence. }
  rewrite lookup_insert_eq, lookup_insert_ne, Hs by done. done.
Qed.

Lemma copy_roundtrip_witness :
  exists l' h',
    SkaterState.copy 1%positive {[1%positive := Examples.riding]} = Some (l', h')
    /\ h' !! l' = Some Examples.riding.
Proof.
  assert (Hthis : ({[1%positive := Examples.riding]} : gmap _ _) !! 1%positive
                  = Some Examples.riding) by apply lookup_singleton_eq.
  assert (Hth : 0 <= SkaterState.thermalEnergy Examples.riding) by (simpl; lra).
  destruct (copy_roundtrip _ _ _ Hthis Hth) as (l' & h' & Hrun & Hl' & _).
  exists l', h'. repeat split; assumption.
Defined.

(** C7. returnSkater restores the last release: when a starting track was
    recorded, the skater is on that very track and the track has the
    control-point sources recorded at release, the skater stays on the
    track, with parametric position, angle and side restored and no
    parametric speed; otherwise the skater is taken off the track. In both
    cases the skater is at the starting position with no velocity. The
    skater has been released, so the angle and the sources at release are
    defined. The skater of Basics does the same. *)
Theorem returnSkater_restores_release :
  (forall (env : TrackEnv.t) (s : Skater.t) (angle : number) (sources : list Vector2.t),
     Skater.startingAngle s = Some angle ->
     Skater.startingTrackControlPointSources s = Some sources ->
     let unchanged :=
       exists track,
         value (Skater.startingTrackProperty s) = Some track
         /\ value (Skater.trackProperty s) = Some track
         /\ TrackEnv.copyControlPointSources env track = sources in
     exists s',
       Skater.returnSkater env s = Some s'
       /\ (unchanged ->
           value (Skater.trackProperty s') = value (Skater.trackProperty s)
           /\ value (Skater.parametricPositionProperty s')
              = value (Skater.startingUProperty s)
           /\ value (Skater.angleProperty s') = angle
           /\ value (Skater.onTopSideOfTrackProperty s')
              = value (Skater.startingUpProperty s)
           /\ value (Skater.parametricSpeedProperty s') = 0)
       /\ (~ unchanged ->
           value (Skater.trackProperty s') = None
           /\ value (Skater.angleProperty s') = angle)
       /\ value (Skater.positionProperty s') = value (Skater.startingPositionProperty s)
       /\ value (Skater.velocityProperty s') = Vector2.mk 0 0)
  /\ (forall (constants : SkaterBasics.Constants) (env : TrackEnv.t) (s : SkaterBasics.t)
        (angle : number) (sources : list Vector2.t),
        SkaterBasics.startingAngle s = Some angle ->
        SkaterBasics.startingTrackControlPointSources s = Some sources ->
        let unchanged :=
          exists track,
            value (SkaterBasics.startingTrackProperty s) = Some track
            /\ value (SkaterBasics.trackProperty s) = Some track
            /\ TrackEnv.copyControlPointSources env track = sources in
        exists s',
          SkaterBasics.returnSkater constants env s = Some s'
          /\ (unchanged ->
              value (SkaterBasics.trackProperty s') = value (SkaterBasics.trackProperty s)
              /\ value (SkaterBasics.parametricPositionProperty s')
                 = value (SkaterBasics.startingUProperty s)
              /\ value (SkaterBasics.angleProperty s') = angle
              /\ value (SkaterBasics.onTopSideOfTrackProperty s')
                 = value (SkaterBasics.startingUpProperty s)
              /\ value (SkaterBasics.parametricSpeedProperty s') = 0)
          /\ (~ unchanged ->
              value (SkaterBasics.trackProperty s') = None
              /\ value (SkaterBasics.angleProperty s') = angle)
          /\ value (SkaterBasics.positionProperty s')
             = value (SkaterBasics.startingPositionProperty s)
          /\ value (SkaterBasics.velocityProperty s') = Vector2.mk 0 0).
Proof.
  split.
  - intros env s angle sources Hangle Hsources. cbv zeta.
    destruct (onUnchangedStartingTrack_spec env s sources Hsources)
      as ([|] & Hsame & Hiff).
    + destruct (returnSkater_sameTrack env s angle Hsame Hangle)
        as (s' & Hrun & Htrack & Hu & Ha & Hup & Hspeed & Hpos & Hvel & _).
      exists s'. split; [done|]. split; [done|]. split; [|done].
      intros Hnot. destruct Hnot. by apply Hiff.
    + destruct (returnSkater_otherTrack env s angle Hsame Hangle)
        as (s' & Hrun & Htrack & Ha & Hpos & Hvel & _).
      exists s'. split; [done|]. split; [|done].
      intros Hyes. apply Hiff in Hyes. discriminate.
  - intros constants env s angle sources Hangle Hsources. cbv zeta.
    destruct (basics_onUnchangedStartingTrack_spec env s sources Hsources)
      as ([|] & Hsame & Hiff).
    + destruct (basics_returnSkater_sameTrack constants env s angle Hsame Hangle)
        as (s' & Hrun & Htrack & Hu & Ha & Hup & Hspeed & Hpos & Hvel & _).
      exists s'. split; [done|]. split; [done|]. split; [|done].
      intros Hnot. destruct Hnot. by apply Hiff.
    + destruct (basics_returnSkater_otherTrack constants env s angle Hsame Hangle)
        as (s' & Hrun & Htrack & Ha & Hpos & Hvel & _).
      exists s'. split; [done|]. split; [|done].
      intros Hyes. apply Hiff in Hyes. discriminate.
Qed.

Lemma returnSkater_restores_release_witness :
  exists s',
    Skater.returnSkater Examples.env Examples.released = Some s'
    /\ value (Skater.positionProperty s') = Vector2.mk 1 0
    /\ value (Skater.velocityProperty s') = Vector2.mk 0 0.
Proof.
  assert (Hangle : Skater.startingAngle Examples.released = Some 0) by reflexivity.
  assert (Hsources : Skater.startingTrackControlPointSources Examples.released
                     = Some Examples.sources) by reflexivity.
  destruct (proj1 returnSkater_restores_release Examples.env Examples.released 0
              Examples.sources Hangle Hsources)
    as (s' & Hrun & _ & _ & Hpos & Hvel).
  exists s'. repeat split; assumption.
Defined.

(** C8, as the code has it. Both operations leave the skater as it was
    constructed, with these differences. returnToInitialPosition keeps the
    mass. resetPosition keeps the mass and the reference height, and
    computes the energies and the head position again from them. Neither
    touches the two plain fields of the last release. *)
Theorem reset_keeping_mass (options : Skater.Options.t) (s : Skater.t) :
  Skater.initialValues s = Skater.initialValues (Skater.new options) ->
  Skater.returnToInitialPosition s
  = Skater.new options
      |> Skater.upd_massProperty (Property.set (value (Skater.massProperty s)))
      |> Skater.set_startingTrackControlPointSources
           (Skater.startingTrackControlPointSources s)
      |> Skater.set_startingAngle (Skater.startingAngle s)
  /\ Skater.resetPosition s
     = Skater.new options
         |> Skater.upd_massProperty (Property.set (value (Skater.massProperty s)))
         |> Skater.upd_referenceHeightProperty
              (Property.set (value (Skater.referenceHeightProperty s)))
         |> Skater.set_startingTrackControlPointSources
              (Skater.startingTrackControlPointSources s)
         |> Skater.set_startingAngle (Skater.startingAngle s)
         |> Skater.updateEnergy
         |> Skater.updatedEmitter_emit
  /\ value (Skater.massProperty (Skater.returnToInitialPosition s))
     = value (Skater.massProperty s)
  /\ value (Skater.massProperty (Skater.resetPosition s))
     = value (Skater.massProperty s)
  /\ value (Skater.referenceHeightProperty (Skater.resetPosition s))
     = value (Skater.referenceHeightProperty s).
Proof.
  intros Hinit.
  split; [by apply returnToInitialPosition_closed|].
  split; [by apply resetPosition_closed|].
  rewrite (returnToInitialPosition_closed options s Hinit).
  rewrite (resetPosition_closed options s Hinit).
  rewrite new_unfold. destruct_skater s. skater_eval. repeat split.
Qed.

Lemma reset_keeping_mass_witness :
  value (Skater.massProperty (Skater.resetPosition Examples.released)) = 60
  /\ value (Skater.massProperty (Skater.returnToInitialPosition Examples.released)) = 60.
Proof.
  assert (Hinit : Skater.initialValues Examples.released
                  = Skater.initialValues (Skater.new Examples.options)).
  { rewrite initialValues_new. reflexivity. }
  destruct (reset_keeping_mass Examples.options Examples.released Hinit)
    as (_ & _ & Hreturn & Hreset & _).
  split; assumption.
Defined.

(** C8, as stated, fails: resetPosition of a skater whose reference height
    was raised to 2 leaves the reference height at 2, not at the 0 of
    construction. *)
Lemma resetPosition_counterexample :
  value (Skater.referenceHeightProperty (Skater.resetPosition Examples.raised)) = 2
  /\ value (Skater.referenceHeightProperty (Skater.new Examples.options)) = 0
  /\ value (Skater.referenceHeightProperty (Skater.resetPosition Examples.raised))
     <> value (Skater.referenceHeightProperty (Skater.new Examples.options)).
Proof.
  assert (Hinit : Skater.initialValues Examples.raised
                  = Skater.initialValues (Skater.new Examples.options)).
  { rewrite initialValues_new. unfold Examples.raised. rewrite new_unfold.
    unfold Skater.initialValues. skater_eval. reflexivity. }
  rewrite (resetPosition_closed Examples.options _ Hinit).
  unfold Examples.raised. rewrite new_unfold. skater_eval. repeat split; lra.
Qed.

(** C9, as the code has it. When the dragging flag becomes true the
    velocity is set to zero, and grabbing the skater sets the flag and
    clears the thermal energy. A dragged skater then has no velocity in
    every world reached without a commit of a snapshot to the skater while
    it is dragged; a commit writes the velocity of the snapshot to the
    skater and leaves the flag as it is. *)
Theorem dragging_zeroes_velocity :
  (forall (options : Skater.Options.t) (actions : list Sim.Action) (w : Sim.World),
     Sim.wellFormed options ->
     Sim.run actions (Sim.initial options) = Some w ->
     Sim.neverCommitsWhileDragging actions (Sim.initial options) = true ->
     value (Skater.draggingProperty (Sim.skater w)) = true ->
     value (Skater.velocityProperty (Sim.skater w)) = Vector2.mk 0 0)
  /\ (forall s : Skater.t,
        value (Skater.draggingProperty s) = false ->
        value (Skater.draggingProperty (Skater.set_dragging true s)) = true
        /\ value (Skater.velocityProperty (Skater.set_dragging true s)) = Vector2.mk 0 0)
  /\ (forall (env : TrackEnv.t) (event : SkaterNode.DragEvent) (node : SkaterNode.t)
        (s : Skater.t),
        let s' := (SkaterNode.start env event node s).2 in
        value (Skater.draggingProperty s') = true
        /\ value (Skater.thermalEnergyProperty s') = 0)
  /\ (forall (state : SkaterState.t) (env : TrackEnv.t) (s : Skater.t),
        let s' := s |> SkaterState.setToSkater state env |> Skater.updatedEmitter_emit in
        value (Skater.velocityProperty s')
        = Vector2.mk (SkaterState.velocityX state) (SkaterState.velocityY state)
        /\ value (Skater.draggingProperty s') = value (Skater.draggingProperty s)).
Proof.
  split; [|split; [|split]].
  - intros options actions w Hwf Hrun Hcalm.
    apply (run_still options actions (Sim.initial options) w Hwf);
      [by apply initial_invariant|apply new_still|done|done].
  - apply set_dragging_true.
  - apply start_grabs.
  - intros state env s. cbv zeta.
    destruct (commit_values state env s) as (Hvel & _ & Hdrag & _). by split.
Qed.

Lemma dragging_zeroes_velocity_witness :
  exists w0 w,
    Sim.run Examples.moving (Sim.initial Examples.options) = Some w0
    /\ value (Skater.velocityProperty (Sim.skater w0)) = Vector2.mk 2 0
    /\ Sim.run Examples.grabbing (Sim.initial Examples.options) = Some w
    /\ value (Skater.draggingProperty (Sim.skater w)) = true
    /\ value (Skater.velocityProperty (Sim.skater w)) = Vector2.mk 0 0.
Proof.
  destruct grabbing_run as (w0 & w & Hmoving & Hvelocity & Hrun & Hcalm & Hdrag).
  exists w0, w. split; [exact Hmoving|]. split; [exact Hvelocity|].
  split; [exact Hrun|]. split; [exact Hdrag|].
  exact (proj1 dragging_zeroes_velocity Examples.options Examples.grabbing w
           options_wellFormed Hrun Hcalm Hdrag).
Defined.

(** C9, as stated, fails: the skater is grabbed, a snapshot of it that
    continues in free fall at 2 m/s is committed to it, and the skater of
    that reachable world is dragged with a velocity of 2 m/s. *)
Lemma commit_while_dragging_counterexample :
  exists w,
    Sim.run Examples.committing (Sim.initial Examples.options) = Some w
    /\ Sim.reachable Examples.options w
    /\ value (Skater.draggingProperty (Sim.skater w)) = true
    /\ value (Skater.velocityProperty (Sim.skater w)) = Vector2.mk 2 0
    /\ value (Skater.velocityProperty (Sim.skater w)) <> Vector2.mk 0 0.
Proof.
  destruct committing_run as (w & Hrun & Hdrag & Hvelocity).
  exists w. split; [exact Hrun|]. split; [by exists Examples.committing|].
  split; [exact Hdrag|]. split; [exact Hvelocity|].
  rewrite Hvelocity. intros [= H]. lra.
Qed.

(** C10. When the parametric speed takes a new value, the skater faces
    right for a speed above 0.01 on top of the track (left on the
    underside), left for a speed below -0.01 on top (right on the
    underside), and keeps its direction for a speed within the threshold;
    an assignment that does not change the speed changes nothing. This is
    stated of the listener linked to parametricSpeedProperty and of the
    assignment that runs it. The skater of Basics does the same. *)
Theorem direction_hysteresis :
  (forall (v : number) (s : Skater.t),
     let onTop := value (Skater.onTopSideOfTrackProperty s) in
     (* the listener *)
     (let s' := Skater.parametricSpeedListener v s in
      (v > 0.01 ->
       value (Skater.directionProperty s') = (if onTop then "right" else "left")%string)
      /\ (v < - (0.01) ->
          value (Skater.directionProperty s') = (if onTop then "left" else "right")%string)
      /\ (Rabs v <= 0.01 -> s' = s))
     (* the assignment *)
     /\ (let s' := Skater.set_parametricSpeed v s in
         (v <> value (Skater.parametricSpeedProperty s) ->
          (v > 0.01 ->
           value (Skater.directionProperty s')
           = (if onTop then "right" else "left")%string)
          /\ (v < - (0.01) ->
              value (Skater.directionProperty s')
              = (if onTop then "left" else "right")%string))
         /\ (Rabs v <= 0.01 ->
             value (Skater.directionProperty s') = value (Skater.directionProperty s))
         /\ (v = value (Skater.parametricSpeedProperty s) -> s' = s)
         /\ value (Skater.parametricSpeedProperty s') = v))
  /\ (forall (v : number) (s : SkaterBasics.t),
        let onTop := value (SkaterBasics.onTopSideOfTrackProperty s) in
        (let s' := SkaterBasics.parametricSpeedListener v s in
         (v > 0.01 ->
          value (SkaterBasics.directionProperty s')
          = (if onTop then "right" else "left")%string)
         /\ (v < - (0.01) ->
             value (SkaterBasics.directionProperty s')
             = (if onTop then "left" else "right")%string)
         /\ (Rabs v <= 0.01 -> s' = s))
        /\ (let s' := SkaterBasics.set_parametricSpeed v s in
            (v <> value (SkaterBasics.parametricSpeedProperty s) ->
             (v > 0.01 ->
              value (SkaterBasics.directionProperty s')
              = (if onTop then "right" else "left")%string)
             /\ (v < - (0.01) ->
                 value (SkaterBasics.directionProperty s')
                 = (if onTop then "left" else "right")%string))
            /\ (Rabs v <= 0.01 ->
                value (SkaterBasics.directionProperty s')
                = value (SkaterBasics.directionProperty s))
            /\ (v = value (SkaterBasics.parametricSpeedProperty s) -> s' = s)
            /\ value (SkaterBasics.parametricSpeedProperty s') = v)).
Proof.
  split.
  - intros v s. cbv zeta.
    unfold Skater.set_parametricSpeed, Skater.parametricSpeedListener. cbv zeta.
    destruct (gtb v _) eqn:Hgt; [|destruct (ltb v _) eqn:Hlt].
    + apply gtb_spec in Hgt. split.
      { split; [done|]. split; [intros; lra|intros Habs%Rabs_le_bounds; lra]. }
      destruct (eqb v _) eqn:Hv; [apply eqb_spec in Hv|];
        (split; [intros Hne; split; [done|intros; lra]|]);
        (split; [intros Habs%Rabs_le_bounds; lra|]); (split; [|done]); try done.
      intros Heq. apply eqb_spec in Heq. congruence.
    + apply ltb_spec in Hlt. split.
      { split; [intros; lra|]. split; [done|intros Habs%Rabs_le_bounds; lra]. }
      destruct (eqb v _) eqn:Hv; [apply eqb_spec in Hv|];
        (split; [intros Hne; split; [intros; lra|done]|]);
        (split; [intros Habs%Rabs_le_bounds; lra|]); (split; [|done]); try done.
      intros Heq. apply eqb_spec in Heq. congruence.
    + assert (~ v > 0.01) by (rewrite <- gtb_spec; congruence).
      assert (~ v < - (0.01)) by (rewrite <- ltb_spec; congruence).
      split; [split; [intros; lra|split; [intros; lra|done]]|].
      destruct (eqb v _) eqn:Hv; [apply eqb_spec in Hv|];
        (split; [intros Hne; split; intros; lra|]);
        (split; [done|]); (split; [|done]); try done.
      intros Heq. apply eqb_spec in Heq. congruence.
  - intros v s. cbv zeta.
    unfold SkaterBasics.set_parametricSpeed, SkaterBasics.parametricSpeedListener.
    cbv zeta.
    destruct (gtb v _) eqn:Hgt; [|destruct (ltb v _) eqn:Hlt].
    + apply gtb_spec in Hgt. split.
      { split; [done|]. split; [intros; lra|intros Habs%Rabs_le_bounds; lra]. }
      destruct (eqb v _) eqn:Hv; [apply eqb_spec in Hv|];
        (split; [intros Hne; split; [done|intros; lra]|]);
        (split; [intros Habs%Rabs_le_bounds; lra|]); (split; [|done]); try done.
      intros Heq. apply eqb_spec in Heq. congruence.
    + apply ltb_spec in Hlt. split.
      { split; [intros; lra|]. split; [done|intros Habs%Rabs_le_bounds; lra]. }
      destruct (eqb v _) eqn:Hv; [apply eqb_spec in Hv|];
        (split; [intros Hne; split; [intros; lra|done]|]);
        (split; [intros Habs%Rabs_le_bounds; lra|]); (split; [|done]); try done.
      intros Heq. apply eqb_spec in Heq. congruence.
    + assert (~ v > 0.01) by (rewrite <- gtb_spec; congruence).
      assert (~ v < - (0.01)) by (rewrite <- ltb_spec; congruence).
      split; [split; [intros; lra|split; [intros; lra|done]]|].
      destruct (eqb v _) eqn:Hv; [apply eqb_spec in Hv|];
        (split; [intros Hne; split; intros; lra|]);
        (split; [done|]); (split; [|done]); try done.
      intros Heq. apply eqb_spec in Heq. congruence.
Qed.

Lemma direction_hysteresis_witness :
  value (Skater.directionProperty (Skater.set_parametricSpeed (-3) Examples.released))
  = "left"%string.
Proof.
  assert (Hne : -3 <> value (Skater.parametricSpeedProperty Examples.released))
    by (simpl; lra).
  assert (Hlt : -3 < - (0.01)) by lra.
  exact (proj2 (proj1 (proj2 (proj1 direction_hysteresis (-3) Examples.released)) Hne)
           Hlt).
Defined.

(** * Further properties of the code *)

(** ** Speed and kinetic energy of a snapshot *)

(** X1. For a snapshot of positive mass, getSpeedFromEnergy undoes
    getKineticEnergy: the speed computed from the kinetic energy of the
    snapshot is its speed. The speed computed from any energy is the speed
    at which the snapshot has the absolute value of that energy as kinetic
    energy, so an energy and its opposite give the same speed. *)
Theorem speed_from_kinetic_energy (s : SkaterState.t) (kineticEnergy : number) :
  0 < SkaterState.mass s ->
  SkaterState.getSpeedFromEnergy s (SkaterState.getKineticEnergy s)
  = SkaterState.getSpeed s
  /\ 0.5 * SkaterState.mass s
     * (SkaterState.getSpeedFromEnergy s kineticEnergy
        * SkaterState.getSpeedFromEnergy s kineticEnergy)
     = Rabs kineticEnergy
  /\ SkaterState.getSpeedFromEnergy s (- kineticEnergy)
     = SkaterState.getSpeedFromEnergy s kineticEnergy.
Proof.
  intros Hmass.
  unfold SkaterState.getSpeedFromEnergy, SkaterState.getKineticEnergy, SkaterState.getSpeed.
  set (m := SkaterState.mass s) in *.
  set (vx := SkaterState.velocityX s). set (vy := SkaterState.velocityY s).
  split; [|split].
  - f_equal.
    assert (Hv : 0 <= vx * vx + vy * vy) by nra.
    rewrite Rabs_right by nra. replace 0.5 with (1 / 2) by lra. field. lra.
  - rewrite sqrt_sqrt.
    + replace 0.5 with (1 / 2) by lra. field. lra.
    + pose proof (Rabs_pos kineticEnergy).
      apply Rmult_le_pos; [lra|]. apply Rlt_le, Rinv_0_lt_compat, Hmass.
  - by rewrite Rabs_Ropp.
Qed.

Lemma speed_from_kinetic_energy_witness :
  SkaterState.getSpeedFromEnergy Examples.falling
    (SkaterState.getKineticEnergy Examples.falling)
  = SkaterState.getSpeed Examples.falling.
Proof.
  assert (Hmass : 0 < SkaterState.mass Examples.falling) by (simpl; lra).
  exact (proj1 (speed_from_kinetic_energy Examples.falling 0 Hmass)).
Defined.

(** ** The assertions of the transforms *)

Section TransformFailure.

Import SkaterState.

Implicit Types (h : gmap loc t) (this : loc) (s : t).



End TransformFailure.

(** ** Committing a snapshot *)

Section Commit.

Import SkaterState.

(** setToSkater as a sequence of plain assignments. *)
Lemma setToSkater_nf (this : t) env (skater : Skater.t) :
  exists direction,
    setToSkater this env skater
    = skater
        |> Skater.upd_trackProperty (Property.set (track this))
        |> Skater.upd_positionProperty
             (Property.set (Vector2.mk (positionX this) (positionY this)))
        |> Skater.upd_velocityProperty
             (Property.set (Vector2.mk (velocityX this) (velocityY this)))
        |> Skater.upd_parametricPositionProperty (Property.set (parametricPosition this))
        |> Skater.upd_parametricSpeedProperty (Property.set (parametricSpeed this))
        |> Skater.upd_directionProperty (Property.set direction)
        |> Skater.upd_thermalEnergyProperty (Property.set (thermalEnergy this))
        |> Skater.upd_onTopSideOfTrackProperty (Property.set (onTopSideOfTrack this))
        |> Skater.upd_angleProperty (Property.set
             match track this with
             | Some track =>
                 TrackEnv.getViewAngleAt env track (parametricPosition this)
                 + (if onTopSideOfTrack this then 0 else PI)
             | None => angle this
             end)
        |> Skater.updateEnergy.
Proof.
  unfold setToSkater. cbv zeta.
  match goal with
  | |- context [Skater.set_parametricSpeed ?v ?s] =>
      destruct (set_parametricSpeed_nf v s) as [d Hd]
  end.
  exists d. rewrite Hd. destruct_skater skater. reflexivity.
Qed.

(** X3. A snapshot of the skater taken right after setToSkater has the
    position, velocity, track, parametric position and speed, thermal
    energy and side of the snapshot that was committed; its angle is the
    view angle of the track at the parametric position, turned by pi on the
    underside, or the committed angle off the track. Mass, gravity,
    reference height and dragging flag are those the skater had:
    setToSkater writes none of them. *)
Theorem setToSkater_then_snapshot (this : t) (env : TrackEnv.t) (skater : Skater.t) :
  let skater' := setToSkater this env skater in
  let state := assigned (SkaterObject skater') EMPTY_OBJECT in
  positionX state = positionX this
  /\ positionY state = positionY this
  /\ velocityX state = velocityX this
  /\ velocityY state = velocityY this
  /\ track state = track this
  /\ parametricPosition state = parametricPosition this
  /\ parametricSpeed state = parametricSpeed this
  /\ thermalEnergy state = thermalEnergy this
  /\ onTopSideOfTrack state = onTopSideOfTrack this
  /\ angle state
     = match track this with
       | Some track =>
           TrackEnv.getViewAngleAt env track (parametricPosition this)
           + (if onTopSideOfTrack this then 0 else PI)
       | None => angle this
       end
  /\ mass state = value (Skater.massProperty skater)
  /\ gravity state = Skater.gravity skater
  /\ referenceHeight state = value (Skater.referenceHeightProperty skater)
  /\ dragging state = value (Skater.draggingProperty skater).
Proof.
  cbv zeta. destruct (setToSkater_nf this env skater) as [d ->].
  destruct_skater skater. destruct this. unfold assigned, getValue, getCoordinate.
  cbn [EMPTY_OBJECT Overrides.positionX Overrides.positionY Overrides.velocityX
       Overrides.velocityY Overrides.gravity Overrides.referenceHeight Overrides.mass
       Overrides.track Overrides.angle Overrides.onTopSideOfTrack
       Overrides.parametricPosition Overrides.parametricSpeed Overrides.dragging
       Overrides.thermalEnergy].
  skater_eval. simpl. repeat split.
Qed.

(** X4. When a snapshot has the mass, the gravity and the reference height
    of the skater, setToSkater leaves the skater with the energies of the
    snapshot: kinetic, potential, thermal and total. *)
Theorem setToSkater_energies (this : t) (env : TrackEnv.t) (skater : Skater.t) :
  mass this = value (Skater.massProperty skater) ->
  gravity this = Skater.gravity skater ->
  referenceHeight this = value (Skater.referenceHeightProperty skater) ->
  let skater' := setToSkater this env skater in
  value (Skater.kineticEnergyProperty skater') = getKineticEnergy this
  /\ value (Skater.potentialEnergyProperty skater') = getPotentialEnergy this
  /\ value (Skater.thermalEnergyProperty skater') = thermalEnergy this
  /\ value (Skater.totalEnergyProperty skater') = getTotalEnergy this.
Proof.
  cbv zeta. destruct (setToSkater_nf this env skater) as [d ->].
  destruct_skater skater. destruct this.
  unfold getKineticEnergy, getPotentialEnergy, getTotalEnergy.
  skater_eval. simpl. intros -> -> ->. repeat split; lra.
Qed.

Lemma setToSkater_energies_witness :
  value (Skater.totalEnergyProperty
           (setToSkater Examples.riding Examples.env Examples.released))
  = getTotalEnergy Examples.riding.
Proof.
  assert (Hmass : mass Examples.riding = value (Skater.massProperty Examples.released))
    by reflexivity.
  assert (Hgravity : gravity Examples.riding = Skater.gravity Examples.released)
    by (unfold Skater.gravity; simpl; lra).
  assert (Hheight : referenceHeight Examples.riding
                    = value (Skater.referenceHeightProperty Examples.released))
    by reflexivity.
  destruct (setToSkater_energies Examples.riding Examples.env Examples.released
              Hmass Hgravity Hheight) as (_ & _ & _ & Htotal).
  exact Htotal.
Defined.

End Commit.

(** ** The head of the skater *)

Section Head.

Import Skater.

Implicit Types (s : t).

Lemma cos_minus_PI2 (a : number) : cos (a - PI / 2) = sin a.
Proof.
  rewrite <- (cos_neg (a - PI / 2)).
  replace (- (a - PI / 2)) with (PI / 2 - a) by lra. apply cos_shift.
Qed.

Lemma sin_minus_PI2 (a : number) : sin (a - PI / 2) = - cos a.
Proof.
  replace (a - PI / 2) with (- (PI / 2 - a)) by lra. rewrite sin_neg. by rewrite sin_shift.
Qed.

(** Utils.linear stays between its two values between its two arguments. *)
Lemma linear_between (a1 a2 b1 b2 a3 : number) :
  a1 < a2 -> b1 <= b2 -> a1 <= a3 <= a2 -> b1 <= Utils.linear a1 a2 b1 b2 a3 <= b2.
Proof.
  intros Ha Hb [Hlo Hhi]. unfold Utils.linear.
  assert (Hd : 0 < a2 - a1) by lra.
  assert (Hfrac : 0 <= (a3 - a1) / (a2 - a1) <= 1).
  { split.
    - apply Rmult_le_pos; [lra|]. by apply Rlt_le, Rinv_0_lt_compat.
    - apply (Rmult_le_reg_r (a2 - a1)); [done|]. unfold Rdiv.
      rewrite Rmult_assoc, Rinv_l by lra. lra. }
  replace ((b2 - b1) / (a2 - a1) * (a3 - a1)) with ((b2 - b1) * ((a3 - a1) / (a2 - a1)))
    by (field; lra).
  nra.
Qed.

(** X5. The head of the skater is at the skater's height from the feet, in
    the direction of the angle: at (x + h sin a, y + h cos a), hence
    straight above the feet at angle 0. With the mass within a mass range
    that is not a single point, the height h lies between 1.65 and 2.4, and
    after updateHeadPosition the vector from feet to head has length h. *)
Theorem head_position_geometry s :
  let skaterHeight :=
    Utils.linear (Range.min (massRange s)) (Range.max (massRange s)) 1.65 2.4
      (value (massProperty s)) in
  let feet := value (positionProperty s) in
  let angle := value (angleProperty s) in
  getHeadPosition s
  = Vector2.mk (Vector2.x feet + skaterHeight * sin angle)
      (Vector2.y feet + skaterHeight * cos angle)
  /\ (angle = 0 ->
      getHeadPosition s = Vector2.mk (Vector2.x feet) (Vector2.y feet + skaterHeight))
  /\ (Range.min (massRange s) < Range.max (massRange s) ->
      Range.contains (massRange s) (value (massProperty s)) ->
      1.65 <= skaterHeight <= 2.4
      /\ Vector2.magnitude (upVector (updateHeadPosition s)) = skaterHeight).
Proof.
  cbv zeta.
  assert (Hhead : getHeadPosition s
    = Vector2.mk (Vector2.x (value (positionProperty s))
                  + Utils.linear (Range.min (massRange s)) (Range.max (massRange s)) 1.65 2.4
                      (value (massProperty s)) * sin (value (angleProperty s)))
        (Vector2.y (value (positionProperty s))
         + Utils.linear (Range.min (massRange s)) (Range.max (massRange s)) 1.65 2.4
             (value (massProperty s)) * cos (value (angleProperty s)))).
  { unfold getHeadPosition, headPositionAt. cbv zeta.
    rewrite cos_minus_PI2, sin_minus_PI2. f_equal. lra. }
  split; [exact Hhead|]. split.
  - intros Hangle. rewrite Hhead, Hangle, sin_0, cos_0. f_equal; lra.
  - intros Hrange Hmass.
    assert (Hbounds := linear_between _ _ 1.65 2.4 _ Hrange ltac:(lra) Hmass).
    split; [exact Hbounds|].
    unfold upVector, updateHeadPosition. cbv zeta. rewrite Hhead.
    destruct_skater s. skater_eval. unfold Vector2.magnitude, Vector2.minus.
    skater_eval. cbn [Range.min Range.max] in *.
    match goal with
    | |- sqrt ?e = ?hgt => replace e with (Rsqr hgt)
    end.
    + apply sqrt_Rsqr. cbn in Hbounds. lra.
    + unfold Rsqr.
      match goal with
      | |- context [sin ?a] => pose proof (sin2_cos2 a) as Htrig
      end.
      unfold Rsqr in Htrig. nra.
Qed.

Lemma head_position_geometry_witness :
  1.65 <= Utils.linear 25 100 1.65 2.4 60 <= 2.4.
Proof.
  assert (Hrange : Range.min (massRange Examples.released)
                   < Range.max (massRange Examples.released)) by (simpl; lra).
  assert (Hmass : Range.contains (massRange Examples.released)
                    (value (massProperty Examples.released)))
    by (unfold Range.contains; simpl; lra).
  exact (proj1 (proj2 (proj2 (head_position_geometry Examples.released)) Hrange Hmass)).
Defined.

End Head.
